(** * ANGLE: the EGL display backend and framebuffer attachments

    A shallow embedding of
    - [src/libANGLE/renderer/gl/egl/DisplayEGL.cpp]: context negotiation
      ([initializeContext]), the per-thread current-context cache
      ([makeCurrent], [destroyNativeContext]), config classification
      ([generateConfigs]) and the unimplemented pixmap entry point;
    - [src/libANGLE/FramebufferAttachment.cpp]: [attach] and [detach].

    The native EGL driver is an oracle: every native entry point answers as
    an arbitrary function of the calls issued so far.  Every native call is
    appended to a log, so that the order and number of calls can be stated. *)

From Stdlib Require Import ZArith List String Bool Lia.
From stdpp Require Import base option list gmap strings.

Local Open Scope Z_scope.

(** ** Handles, integers and header constants *)

Abbreviation EGLint := Z (only parsing).
Abbreviation EGLAttrib := Z (only parsing).
Abbreviation EGLenum := Z (only parsing).
Abbreviation EGLBoolean := Z (only parsing).
Abbreviation EGLContext := Z (only parsing).
Abbreviation EGLSurface := Z (only parsing).
Abbreviation EGLConfig := Z (only parsing).
Abbreviation thread_id := nat (only parsing).

(** [static_cast<EGLint>]: the 32-bit two's complement value of an integer. *)
Definition to_EGLint (z : Z) : EGLint := (z + 2 ^ 31) mod 2 ^ 32 - 2 ^ 31.

(** Conversion of an [int] to a 32-bit unsigned integer ([unsigned int],
    [EGLenum], [EGLBoolean]): a negative value wraps around. *)
Definition to_unsigned (z : Z) : Z := z mod 2 ^ 32.

(** Modelled from the spec: the EGL and GL header constants ([EGL/egl.h],
    [EGL/eglext.h], [GLES3/gl3.h]) are not part of the two source files; the
    names are the ones the code uses, with the values of the Khronos
    headers. *)
Module K.
Definition EGL_FALSE : EGLBoolean := 0.
Definition EGL_TRUE : EGLBoolean := 1.
Definition EGL_NO_CONTEXT : EGLContext := 0.
Definition EGL_NO_SURFACE : EGLSurface := 0.
Definition EGL_NO_CONFIG_KHR : EGLConfig := 0.
Definition EGL_DONT_CARE : EGLint := -1.
Definition EGL_SUCCESS : EGLint := 0x3000.
Definition EGL_BAD_ATTRIBUTE : EGLint := 0x3004.
Definition EGL_NONE : EGLint := 0x3038.
Definition EGL_CONTEXT_MAJOR_VERSION : EGLint := 0x3098.
Definition EGL_CONTEXT_CLIENT_VERSION : EGLint := 0x3098.
Definition EGL_CONTEXT_MINOR_VERSION : EGLint := 0x30FB.
Definition EGL_CONTEXT_OPENGL_RESET_NOTIFICATION_STRATEGY : EGLint := 0x31BD.
Definition EGL_LOSE_CONTEXT_ON_RESET : EGLint := 0x31BF.
Definition EGL_GENERATE_RESET_ON_VIDEO_MEMORY_PURGE_NV : EGLint := 0x334C.
Definition EGL_PLATFORM_ANGLE_MAX_VERSION_MAJOR_ANGLE : EGLint := 0x3204.
Definition EGL_PLATFORM_ANGLE_MAX_VERSION_MINOR_ANGLE : EGLint := 0x3205.
Definition GL_TRUE : EGLint := 1.

Definition EGL_BUFFER_SIZE : EGLint := 0x3020.
Definition EGL_ALPHA_SIZE : EGLint := 0x3021.
Definition EGL_BLUE_SIZE : EGLint := 0x3022.
Definition EGL_GREEN_SIZE : EGLint := 0x3023.
Definition EGL_RED_SIZE : EGLint := 0x3024.
Definition EGL_DEPTH_SIZE : EGLint := 0x3025.
Definition EGL_STENCIL_SIZE : EGLint := 0x3026.
Definition EGL_CONFIG_CAVEAT : EGLint := 0x3027.
Definition EGL_CONFIG_ID : EGLint := 0x3028.
Definition EGL_LEVEL : EGLint := 0x3029.
Definition EGL_MAX_PBUFFER_HEIGHT : EGLint := 0x302A.
Definition EGL_MAX_PBUFFER_PIXELS : EGLint := 0x302B.
Definition EGL_MAX_PBUFFER_WIDTH : EGLint := 0x302C.
Definition EGL_NATIVE_RENDERABLE : EGLint := 0x302D.
Definition EGL_NATIVE_VISUAL_ID : EGLint := 0x302E.
Definition EGL_NATIVE_VISUAL_TYPE : EGLint := 0x302F.
Definition EGL_SAMPLES : EGLint := 0x3031.
Definition EGL_SAMPLE_BUFFERS : EGLint := 0x3032.
Definition EGL_SURFACE_TYPE : EGLint := 0x3033.
Definition EGL_TRANSPARENT_TYPE : EGLint := 0x3034.
Definition EGL_TRANSPARENT_BLUE_VALUE : EGLint := 0x3035.
Definition EGL_TRANSPARENT_GREEN_VALUE : EGLint := 0x3036.
Definition EGL_TRANSPARENT_RED_VALUE : EGLint := 0x3037.
Definition EGL_BIND_TO_TEXTURE_RGB : EGLint := 0x3039.
Definition EGL_BIND_TO_TEXTURE_RGBA : EGLint := 0x303A.
Definition EGL_MIN_SWAP_INTERVAL : EGLint := 0x303B.
Definition EGL_MAX_SWAP_INTERVAL : EGLint := 0x303C.
Definition EGL_LUMINANCE_SIZE : EGLint := 0x303D.
Definition EGL_ALPHA_MASK_SIZE : EGLint := 0x303E.
Definition EGL_COLOR_BUFFER_TYPE : EGLint := 0x303F.
Definition EGL_RENDERABLE_TYPE : EGLint := 0x3040.
Definition EGL_CONFORMANT : EGLint := 0x3042.
Definition EGL_RGB_BUFFER : EGLint := 0x308E.
Definition EGL_PIXMAP_BIT : EGLint := 0x0002.
Definition EGL_COLOR_COMPONENT_TYPE_EXT : EGLint := 0x3339.
Definition EGL_COLOR_COMPONENT_TYPE_FIXED_EXT : EGLint := 0x333A.

Definition GL_NONE : Z := 0.
Definition GL_ZERO : Z := 0.
Definition GL_RGBA8 : Z := 0x8058.
Definition GL_RGB8 : Z := 0x8051.
Definition GL_RGB565 : Z := 0x8D62.
Definition GL_RGB5_A1 : Z := 0x8057.
Definition GL_RGBA4 : Z := 0x8056.
Definition GL_RGB10_A2 : Z := 0x8059.
Definition GL_DEPTH_COMPONENT16 : Z := 0x81A5.
Definition GL_DEPTH_COMPONENT24 : Z := 0x81A6.
Definition GL_DEPTH24_STENCIL8 : Z := 0x88F0.
Definition GL_STENCIL_INDEX8 : Z := 0x8D48.
End K.
Import K.

(** ** [egl::AttributeMap] *)

(** Modelled from the spec: [egl::AttributeMap] (libANGLE/AttributeMap.h) is
    the "attribute set" of the negotiation: an ordered key/value map whose
    [insert] overwrites, whose [getAsInt] falls back to a default, and whose
    [toIntVector] lists key, value, ..., terminated by [EGL_NONE]. *)
Module AttributeMap.
Definition t := list (EGLAttrib * EGLAttrib).

Definition empty : t := [].

Fixpoint insert (key value : EGLAttrib) (m : t) : t :=
  match m with
  | [] => [(key, value)]
  | (k, v) :: rest =>
      if key <? k then (key, value) :: (k, v) :: rest
      else if key =? k then (key, value) :: rest
      else (k, v) :: insert key value rest
  end.

Fixpoint get (m : t) (key defaultValue : EGLAttrib) : EGLAttrib :=
  match m with
  | [] => defaultValue
  | (k, v) :: rest => if key =? k then v else get rest key defaultValue
  end.

Definition getAsInt (m : t) (key : EGLAttrib) (defaultValue : EGLint) : EGLint :=
  to_EGLint (get m key defaultValue).

Definition toIntVector (m : t) : list EGLint :=
  flat_map (fun kv => [to_EGLint (fst kv); to_EGLint (snd kv)]) m ++ [EGL_NONE].
End AttributeMap.

Abbreviation AttributeVector := (list Z) (only parsing).

(** ** [egl::Error] and [gl::Version] *)

Record Error := mkError { err_code : EGLint; err_message : string }.

Definition NoError : Error := mkError EGL_SUCCESS "".
Definition EglBadAttribute (msg : string) : Error := mkError EGL_BAD_ATTRIBUTE msg.

(** Modelled from the spec: [gl::Version] (common/Version.h) holds the two
    numbers as [unsigned int]; its constructor takes them as such, so an
    [int] passed to it is converted with [to_unsigned]. *)
Record Version := mkVersion { major : Z; minor : Z }.

Definition Version_of_ints (versionMajor versionMinor : Z) : Version :=
  mkVersion (to_unsigned versionMajor) (to_unsigned versionMinor).

(** Modelled from the spec: [gl::Version]'s [operator>=] (common/Version.inc)
    orders versions by major number, then by minor number. *)
Definition version_ge (a b : Version) : bool :=
  (major b <? major a) || ((major a =? major b) && (minor b <=? minor a)).

(** ** The per-thread cache, the native driver and the log of native calls *)

(** [struct CurrentNativeContext] of DisplayEGL.h; a fresh entry of
    [mCurrentNativeContexts] is value-initialised to [initial]. *)
Module CurrentNativeContext.
Record t := mk { surface : EGLSurface; context : EGLContext; isExternalContext : bool }.

(** Modelled from the spec: the default member initialisers of the struct
    (DisplayEGL.h), the state "no surface, no context, not external". *)
Definition initial : t :=
  {| surface := EGL_NO_SURFACE; context := EGL_NO_CONTEXT; isExternalContext := false |}.

End CurrentNativeContext.

(** The native entry points of [FunctionsEGL] that the modelled code calls. *)
Inductive EglCall :=
| eglCreateContext (config : EGLConfig) (share : EGLContext) (attribs : AttributeVector)
| eglMakeCurrent (surface : EGLSurface) (context : EGLContext)
| eglDestroyContext (context : EGLContext)
| eglGetError
| eglGetCurrentContext.

(** One entry of the log: the call, what the driver answered, and (ghost) the
    contents of [mCurrentNativeContexts] at the moment the call was issued. *)
Record NativeCall := mkCall {
  call : EglCall;
  answer : Z;
  tracked : gmap nat CurrentNativeContext.t
}.

(** [rx::FunctionsEGL]: the version and extension string probed at start-up
    and the driver itself.  The driver answers a call as a function of all
    earlier calls; config queries are reads of a fixed table. *)
Record FunctionsEGL := {
  majorVersion : Z;
  minorVersion : Z;
  extensions : list string;
  driver : list NativeCall -> EglCall -> Z;
  chooseConfig : AttributeVector -> list EGLConfig;
  getConfigAttrib : EGLConfig -> EGLint -> EGLint
}.

Definition hasExtension (egl : FunctionsEGL) (name : string) : bool :=
  bool_decide (name ∈ extensions egl).

(** The members of [DisplayEGL] that the modelled methods read or write;
    [mRenderer] stands for [mRenderer->getContext()]. *)
Record DisplayEGL := {
  mEGL : FunctionsEGL;
  mConfig : EGLConfig;
  mConfigAttribList : AttributeVector;
  mHasEXTCreateContextRobustness : bool;
  mHasNVRobustnessVideoMemoryPurge : bool;
  mVirtualizedContexts : bool;
  mSupportsSurfaceless : bool;
  mMockPbuffer : EGLSurface;
  mRenderer : EGLContext;
  mConfigIds : gmap Z Z;
  mCurrentNativeContexts : gmap nat CurrentNativeContext.t
}.

Definition set_mCurrentNativeContexts
    (m : gmap nat CurrentNativeContext.t) (d : DisplayEGL) : DisplayEGL :=
  {| mEGL := mEGL d; mConfig := mConfig d; mConfigAttribList := mConfigAttribList d;
     mHasEXTCreateContextRobustness := mHasEXTCreateContextRobustness d;
     mHasNVRobustnessVideoMemoryPurge := mHasNVRobustnessVideoMemoryPurge d;
     mVirtualizedContexts := mVirtualizedContexts d;
     mSupportsSurfaceless := mSupportsSurfaceless d;
     mMockPbuffer := mMockPbuffer d; mRenderer := mRenderer d;
     mConfigIds := mConfigIds d; mCurrentNativeContexts := m |}.

Definition set_mConfigIds (ids : gmap Z Z) (d : DisplayEGL) : DisplayEGL :=
  {| mEGL := mEGL d; mConfig := mConfig d; mConfigAttribList := mConfigAttribList d;
     mHasEXTCreateContextRobustness := mHasEXTCreateContextRobustness d;
     mHasNVRobustnessVideoMemoryPurge := mHasNVRobustnessVideoMemoryPurge d;
     mVirtualizedContexts := mVirtualizedContexts d;
     mSupportsSurfaceless := mSupportsSurfaceless d;
     mMockPbuffer := mMockPbuffer d; mRenderer := mRenderer d;
     mConfigIds := ids; mCurrentNativeContexts := mCurrentNativeContexts d |}.

(** The state a method runs in: the display object and the log of native
    calls issued so far (oldest first). *)
Record World := mkWorld { this : DisplayEGL; calls : list NativeCall }.

(** A method either returns a value in a new state, or stops the process at
    a failed [ASSERT] (the text of the condition is kept). *)
Inductive Outcome (A : Type) :=
| Returns (a : A) (w : World)
| Fatal (condition : string) (w : World).
Arguments Returns {A} a w.
Arguments Fatal {A} condition w.

Definition M (A : Type) : Type := World -> Outcome A.

#[global] Instance M_ret : MRet M := fun A a w => Returns a w.
#[global] Instance M_bind : MBind M := fun A B f m w =>
  match m w with
  | Returns a w' => f a w'
  | Fatal c w' => Fatal c w'
  end.

Definition getThis : M DisplayEGL := fun w => Returns (this w) w.

Definition setThis (d : DisplayEGL) : M unit :=
  fun w => Returns tt {| this := d; calls := calls w |}.

(** A call into the native library through [mEGL]. *)
Definition native (c : EglCall) : M Z := fun w =>
  let r := driver (mEGL (this w)) (calls w) c in
  Returns r {| this := this w;
               calls := calls w ++ [mkCall c r (mCurrentNativeContexts (this w))] |}.

(** What a thread's entry is, whether or not it has been created yet. *)
Definition threadState (w : World) (id : nat) : CurrentNativeContext.t :=
  default CurrentNativeContext.initial (mCurrentNativeContexts (this w) !! id).

(** The state once a thread's entry exists: a missing entry is inserted,
    value-initialised. *)
Definition entryCreated (id : nat) (w : World) : World :=
  match mCurrentNativeContexts (this w) !! id with
  | Some _ => w
  | None =>
      {| this := set_mCurrentNativeContexts
                   (<[id := CurrentNativeContext.initial]> (mCurrentNativeContexts (this w)))
                   (this w);
         calls := calls w |}
  end.

(** [mCurrentNativeContexts[id]]: the entry of a thread, created on first use. *)
Definition currentNativeContext (id : nat) : M CurrentNativeContext.t := fun w =>
  Returns (threadState w id) (entryCreated id w).

(** ** [DisplayEGL::initializeContext] (lines 146-251) *)

(** Lines 169-171 and 188-192: a map holding a major and a minor version. *)
Definition versionAttribs (versionMajor versionMinor : EGLint) : AttributeMap.t :=
  AttributeMap.insert EGL_CONTEXT_MINOR_VERSION versionMinor
    (AttributeMap.insert EGL_CONTEXT_MAJOR_VERSION versionMajor AttributeMap.empty).

Definition esVersionsFrom2_0 : list Version :=
  [mkVersion 3 2; mkVersion 3 1; mkVersion 3 0; mkVersion 2 0].

(** Lines 218-225: the attributes of a candidate with robustness added. *)
Definition attribsWithRobustness (d : DisplayEGL) (attribs : AttributeMap.t)
    : AttributeMap.t :=
  let withStrategy :=
    AttributeMap.insert EGL_CONTEXT_OPENGL_RESET_NOTIFICATION_STRATEGY
      EGL_LOSE_CONTEXT_ON_RESET attribs in
  if mHasNVRobustnessVideoMemoryPurge d
  then AttributeMap.insert EGL_GENERATE_RESET_ON_VIDEO_MEMORY_PURGE_NV GL_TRUE withStrategy
  else withStrategy.

(** Lines 211-248: the loop over [contextAttribLists]; [Some] is the early
    [return egl::NoError()] with the two out-parameters. *)
Fixpoint tryContextAttribLists (shareContext : EGLContext)
    (contextAttribLists : list AttributeMap.t)
    : M (option (EGLContext * AttributeVector)) :=
  match contextAttribLists with
  | [] => mret None
  | attribs :: rest =>
      d ← getThis;
      robust ←
        (if mHasEXTCreateContextRobustness d then
           let attribVector := AttributeMap.toIntVector (attribsWithRobustness d attribs) in
           context ← native (eglCreateContext (mConfig d) shareContext attribVector);
           if decide (context ≠ EGL_NO_CONTEXT)
           then mret (Some (context, attribVector))
           else mret None
         else mret None);
      match robust with
      | Some created => mret (Some created)
      | None =>
          let attribVector := AttributeMap.toIntVector attribs in
          context ← native (eglCreateContext (mConfig d) shareContext attribVector);
          if decide (context ≠ EGL_NO_CONTEXT)
          then mret (Some (context, attribVector))
          else tryContextAttribLists shareContext rest
      end
  end.

(** The attribute vectors one round of that loop passes to the native
    library, in order. *)
Definition attribVectors (d : DisplayEGL) (attribs : AttributeMap.t)
    : list AttributeVector :=
  if mHasEXTCreateContextRobustness d
  then [AttributeMap.toIntVector (attribsWithRobustness d attribs);
        AttributeMap.toIntVector attribs]
  else [AttributeMap.toIntVector attribs].

(** Line 165: whether the native API takes flexible version attributes. *)
Definition hasFlexibleVersionAttributes (egl : FunctionsEGL) : bool :=
  version_ge (Version_of_ints (majorVersion egl) (minorVersion egl)) (mkVersion 1 5)
  || hasExtension egl "EGL_KHR_create_context".

(** Lines 151-209: the candidate attribute maps, or the early
    [return egl::EglBadAttribute()] of line 202. *)
Definition contextAttribLists (egl : FunctionsEGL) (eglAttributes : AttributeMap.t)
    : Error + list AttributeMap.t :=
  let requestedMajor :=
    AttributeMap.getAsInt eglAttributes EGL_PLATFORM_ANGLE_MAX_VERSION_MAJOR_ANGLE
      EGL_DONT_CARE in
  let requestedMinor :=
    AttributeMap.getAsInt eglAttributes EGL_PLATFORM_ANGLE_MAX_VERSION_MINOR_ANGLE
      EGL_DONT_CARE in
  let initializeRequested :=
    negb (requestedMajor =? EGL_DONT_CARE) && negb (requestedMinor =? EGL_DONT_CARE) in
  if hasFlexibleVersionAttributes egl then
    if initializeRequested
    then inr [versionAttribs requestedMajor requestedMinor]
    else inr (map (fun version =>
                     versionAttribs (to_EGLint (major version)) (to_EGLint (minor version)))
                  esVersionsFrom2_0)
  else
    if initializeRequested && (negb (requestedMajor =? 2) || negb (requestedMinor =? 0))
    then inl (EglBadAttribute "Unsupported requested context version")
    else inr [AttributeMap.insert EGL_CONTEXT_CLIENT_VERSION 2 AttributeMap.empty].

Definition initializeContext (shareContext : EGLContext) (eglAttributes : AttributeMap.t)
    : M (Error + EGLContext * AttributeVector) :=
  d ← getThis;
  match contextAttribLists (mEGL d) eglAttributes with
  | inl e => mret (inl e)
  | inr lists =>
      created ← tryContextAttribLists shareContext lists;
      match created with
      | Some (context, attribVector) => mret (inr (context, attribVector))
      | None =>
          code ← native eglGetError;
          mret (inl (mkError code "eglCreateContext failed"))
      end
  end.

(** ** [egl::Config] and [egl::ConfigSet] *)

(** The fields of [egl::Config] (libANGLE/Config.h); all are 32-bit integers
    or enums. *)
Module Config.
Record t := mk {
  renderTargetFormat : Z; depthStencilFormat : Z; bufferSize : Z; redSize : Z;
  greenSize : Z; blueSize : Z; luminanceSize : Z; alphaSize : Z; alphaMaskSize : Z;
  bindToTextureRGB : Z; bindToTextureRGBA : Z; colorBufferType : Z; configCaveat : Z;
  configID : Z; conformant : Z; depthSize : Z; level : Z; matchNativePixmap : Z;
  maxPBufferWidth : Z; maxPBufferHeight : Z; maxPBufferPixels : Z;
  maxSwapInterval : Z; minSwapInterval : Z; nativeRenderable : Z; nativeVisualID : Z;
  nativeVisualType : Z; renderableType : Z; sampleBuffers : Z; samples : Z;
  stencilSize : Z; surfaceType : Z; transparentType : Z; transparentRedValue : Z;
  transparentGreenValue : Z; transparentBlueValue : Z; optimalOrientation : Z;
  colorComponentType : Z
}.

Definition set_renderTargetFormat (v : Z) (c : t) : t :=
  {| renderTargetFormat := v; depthStencilFormat := depthStencilFormat c;
     bufferSize := bufferSize c; redSize := redSize c; greenSize := greenSize c;
     blueSize := blueSize c; luminanceSize := luminanceSize c;
     alphaSize := alphaSize c; alphaMaskSize := alphaMaskSize c;
     bindToTextureRGB := bindToTextureRGB c;
     bindToTextureRGBA := bindToTextureRGBA c; colorBufferType := colorBufferType c;
     configCaveat := configCaveat c; configID := configID c;
     conformant := conformant c; depthSize := depthSize c; level := level c;
     matchNativePixmap := matchNativePixmap c; maxPBufferWidth := maxPBufferWidth c;
     maxPBufferHeight := maxPBufferHeight c; maxPBufferPixels := maxPBufferPixels c;
     maxSwapInterval := maxSwapInterval c; minSwapInterval := minSwapInterval c;
     nativeRenderable := nativeRenderable c; nativeVisualID := nativeVisualID c;
     nativeVisualType := nativeVisualType c; renderableType := renderableType c;
     sampleBuffers := sampleBuffers c; samples := samples c;
     stencilSize := stencilSize c; surfaceType := surfaceType c;
     transparentType := transparentType c;
     transparentRedValue := transparentRedValue c;
     transparentGreenValue := transparentGreenValue c;
     transparentBlueValue := transparentBlueValue c;
     optimalOrientation := optimalOrientation c;
     colorComponentType := colorComponentType c |}.

Definition set_depthStencilFormat (v : Z) (c : t) : t :=
  {| renderTargetFormat := renderTargetFormat c; depthStencilFormat := v;
     bufferSize := bufferSize c; redSize := redSize c; greenSize := greenSize c;
     blueSize := blueSize c; luminanceSize := luminanceSize c;
     alphaSize := alphaSize c; alphaMaskSize := alphaMaskSize c;
     bindToTextureRGB := bindToTextureRGB c;
     bindToTextureRGBA := bindToTextureRGBA c; colorBufferType := colorBufferType c;
     configCaveat := configCaveat c; configID := configID c;
     conformant := conformant c; depthSize := depthSize c; level := level c;
     matchNativePixmap := matchNativePixmap c; maxPBufferWidth := maxPBufferWidth c;
     maxPBufferHeight := maxPBufferHeight c; maxPBufferPixels := maxPBufferPixels c;
     maxSwapInterval := maxSwapInterval c; minSwapInterval := minSwapInterval c;
     nativeRenderable := nativeRenderable c; nativeVisualID := nativeVisualID c;
     nativeVisualType := nativeVisualType c; renderableType := renderableType c;
     sampleBuffers := sampleBuffers c; samples := samples c;
     stencilSize := stencilSize c; surfaceType := surfaceType c;
     transparentType := transparentType c;
     transparentRedValue := transparentRedValue c;
     transparentGreenValue := transparentGreenValue c;
     transparentBlueValue := transparentBlueValue c;
     optimalOrientation := optimalOrientation c;
     colorComponentType := colorComponentType c |}.

Definition set_configID (v : Z) (c : t) : t :=
  {| renderTargetFormat := renderTargetFormat c;
     depthStencilFormat := depthStencilFormat c; bufferSize := bufferSize c;
     redSize := redSize c; greenSize := greenSize c; blueSize := blueSize c;
     luminanceSize := luminanceSize c; alphaSize := alphaSize c;
     alphaMaskSize := alphaMaskSize c; bindToTextureRGB := bindToTextureRGB c;
     bindToTextureRGBA := bindToTextureRGBA c; colorBufferType := colorBufferType c;
     configCaveat := configCaveat c; configID := v; conformant := conformant c;
     depthSize := depthSize c; level := level c;
     matchNativePixmap := matchNativePixmap c; maxPBufferWidth := maxPBufferWidth c;
     maxPBufferHeight := maxPBufferHeight c; maxPBufferPixels := maxPBufferPixels c;
     maxSwapInterval := maxSwapInterval c; minSwapInterval := minSwapInterval c;
     nativeRenderable := nativeRenderable c; nativeVisualID := nativeVisualID c;
     nativeVisualType := nativeVisualType c; renderableType := renderableType c;
     sampleBuffers := sampleBuffers c; samples := samples c;
     stencilSize := stencilSize c; surfaceType := surfaceType c;
     transparentType := transparentType c;
     transparentRedValue := transparentRedValue c;
     transparentGreenValue := transparentGreenValue c;
     transparentBlueValue := transparentBlueValue c;
     optimalOrientation := optimalOrientation c;
     colorComponentType := colorComponentType c |}.

Definition set_matchNativePixmap (v : Z) (c : t) : t :=
  {| renderTargetFormat := renderTargetFormat c;
     depthStencilFormat := depthStencilFormat c; bufferSize := bufferSize c;
     redSize := redSize c; greenSize := greenSize c; blueSize := blueSize c;
     luminanceSize := luminanceSize c; alphaSize := alphaSize c;
     alphaMaskSize := alphaMaskSize c; bindToTextureRGB := bindToTextureRGB c;
     bindToTextureRGBA := bindToTextureRGBA c; colorBufferType := colorBufferType c;
     configCaveat := configCaveat c; configID := configID c;
     conformant := conformant c; depthSize := depthSize c; level := level c;
     matchNativePixmap := v; maxPBufferWidth := maxPBufferWidth c;
     maxPBufferHeight := maxPBufferHeight c; maxPBufferPixels := maxPBufferPixels c;
     maxSwapInterval := maxSwapInterval c; minSwapInterval := minSwapInterval c;
     nativeRenderable := nativeRenderable c; nativeVisualID := nativeVisualID c;
     nativeVisualType := nativeVisualType c; renderableType := renderableType c;
     sampleBuffers := sampleBuffers c; samples := samples c;
     stencilSize := stencilSize c; surfaceType := surfaceType c;
     transparentType := transparentType c;
     transparentRedValue := transparentRedValue c;
     transparentGreenValue := transparentGreenValue c;
     transparentBlueValue := transparentBlueValue c;
     optimalOrientation := optimalOrientation c;
     colorComponentType := colorComponentType c |}.

Definition set_optimalOrientation (v : Z) (c : t) : t :=
  {| renderTargetFormat := renderTargetFormat c;
     depthStencilFormat := depthStencilFormat c; bufferSize := bufferSize c;
     redSize := redSize c; greenSize := greenSize c; blueSize := blueSize c;
     luminanceSize := luminanceSize c; alphaSize := alphaSize c;
     alphaMaskSize := alphaMaskSize c; bindToTextureRGB := bindToTextureRGB c;
     bindToTextureRGBA := bindToTextureRGBA c; colorBufferType := colorBufferType c;
     configCaveat := configCaveat c; configID := configID c;
     conformant := conformant c; depthSize := depthSize c; level := level c;
     matchNativePixmap := matchNativePixmap c; maxPBufferWidth := maxPBufferWidth c;
     maxPBufferHeight := maxPBufferHeight c; maxPBufferPixels := maxPBufferPixels c;
     maxSwapInterval := maxSwapInterval c; minSwapInterval := minSwapInterval c;
     nativeRenderable := nativeRenderable c; nativeVisualID := nativeVisualID c;
     nativeVisualType := nativeVisualType c; renderableType := renderableType c;
     sampleBuffers := sampleBuffers c; samples := samples c;
     stencilSize := stencilSize c; surfaceType := surfaceType c;
     transparentType := transparentType c;
     transparentRedValue := transparentRedValue c;
     transparentGreenValue := transparentGreenValue c;
     transparentBlueValue := transparentBlueValue c; optimalOrientation := v;
     colorComponentType := colorComponentType c |}.
End Config.

(** Modelled from the spec: [egl::ConfigSet::add] (libANGLE/Config.cpp) is
    not part of the source files: "every accepted config is assigned a
    sequential synthetic internal id", the number of configs already in the
    set plus one, stored in the copy that enters the set and returned. *)
Module ConfigSet.
Definition t := gmap Z Config.t.

Definition add (config : Config.t) (s : gmap Z Config.t) : Z * gmap Z Config.t :=
  let id := Z.of_nat (size s) + 1 in
  (id, <[id := Config.set_configID id config]> s).
End ConfigSet.

(** ** [gl::FramebufferAttachment] (FramebufferAttachment.cpp) *)

Module FramebufferAttachment.
(** Modelled from the spec: [gl::ImageIndex] (libANGLE/ImageIndex.h), the
    "sub-resource index (mip level, layer, cube face)" of an attachment;
    [MakeInvalid] is the index of no image. *)
Record ImageIndex := mkImageIndex { type : Z; mipIndex : Z; layerIndex : Z; numLayers : Z }.

Definition MakeInvalid : ImageIndex := mkImageIndex GL_NONE (-1) (-1) (-1).

(** Modelled from the spec: [gl::Offset] (libANGLE/angletypes.h), one of
    the "per-view offsets"; a default-constructed offset is zero. *)
Record Offset := mkOffset { x : Z; y : Z; z : Z }.

Definition Offset0 : Offset := mkOffset 0 0 0.

(** [FramebufferAttachment::Target], lines 26-49. *)
Record Target := mkTarget { mBinding : Z; mTextureIndex : ImageIndex }.

Definition Target0 : Target := mkTarget GL_NONE MakeInvalid.

(** A resource ([FramebufferAttachmentObject *]) is known by its identity;
    [None] is [nullptr]. *)
Record t := mk {
  mType : Z;
  mTarget : Target;
  mResource : option nat;
  mNumViews : Z;
  mMultiviewLayout : Z;
  mBaseViewIndex : Z;
  mViewportOffsets : list Offset
}.

(** The default constructor, lines 53-61. *)
Definition new : t :=
  {| mType := GL_NONE; mTarget := Target0; mResource := None; mNumViews := 1;
     mMultiviewLayout := GL_NONE; mBaseViewIndex := 0; mViewportOffsets := [Offset0] |}.

(** The two notifications a resource receives, with the context passed. *)
Inductive Notification :=
| onAttach (resource : nat) (context : Z)
| onDetach (resource : nat) (context : Z).

#[global] Instance Notification_eq_dec : EqDecision Notification.
Proof. solve_decision. Defined.

(** An attachment together with the notifications fired so far, oldest
    first. *)
Definition State : Type := t * list Notification.

(** Lines 100-116. *)
Definition detach (context : Z) (st : State) : State :=
  let '(a, fired) := st in
  let fired :=
    match mResource a with
    | Some resource => fired ++ [onDetach resource context]
    | None => fired
    end in
  ({| mType := GL_NONE;
      mTarget := Target0;
      mResource := None;
      mNumViews := 1;
      mMultiviewLayout := GL_NONE;
      mBaseViewIndex := 0;
      mViewportOffsets := <[0%nat := Offset0]> (resize 1 Offset0 (mViewportOffsets a)) |},
   fired).

(** Lines 118-140. *)
Definition attach (context : Z) (type binding : Z) (textureIndex : ImageIndex)
    (resource : option nat) (st : State) : State :=
  match resource with
  | None => detach context st
  | Some resource =>
      let '(a, fired) := st in
      let fired := fired ++ [onAttach resource context] in
      let fired :=
        match mResource a with
        | Some previous => fired ++ [onDetach previous context]
        | None => fired
        end in
      ({| mType := type;
          mTarget := mkTarget binding textureIndex;
          mResource := Some resource;
          mNumViews := mNumViews a;
          mMultiviewLayout := mMultiviewLayout a;
          mBaseViewIndex := mBaseViewIndex a;
          mViewportOffsets := mViewportOffsets a |},
       fired)
  end.

(** How many more attach than detach notifications a resource has
    received: the references the attachments hold on it. *)
Definition balance (fired : list Notification) (resource : nat) : Z :=
  fold_left (fun refs n =>
               match n with
               | onAttach r _ => if decide (r = resource) then refs + 1 else refs
               | onDetach r _ => if decide (r = resource) then refs - 1 else refs
               end) fired 0.
End FramebufferAttachment.

(** ** The frontend objects handed to the display *)

(** An [egl::Surface], seen through [GetImplAs<SurfaceEGL>]. *)
Record Surface := mkSurface { getSurface : EGLSurface; isExternal : bool }.

(** A [gl::Context]: [getContext] is [GetImplAs<ContextEGL>(context)->getContext()],
    [Context_isExternal] is [gl::Context::isExternal]. *)
Record Context := mkContext { getContext : EGLContext; Context_isExternal : bool }.

(** The surface implementations this backend constructs. *)
Inductive SurfaceImpl :=
| WindowSurfaceEGL (config : EGLConfig) (window : Z)
| PbufferSurfaceEGL (config : EGLConfig)
| ExternalSurfaceEGL (width height : EGLint).

(** What the methods of [DisplayEGL] take from the rest of the build: whether
    [ASSERT] is compiled in (common/debug.h), and [DisplayGL::makeCurrent],
    the base-class tail call of [makeCurrent].  The base-class method is
    outside the source files; it issues no native EGL call and does not
    touch [mCurrentNativeContexts], so only its result is kept. *)
Class Build := {
  ANGLE_ENABLE_ASSERTS : bool;
  DisplayGL_makeCurrent : option Surface -> option Surface -> option Context -> Error
}.

Section DisplayEGL_methods.

Context {build : Build}.

(** [ASSERT(condition)]: fatal when compiled in and violated, otherwise
    nothing. *)
Definition ASSERT (condition : bool) (text : string) : M unit := fun w =>
  if ANGLE_ENABLE_ASSERTS && negb condition then Fatal text w else Returns tt w.

(** Modelled from the spec: [UNIMPLEMENTED()] (common/debug.h) reports the
    call and asserts [NOASSERT_UNIMPLEMENTED], which is 1 unless a build
    overrides it: the operation goes on to "return its documented
    unimplemented result rather than throwing or crashing". *)
Definition NOASSERT_UNIMPLEMENTED : bool := true.

Definition UNIMPLEMENTED : M unit := ASSERT NOASSERT_UNIMPLEMENTED "NOASSERT_UNIMPLEMENTED".

(** *** [createPixmapSurface] (lines 462-468) *)

Definition createPixmapSurface (state : Z) (nativePixmap : Z) (attribs : AttributeMap.t)
    : M (option SurfaceImpl) :=
  UNIMPLEMENTED;;
  mret None.

(** *** [makeCurrent] (lines 720-817) *)

(** Assignments through the reference [currentContext]. *)
Definition assign_surface (id : nat) (v : EGLSurface) : M unit := fun w =>
  Returns tt
    {| this := set_mCurrentNativeContexts
                 (alter (fun c => CurrentNativeContext.mk v
                                    (CurrentNativeContext.context c)
                                    (CurrentNativeContext.isExternalContext c))
                        id (mCurrentNativeContexts (this w))) (this w);
       calls := calls w |}.

Definition assign_context (id : nat) (v : EGLContext) : M unit := fun w =>
  Returns tt
    {| this := set_mCurrentNativeContexts
                 (alter (fun c => CurrentNativeContext.mk
                                    (CurrentNativeContext.surface c) v
                                    (CurrentNativeContext.isExternalContext c))
                        id (mCurrentNativeContexts (this w))) (this w);
       calls := calls w |}.

Definition assign_isExternalContext (id : nat) (v : bool) : M unit := fun w =>
  Returns tt
    {| this := set_mCurrentNativeContexts
                 (alter (fun c => CurrentNativeContext.mk
                                    (CurrentNativeContext.surface c)
                                    (CurrentNativeContext.context c) v)
                        id (mCurrentNativeContexts (this w))) (this w);
       calls := calls w |}.

(** [ASSERT(GetImplAs<SurfaceEGL>(drawSurface)->...)]: a null [drawSurface]
    has nothing to satisfy the condition with. *)
Definition drawSurfaceSatisfies (drawSurface : option Surface) (p : Surface -> bool) : bool :=
  match drawSurface with
  | Some s => p s
  | None => false
  end.

(** Lines 741-779: the thread is, or becomes, bound to an external context. *)
Definition makeCurrentExternal (id : nat) (currentContext : CurrentNativeContext.t)
    (newSurface : EGLSurface) (newContext : EGLContext)
    (drawSurface readSurface : option Surface) (context : option Context) : M Error :=
  ASSERT (CurrentNativeContext.surface currentContext =? EGL_NO_SURFACE)
         "currentContext.surface == EGL_NO_SURFACE";;
  (if negb (CurrentNativeContext.isExternalContext currentContext) then
     (* Switch to an ANGLE external context. *)
     ASSERT (bool_decide (is_Some context)) "context";;
     ASSERT (CurrentNativeContext.context currentContext =? EGL_NO_CONTEXT)
            "currentContext.context == EGL_NO_CONTEXT";;
     assign_context id newContext;;
     assign_isExternalContext id true;;
     ASSERT (drawSurfaceSatisfies drawSurface isExternal)
            "GetImplAs<SurfaceEGL>(drawSurface)->isExternal()";;
     ASSERT (drawSurfaceSatisfies drawSurface (fun s => getSurface s =? EGL_NO_SURFACE))
            "GetImplAs<SurfaceEGL>(drawSurface)->getSurface() == EGL_NO_SURFACE"
   else
     match context with
     | Some _ =>
         (* Switch surface but not context. *)
         ASSERT (CurrentNativeContext.context currentContext =? newContext)
                "currentContext.context == newContext";;
         ASSERT (newSurface =? EGL_NO_SURFACE) "newSurface == EGL_NO_SURFACE";;
         ASSERT (negb (newContext =? EGL_NO_CONTEXT)) "newContext != EGL_NO_CONTEXT";;
         ASSERT (drawSurfaceSatisfies drawSurface isExternal)
                "GetImplAs<SurfaceEGL>(drawSurface)->isExternal()";;
         ASSERT (drawSurfaceSatisfies drawSurface
                   (fun s => getSurface s =? EGL_NO_SURFACE))
                "GetImplAs<SurfaceEGL>(drawSurface)->getSurface() == EGL_NO_SURFACE"
     | None =>
         (* Release the ANGLE external context. *)
         ASSERT (newSurface =? EGL_NO_SURFACE) "newSurface == EGL_NO_SURFACE";;
         ASSERT (newContext =? EGL_NO_CONTEXT) "newContext == EGL_NO_CONTEXT";;
         ASSERT (negb (CurrentNativeContext.context currentContext =? EGL_NO_CONTEXT))
                "currentContext.context != EGL_NO_CONTEXT";;
         assign_context id EGL_NO_CONTEXT;;
         assign_isExternalContext id false
     end);;
  mret (DisplayGL_makeCurrent drawSurface readSurface context).

(** Lines 783-804: the (surface, context) pair that is to be bound. *)
Definition resolveBinding (currentContext : CurrentNativeContext.t)
    (newSurface : EGLSurface) (newContext : EGLContext) : M (EGLSurface * EGLContext) :=
  d ← getThis;
  if mVirtualizedContexts d && negb (newContext =? EGL_NO_CONTEXT) then
    ASSERT ((CurrentNativeContext.context currentContext =? EGL_NO_CONTEXT)
            || (newContext =? CurrentNativeContext.context currentContext))
           "currentContext.context == EGL_NO_CONTEXT || newContext == currentContext.context";;
    let newContext := mRenderer d in
    let newSurface :=
      if newSurface =? EGL_NO_SURFACE
      then CurrentNativeContext.surface currentContext
      else newSurface in
    if (newSurface =? EGL_NO_SURFACE) && negb (mSupportsSurfaceless d) then
      let newSurface := mMockPbuffer d in
      ASSERT (negb (newSurface =? EGL_NO_SURFACE)) "newSurface != EGL_NO_SURFACE";;
      mret (newSurface, newContext)
    else mret (newSurface, newContext)
  else mret (newSurface, newContext).

(** Lines 806-816: bind the pair natively unless it is the cached one. *)
Definition bindResolved (id : nat) (currentContext : CurrentNativeContext.t)
    (newSurface : EGLSurface) (newContext : EGLContext)
    (drawSurface readSurface : option Surface) (context : option Context) : M Error :=
  if negb (newSurface =? CurrentNativeContext.surface currentContext)
     || negb (newContext =? CurrentNativeContext.context currentContext)
  then
    made ← native (eglMakeCurrent newSurface newContext);
    if made =? EGL_FALSE then
      code ← native eglGetError;
      mret (mkError code "eglMakeCurrent failed")
    else
      assign_surface id newSurface;;
      assign_context id newContext;;
      mret (DisplayGL_makeCurrent drawSurface readSurface context)
  else mret (DisplayGL_makeCurrent drawSurface readSurface context).

Definition makeCurrent (id : nat) (drawSurface readSurface : option Surface)
    (context : option Context) : M Error :=
  currentContext ← currentNativeContext id;
  let newSurface :=
    match drawSurface with
    | Some s => getSurface s
    | None => EGL_NO_SURFACE
    end in
  let newContext :=
    match context with
    | Some c => getContext c
    | None => EGL_NO_CONTEXT
    end in
  if CurrentNativeContext.isExternalContext currentContext
     || from_option Context_isExternal false context
  then makeCurrentExternal id currentContext newSurface newContext
         drawSurface readSurface context
  else
    resolved ← resolveBinding currentContext newSurface newContext;
    bindResolved id currentContext resolved.1 resolved.2 drawSurface readSurface context.

(** *** [destroyNativeContext] (lines 824-838) *)

(** Lines 830-834, the body of the loop over all threads' entries. *)
Definition forget (context : EGLContext) (currentContext : CurrentNativeContext.t)
    : CurrentNativeContext.t :=
  if CurrentNativeContext.context currentContext =? context
  then CurrentNativeContext.mk EGL_NO_SURFACE EGL_NO_CONTEXT
         (CurrentNativeContext.isExternalContext currentContext)
  else currentContext.

Definition destroyNativeContext (context : EGLContext) : M unit :=
  d ← getThis;
  setThis (set_mCurrentNativeContexts (forget context <$> mCurrentNativeContexts d) d);;
  _ ← native (eglDestroyContext context);
  mret tt.

(** *** [generateConfigs] (lines 538-674) *)

(** [getConfigAttrib]: the driver writes an [EGLint]. *)
Definition configAttrib (egl : FunctionsEGL) (config : EGLConfig) (attribute : EGLint)
    : EGLint :=
  to_EGLint (getConfigAttrib egl config attribute).

(** Lines 555-594: the attributes read for one native config, with the
    pixmap bit stripped; the four fields the native API does not provide
    are as [egl::Config]'s constructor leaves them. *)
Definition readConfig (egl : FunctionsEGL) (c : EGLConfig) : Config.t :=
  {| Config.renderTargetFormat := GL_NONE;
     Config.depthStencilFormat := GL_NONE;
     Config.bufferSize := configAttrib egl c EGL_BUFFER_SIZE;
     Config.redSize := configAttrib egl c EGL_RED_SIZE;
     Config.greenSize := configAttrib egl c EGL_GREEN_SIZE;
     Config.blueSize := configAttrib egl c EGL_BLUE_SIZE;
     Config.luminanceSize := configAttrib egl c EGL_LUMINANCE_SIZE;
     Config.alphaSize := configAttrib egl c EGL_ALPHA_SIZE;
     Config.alphaMaskSize := configAttrib egl c EGL_ALPHA_MASK_SIZE;
     Config.bindToTextureRGB := to_unsigned (configAttrib egl c EGL_BIND_TO_TEXTURE_RGB);
     Config.bindToTextureRGBA := to_unsigned (configAttrib egl c EGL_BIND_TO_TEXTURE_RGBA);
     Config.colorBufferType := to_unsigned (configAttrib egl c EGL_COLOR_BUFFER_TYPE);
     Config.configCaveat := to_unsigned (configAttrib egl c EGL_CONFIG_CAVEAT);
     Config.configID := configAttrib egl c EGL_CONFIG_ID;
     Config.conformant := configAttrib egl c EGL_CONFORMANT;
     Config.depthSize := configAttrib egl c EGL_DEPTH_SIZE;
     Config.level := configAttrib egl c EGL_LEVEL;
     Config.matchNativePixmap := EGL_NONE;
     Config.maxPBufferWidth := configAttrib egl c EGL_MAX_PBUFFER_WIDTH;
     Config.maxPBufferHeight := configAttrib egl c EGL_MAX_PBUFFER_HEIGHT;
     Config.maxPBufferPixels := configAttrib egl c EGL_MAX_PBUFFER_PIXELS;
     Config.maxSwapInterval := configAttrib egl c EGL_MAX_SWAP_INTERVAL;
     Config.minSwapInterval := configAttrib egl c EGL_MIN_SWAP_INTERVAL;
     Config.nativeRenderable := to_unsigned (configAttrib egl c EGL_NATIVE_RENDERABLE);
     Config.nativeVisualID := configAttrib egl c EGL_NATIVE_VISUAL_ID;
     Config.nativeVisualType := configAttrib egl c EGL_NATIVE_VISUAL_TYPE;
     Config.renderableType := configAttrib egl c EGL_RENDERABLE_TYPE;
     Config.sampleBuffers := configAttrib egl c EGL_SAMPLE_BUFFERS;
     Config.samples := configAttrib egl c EGL_SAMPLES;
     Config.stencilSize := configAttrib egl c EGL_STENCIL_SIZE;
     Config.surfaceType :=
       Z.land (configAttrib egl c EGL_SURFACE_TYPE) (Z.lnot EGL_PIXMAP_BIT);
     Config.transparentType := to_unsigned (configAttrib egl c EGL_TRANSPARENT_TYPE);
     Config.transparentRedValue := configAttrib egl c EGL_TRANSPARENT_RED_VALUE;
     Config.transparentGreenValue := configAttrib egl c EGL_TRANSPARENT_GREEN_VALUE;
     Config.transparentBlueValue := configAttrib egl c EGL_TRANSPARENT_BLUE_VALUE;
     Config.optimalOrientation := 0;
     Config.colorComponentType :=
       if hasExtension egl "EGL_EXT_pixel_format_float"
       then to_unsigned (configAttrib egl c EGL_COLOR_COMPONENT_TYPE_EXT)
       else EGL_COLOR_COMPONENT_TYPE_FIXED_EXT |}.

(** Lines 599-634: the chain over the colour bits; [None] is [continue]. *)
Definition renderTargetFormatOf (config : Config.t) : option Z :=
  if (Config.redSize config =? 8) && (Config.greenSize config =? 8)
     && (Config.blueSize config =? 8) && (Config.alphaSize config =? 8)
  then Some GL_RGBA8
  else if (Config.redSize config =? 8) && (Config.greenSize config =? 8)
          && (Config.blueSize config =? 8) && (Config.alphaSize config =? 0)
  then Some GL_RGB8
  else if (Config.redSize config =? 5) && (Config.greenSize config =? 6)
          && (Config.blueSize config =? 5) && (Config.alphaSize config =? 0)
  then Some GL_RGB565
  else if (Config.redSize config =? 5) && (Config.greenSize config =? 5)
          && (Config.blueSize config =? 5) && (Config.alphaSize config =? 1)
  then Some GL_RGB5_A1
  else if (Config.redSize config =? 4) && (Config.greenSize config =? 4)
          && (Config.blueSize config =? 4) && (Config.alphaSize config =? 4)
  then Some GL_RGBA4
  else if (Config.redSize config =? 10) && (Config.greenSize config =? 10)
          && (Config.blueSize config =? 10) && (Config.alphaSize config =? 2)
  then Some GL_RGB10_A2
  else None.

(** Lines 641-664: the chain over the depth and stencil bits. *)
Definition depthStencilFormatOf (config : Config.t) : option Z :=
  if (Config.depthSize config =? 0) && (Config.stencilSize config =? 0)
  then Some GL_ZERO
  else if (Config.depthSize config =? 16) && (Config.stencilSize config =? 0)
  then Some GL_DEPTH_COMPONENT16
  else if (Config.depthSize config =? 24) && (Config.stencilSize config =? 0)
  then Some GL_DEPTH_COMPONENT24
  else if (Config.depthSize config =? 24) && (Config.stencilSize config =? 8)
  then Some GL_DEPTH24_STENCIL8
  else if (Config.depthSize config =? 0) && (Config.stencilSize config =? 8)
  then Some GL_STENCIL_INDEX8
  else None.

(** Lines 596-667 for one config: [None] when the loop [continue]s. *)
Definition classifyConfig (config : Config.t) : M (option Config.t) :=
  if Config.colorBufferType config =? EGL_RGB_BUFFER then
    ASSERT (Config.colorComponentType config =? EGL_COLOR_COMPONENT_TYPE_FIXED_EXT)
           "config.colorComponentType == EGL_COLOR_COMPONENT_TYPE_FIXED_EXT";;
    match renderTargetFormatOf config with
    | None => mret None
    | Some renderTargetFormat =>
        let config := Config.set_renderTargetFormat renderTargetFormat config in
        match depthStencilFormatOf config with
        | None => mret None
        | Some depthStencilFormat =>
            let config := Config.set_depthStencilFormat depthStencilFormat config in
            let config := Config.set_matchNativePixmap EGL_NONE config in
            let config := Config.set_optimalOrientation 0 config in
            mret (Some config)
        end
    end
  else mret None.

(** Lines 553-671: the loop over the native configs.  [getConfigAttrib]
    succeeds on every config the driver listed (line 517 asserts it). *)
Fixpoint generateConfigs_loop (configs : list EGLConfig) (configSet : gmap Z Config.t)
    : M (gmap Z Config.t) :=
  match configs with
  | [] => mret configSet
  | c :: rest =>
      d ← getThis;
      classified ← classifyConfig (readConfig (mEGL d) c);
      match classified with
      | None => generateConfigs_loop rest configSet
      | Some config =>
          let added := ConfigSet.add config configSet in
          setThis (set_mConfigIds (<[added.1 := Config.configID config]> (mConfigIds d)) d);;
          generateConfigs_loop rest added.2
      end
  end.

(** The two [chooseConfig] calls of lines 544-551 (count, then fetch) are one
    query of the driver's list of matching configs. *)
Definition generateConfigs : M (gmap Z Config.t) :=
  d ← getThis;
  setThis (set_mConfigIds ∅ d);;
  let configs := chooseConfig (mEGL d) (mConfigAttribList d) in
  ASSERT (bool_decide (configs ≠ [])) "success == EGL_TRUE && numConfigs > 0";;
  generateConfigs_loop configs ∅.

End DisplayEGL_methods.

(** ** The negotiation as the specification words it (section 4.3) *)

(** "The caller requested an explicit major/minor version". *)
Definition requestedVersion (eglAttributes : AttributeMap.t) : option (Z * Z) :=
  let requestedMajor :=
    AttributeMap.getAsInt eglAttributes EGL_PLATFORM_ANGLE_MAX_VERSION_MAJOR_ANGLE
      EGL_DONT_CARE in
  let requestedMinor :=
    AttributeMap.getAsInt eglAttributes EGL_PLATFORM_ANGLE_MAX_VERSION_MINOR_ANGLE
      EGL_DONT_CARE in
  if decide (requestedMajor ≠ EGL_DONT_CARE ∧ requestedMinor ≠ EGL_DONT_CARE)
  then Some (requestedMajor, requestedMinor)
  else None.

(** A version-attribute set: the name/value pairs in the order in which
    they are handed to the native library. *)
Definition documented_version (versionMajor versionMinor : Z) : list (Z * Z) :=
  [(EGL_CONTEXT_MAJOR_VERSION, versionMajor); (EGL_CONTEXT_MINOR_VERSION, versionMinor)].

Definition legacyAttribs : list (Z * Z) := [(EGL_CONTEXT_CLIENT_VERSION, 2)].

(** The ordered list of candidate version-attribute sets, rules 1 to 3; rule
    3 fails at once for an explicit version other than the legacy 2.0. *)
Definition documented_candidates (flexible : bool) (requested : option (Z * Z))
    : Error + list (list (Z * Z)) :=
  match flexible, requested with
  | true, Some (requestedMajor, requestedMinor) =>
      inr [documented_version requestedMajor requestedMinor]
  | true, None =>
      inr [documented_version 3 2; documented_version 3 1; documented_version 3 0;
           documented_version 2 0]
  | false, Some (requestedMajor, requestedMinor) =>
      if decide ((requestedMajor, requestedMinor) = (2, 0))
      then inr [legacyAttribs]
      else inl (EglBadAttribute "Unsupported requested context version")
  | false, None => inr [legacyAttribs]
  end.

(** The robust variant of a candidate: the reset-notification strategy, plus
    the video-memory-purge flag when that sub-extension is present, after
    the version. *)
Definition documented_robust_variant (purge : bool) (candidate : list (Z * Z))
    : list (Z * Z) :=
  candidate
  ++ [(EGL_CONTEXT_OPENGL_RESET_NOTIFICATION_STRATEGY, EGL_LOSE_CONTEXT_ON_RESET)]
  ++ (if purge then [(EGL_GENERATE_RESET_ON_VIDEO_MEMORY_PURGE_NV, GL_TRUE)] else []).

(** The attribute vector of a set: names and values in turn, closed by
    [EGL_NONE]. *)
Definition documented_vector (attribs : list (Z * Z)) : AttributeVector :=
  flat_map (fun pair => [pair.1; pair.2]) attribs ++ [EGL_NONE].

(** The attribute vectors attempted for one candidate, in order. *)
Definition documented_attempts (robustness purge : bool) (candidate : list (Z * Z))
    : list AttributeVector :=
  if robustness
  then [documented_vector (documented_robust_variant purge candidate);
        documented_vector candidate]
  else [documented_vector candidate].

(** "An ordered list of candidates consumed by a first-success combinator":
    each attempt is one native creation call; the first handle that is not
    [EGL_NO_CONTEXT] wins, with its vector. *)
Fixpoint first_success (config : EGLConfig) (shareContext : EGLContext)
    (attempts : list AttributeVector) : M (option (EGLContext * AttributeVector)) :=
  match attempts with
  | [] => mret None
  | attribVector :: rest =>
      context ← native (eglCreateContext config shareContext attribVector);
      if decide (context ≠ EGL_NO_CONTEXT)
      then mret (Some (context, attribVector))
      else first_success config shareContext rest
  end.

(** All the attribute vectors negotiation may attempt, in order. *)
Definition documented_plan (d : DisplayEGL) (eglAttributes : AttributeMap.t)
    : Error + list AttributeVector :=
  match documented_candidates (hasFlexibleVersionAttributes (mEGL d))
          (requestedVersion eglAttributes) with
  | inl e => inl e
  | inr candidates =>
      inr (flat_map (documented_attempts (mHasEXTCreateContextRobustness d)
                       (mHasNVRobustnessVideoMemoryPurge d)) candidates)
  end.

Definition documented_negotiation (shareContext : EGLContext)
    (eglAttributes : AttributeMap.t) : M (Error + EGLContext * AttributeVector) :=
  d ← getThis;
  match documented_plan d eglAttributes with
  | inl e => mret (inl e)
  | inr attempts =>
      created ← first_success (mConfig d) shareContext attempts;
      match created with
      | Some won => mret (inr won)
      | None =>
          code ← native eglGetError;
          mret (inl (mkError code "eglCreateContext failed"))
      end
  end.

(** The creation attempts recorded in a stretch of the log, with the handle
    each one produced. *)
Definition creations (log : list NativeCall) : list (AttributeVector * EGLContext) :=
  omap (fun c => match call c with
                 | eglCreateContext _ _ attribs => Some (attribs, answer c)
                 | _ => None
                 end) log.

(** ** Config classification as the specification words it (section 4.2) *)

(** "RGBA bit pattern -> render-target format". *)
Definition renderTargetTable : list (Z * Z * Z * Z * Z) :=
  [(8, 8, 8, 8, GL_RGBA8); (8, 8, 8, 0, GL_RGB8); (5, 6, 5, 0, GL_RGB565);
   (5, 5, 5, 1, GL_RGB5_A1); (4, 4, 4, 4, GL_RGBA4); (10, 10, 10, 2, GL_RGB10_A2)].

(** "(depth,stencil) bits -> depth-stencil format"; "none" is [GL_ZERO]. *)
Definition depthStencilTable : list (Z * Z * Z) :=
  [(0, 0, GL_ZERO); (16, 0, GL_DEPTH_COMPONENT16); (24, 0, GL_DEPTH_COMPONENT24);
   (24, 8, GL_DEPTH24_STENCIL8); (0, 8, GL_STENCIL_INDEX8)].

(** "Exact match, first match wins, no match => config rejected". *)
Fixpoint table_lookup {K V : Type} `{EqDecision K} (table : list (K * V)) (key : K)
    : option V :=
  match table with
  | [] => None
  | (k, v) :: rest => if decide (key = k) then Some v else table_lookup rest key
  end.

(** The two derived formats of a config, when it is retained: it has an RGB
    colour buffer and both bit patterns are in the tables. *)
Definition documented_classification (config : Config.t) : option (Z * Z) :=
  if decide (Config.colorBufferType config = EGL_RGB_BUFFER) then
    match table_lookup renderTargetTable
            (Config.redSize config, Config.greenSize config, Config.blueSize config,
             Config.alphaSize config),
          table_lookup depthStencilTable (Config.depthSize config, Config.stencilSize config)
    with
    | Some renderTargetFormat, Some depthStencilFormat =>
        Some (renderTargetFormat, depthStencilFormat)
    | _, _ => None
    end
  else None.

(** A retained config as it enters the catalog (before it is numbered). *)
Definition documented_entry (config : Config.t) : option Config.t :=
  match documented_classification config with
  | Some (renderTargetFormat, depthStencilFormat) =>
      Some (Config.set_optimalOrientation 0
              (Config.set_matchNativePixmap EGL_NONE
                 (Config.set_depthStencilFormat depthStencilFormat
                    (Config.set_renderTargetFormat renderTargetFormat config))))
  | None => None
  end.

(** The condition the [ASSERT]s of [generateConfigs] check: some config was
    returned, and RGB-buffer configs have fixed-point components. *)
Definition generateConfigs_asserts (natives : list Config.t) : Prop :=
  natives <> []
  /\ Forall (fun config =>
               Config.colorBufferType config = EGL_RGB_BUFFER ->
               Config.colorComponentType config = EGL_COLOR_COMPONENT_TYPE_FIXED_EXT)
            natives.

(** ** Sample builds, drivers and displays, for the examples *)

Module Sample.
(** A build with [ASSERT] compiled in; the base class reports success. *)
Definition debug_build : Build :=
  {| ANGLE_ENABLE_ASSERTS := true;
     DisplayGL_makeCurrent := fun _ _ _ => NoError |}.

(** Three native configs: RGBA8 with D24S8, RGB565 with D16, and an
    RGB332 config without depth or stencil. *)
Definition configAttribs (config : EGLConfig) (attribute : EGLint) : EGLint :=
  if attribute =? EGL_COLOR_BUFFER_TYPE then EGL_RGB_BUFFER
  else if attribute =? EGL_CONFIG_ID then 100 + config
  else if attribute =? EGL_SURFACE_TYPE then 7
  else if attribute =? EGL_RED_SIZE
  then (if config =? 1 then 8 else if config =? 2 then 5 else 3)
  else if attribute =? EGL_GREEN_SIZE
  then (if config =? 1 then 8 else if config =? 2 then 6 else 3)
  else if attribute =? EGL_BLUE_SIZE
  then (if config =? 1 then 8 else if config =? 2 then 5 else 2)
  else if attribute =? EGL_ALPHA_SIZE then (if config =? 1 then 8 else 0)
  else if attribute =? EGL_DEPTH_SIZE
  then (if config =? 1 then 24 else if config =? 2 then 16 else 0)
  else if attribute =? EGL_STENCIL_SIZE then (if config =? 1 then 8 else 0)
  else 0.

(** Context handles are accepted only for ES 3.0 without robustness and
    for ES 2.0; every other call succeeds, and the context reported as
    current is the one of the last successful [eglMakeCurrent]. *)
Definition picky_driver (log : list NativeCall) (c : EglCall) : Z :=
  match c with
  | eglCreateContext _ _ attribs =>
      if decide (attribs = [EGL_CONTEXT_MAJOR_VERSION; 3; EGL_CONTEXT_MINOR_VERSION; 0;
                            EGL_NONE])
      then 41
      else if decide (attribs = [EGL_CONTEXT_MAJOR_VERSION; 2; EGL_NONE])
      then 42
      else EGL_NO_CONTEXT
  | eglMakeCurrent _ _ => EGL_TRUE
  | eglDestroyContext _ => EGL_TRUE
  | eglGetError => EGL_SUCCESS
  | eglGetCurrentContext =>
      fold_left (fun current n =>
                   match call n with
                   | eglMakeCurrent _ context =>
                       if answer n =? EGL_FALSE then current else context
                   | _ => current
                   end) log EGL_NO_CONTEXT
  end.

Definition egl (versionMinor : Z) (names : list string) : FunctionsEGL :=
  {| majorVersion := 1; minorVersion := versionMinor; extensions := names;
     driver := picky_driver;
     chooseConfig := fun _ => [1; 2; 3];
     getConfigAttrib := configAttribs |}.

Definition display (functions : FunctionsEGL) (virtualized : bool) : DisplayEGL :=
  {| mEGL := functions; mConfig := EGL_NO_CONFIG_KHR; mConfigAttribList := [EGL_NONE];
     mHasEXTCreateContextRobustness :=
       hasExtension functions "EGL_EXT_create_context_robustness";
     mHasNVRobustnessVideoMemoryPurge :=
       hasExtension functions "EGL_NV_robustness_video_memory_purge";
     mVirtualizedContexts := virtualized;
     mSupportsSurfaceless := hasExtension functions "EGL_KHR_surfaceless_context";
     mMockPbuffer := 9; mRenderer := 41;
     mConfigIds := ∅; mCurrentNativeContexts := ∅ |}.

(** An EGL 1.4 driver without extensions, and an EGL 1.5 driver that
    advertises robustness. *)
Definition legacy : World := mkWorld (display (egl 4 []) false) [].
Definition modern : World :=
  mkWorld (display (egl 5 ["EGL_EXT_create_context_robustness"]) true) [].

Definition window : Surface := mkSurface 5 false.
Definition external_surface : Surface := mkSurface EGL_NO_SURFACE true.
Definition plain_context : Context := mkContext 41 false.
Definition external_context : Context := mkContext 77 true.
End Sample.

(** ** Further parts of the two files *)

(** The state a method leaves behind, whether it returns or stops. *)
Definition worldOf {A : Type} (o : Outcome A) : World :=
  match o with
  | Returns _ w => w
  | Fatal _ w => w
  end.

(** The native calls a method added to the log. *)
Definition issued (before after : World) : list NativeCall :=
  drop (length (calls before)) (calls after).

(** Modelled from the spec: further constants of the Khronos and ANGLE
    headers, which are not part of the two source files. *)
Module K2.
Definition EGL_NOT_INITIALIZED : EGLint := 0x3001.
Definition EGL_OPENGL_ES2_BIT : EGLint := 0x0004.
Definition EGL_OPENGL_BIT : EGLint := 0x0008.
Definition EGL_OPENGL_ES3_BIT : EGLint := 0x0040.
Definition EGL_PLATFORM_ANGLE_TYPE_OPENGL_ANGLE : EGLAttrib := 0x320D.
Definition EGL_PLATFORM_ANGLE_TYPE_OPENGLES_ANGLE : EGLAttrib := 0x320E.
Definition GL_TEXTURE : Z := 0x1702.
Definition GL_TEXTURE_3D : Z := 0x806F.
Definition GL_TEXTURE_2D_ARRAY : Z := 0x8C1A.
End K2.
Import K2.

(** *** [RenderableTypesFromPlatformAttrib] (lines 36-64) *)

Definition RenderableTypesFromPlatformAttrib (egl : FunctionsEGL) (platformAttrib : EGLAttrib)
    : list EGLint :=
  if platformAttrib =? EGL_PLATFORM_ANGLE_TYPE_OPENGL_ANGLE then [EGL_OPENGL_BIT]
  else if platformAttrib =? EGL_PLATFORM_ANGLE_TYPE_OPENGLES_ANGLE then
    (if version_ge (Version_of_ints (majorVersion egl) (minorVersion egl)) (mkVersion 1 5)
        || hasExtension egl "EGL_KHR_create_context"
     then [EGL_OPENGL_ES3_BIT]
     else [])
    ++ [EGL_OPENGL_ES2_BIT]
  else [].

(** *** [WorkerContextEGL] (lines 66-105) and [createWorkerContext]
    (lines 998-1009) *)

Module WorkerContextEGL.
(** [mFunctions] is the display's [mEGL]. *)
Record t := mk { mContext : EGLContext; mPbuffer : EGLSurface }.

(** Lines 92-100. *)
Definition makeCurrent (worker : t) : M bool :=
  made ← native (eglMakeCurrent (mPbuffer worker) (mContext worker));
  if made =? EGL_FALSE then mret false else mret true.

(** Lines 102-105. *)
Definition unmakeCurrent (worker : t) : M unit :=
  _ ← native (eglMakeCurrent EGL_NO_SURFACE EGL_NO_CONTEXT);
  mret tt.

(** The destructor, lines 87-90. *)
Definition destroy (worker : t) : M unit :=
  _ ← native (eglDestroyContext (mContext worker));
  mret tt.
End WorkerContextEGL.

(** The worker, or [nullptr], together with the info log. *)
Definition createWorkerContext (infoLog : string) (sharedContext : EGLContext)
    (workerAttribs : AttributeVector) : M (option WorkerContextEGL.t * string) :=
  d ← getThis;
  context ← native (eglCreateContext (mConfig d) sharedContext workerAttribs);
  if context =? EGL_NO_CONTEXT
  then mret (None, String.append infoLog "Unable to create the EGL context.")
  else mret (Some (WorkerContextEGL.mk context EGL_NO_SURFACE), infoLog).

(** *** [createRenderer] (lines 942-996) and [createContext] (lines 470-510) *)

(** A [RendererEGL], as far as the display looks at it: its native context,
    the attributes it was created with, and whether it was adopted.  Loading
    the GL entry points ([makeFunctionsGL], [FunctionsGL::initialize]) and
    the rest of the renderer's construction are outside the source files
    and issue none of the native calls the log tracks. *)
Record RendererEGL := mkRenderer {
  renderer_getContext : EGLContext;
  renderer_attribs : AttributeVector;
  renderer_isExternal : bool
}.

(** What [createRenderer] and [createContext] take from outside the source
    files: the display attributes stored by [initialize]
    ([mDisplayAttributes]) and the text an [egl::Error] gives when streamed
    into a message. *)
Class Surroundings := {
  mDisplayAttributes : AttributeMap.t;
  Error_text : Error -> string
}.

Definition EglNotInitialized (msg : string) : Error := mkError EGL_NOT_INITIALIZED msg.

(** [egl::Error::isError]. *)
Definition Error_isError (e : Error) : bool := negb (err_code e =? EGL_SUCCESS).





Section DisplayEGL_renderers.

Context {build : Build} {surroundings : Surroundings}.

(** Lines 973-995: the renderer is made and handed out, and the thread's
    binding is recorded or put back. *)
Definition finishRenderer (id : nat) (context : EGLContext) (attribs : AttributeVector)
    (makeNewContextCurrent isExternalContext : bool) : M (Error * option RendererEGL) :=
  d ← getThis;
  let renderer := mkRenderer context attribs isExternalContext in
  currentContext ← currentNativeContext id;
  if makeNewContextCurrent then
    assign_surface id (mMockPbuffer d);;
    assign_context id context;;
    mret (NoError, Some renderer)
  else if negb isExternalContext then
    made ← native (eglMakeCurrent (CurrentNativeContext.surface currentContext)
                     (CurrentNativeContext.context currentContext));
    if made =? EGL_FALSE then
      code ← native eglGetError;
      mret (EglNotInitialized
              (String.append "eglMakeCurrent failed with " (Error_text (mkError code ""))),
            Some renderer)
    else mret (NoError, Some renderer)
  else mret (NoError, Some renderer).

(** The error returned, and what [*outRenderer] was assigned ([None]: it was
    left as it was).  [ANGLE_TRY] returns the error of [initializeContext]
    only if [isError] holds of it; the two out-parameters of
    [initializeContext] keep their initial values when it fails. *)
Definition createRenderer (id : nat) (shareContext : EGLContext)
    (makeNewContextCurrent isExternalContext : bool) : M (Error * option RendererEGL) :=
  d ← getThis;
  if isExternalContext then
    ASSERT (shareContext =? EGL_NO_CONTEXT) "shareContext == EGL_NO_CONTEXT";;
    ASSERT (negb makeNewContextCurrent) "!makeNewContextCurrent";;
    context ← native eglGetCurrentContext;
    ASSERT (negb (context =? EGL_NO_CONTEXT)) "context != EGL_NO_CONTEXT";;
    finishRenderer id context
      [EGL_CONTEXT_MAJOR_VERSION; 2; EGL_CONTEXT_MINOR_VERSION; 0; EGL_NONE]
      makeNewContextCurrent isExternalContext
  else
    initialized ← initializeContext shareContext mDisplayAttributes;
    let error :=
      match initialized with
      | inl e => e
      | inr _ => NoError
      end in
    let context :=
      match initialized with
      | inl _ => EGL_NO_CONTEXT
      | inr (context, _) => context
      end in
    let attribs :=
      match initialized with
      | inl _ => []
      | inr (_, attribs) => attribs
      end in
    if Error_isError error then mret (error, None)
    else
      made ← native (eglMakeCurrent (mMockPbuffer d) context);
      if made =? EGL_FALSE then
        code ← native eglGetError;
        mret (EglNotInitialized
                (String.append "eglMakeCurrent failed with " (Error_text (mkError code ""))),
              None)
      else finishRenderer id context attribs makeNewContextCurrent isExternalContext.


End DisplayEGL_renderers.

(** *** More of [gl::FramebufferAttachment] *)

(** The value of a query, unless an [ASSERT] on the way stops the process. *)
Inductive Checked (A : Type) :=
| Value (a : A)
| Aborts (condition : string).
Arguments Value {A} a.
Arguments Aborts {A} condition.

#[global] Instance ImageIndex_eq_dec : EqDecision FramebufferAttachment.ImageIndex.
Proof. solve_decision. Defined.

#[global] Instance Offset_eq_dec : EqDecision FramebufferAttachment.Offset.
Proof. solve_decision. Defined.

Section FramebufferAttachment_queries.

Context {build : Build}.

(** Lines 187-191; [type()] is [mType]. *)
Definition FramebufferAttachment_getTextureImageIndex (a : FramebufferAttachment.t)
    : Checked FramebufferAttachment.ImageIndex :=
  if ANGLE_ENABLE_ASSERTS && negb (FramebufferAttachment.mType a =? GL_TEXTURE)
  then Aborts "type() == GL_TEXTURE"
  else Value (FramebufferAttachment.mTextureIndex (FramebufferAttachment.mTarget a)).

(** Lines 201-205. *)
Definition FramebufferAttachment_mipLevel (a : FramebufferAttachment.t) : Checked Z :=
  if ANGLE_ENABLE_ASSERTS && negb (FramebufferAttachment.mType a =? GL_TEXTURE)
  then Aborts "type() == GL_TEXTURE"
  else Value (FramebufferAttachment.mipIndex
                (FramebufferAttachment.mTextureIndex (FramebufferAttachment.mTarget a))).

(** Lines 207-218. *)
Definition FramebufferAttachment_layer (a : FramebufferAttachment.t) : Checked Z :=
  if ANGLE_ENABLE_ASSERTS && negb (FramebufferAttachment.mType a =? GL_TEXTURE)
  then Aborts "mType == GL_TEXTURE"
  else
    let index := FramebufferAttachment.mTextureIndex (FramebufferAttachment.mTarget a) in
    if (FramebufferAttachment.type index =? GL_TEXTURE_2D_ARRAY)
       || (FramebufferAttachment.type index =? GL_TEXTURE_3D)
    then Value (FramebufferAttachment.layerIndex index)
    else Value 0.

(** [operator==], lines 260-275. *)
Definition FramebufferAttachment_equal (a other : FramebufferAttachment.t) : Checked bool :=
  if bool_decide (FramebufferAttachment.mResource a <> FramebufferAttachment.mResource other)
     || negb (FramebufferAttachment.mType a =? FramebufferAttachment.mType other)
     || negb (FramebufferAttachment.mNumViews a =? FramebufferAttachment.mNumViews other)
     || negb (FramebufferAttachment.mMultiviewLayout a
              =? FramebufferAttachment.mMultiviewLayout other)
     || negb (FramebufferAttachment.mBaseViewIndex a
              =? FramebufferAttachment.mBaseViewIndex other)
     || bool_decide (FramebufferAttachment.mViewportOffsets a
                     <> FramebufferAttachment.mViewportOffsets other)
  then Value false
  else if FramebufferAttachment.mType a =? GL_TEXTURE then
    match FramebufferAttachment_getTextureImageIndex a,
          FramebufferAttachment_getTextureImageIndex other with
    | Value index, Value otherIndex =>
        if bool_decide (index <> otherIndex) then Value false else Value true
    | Aborts condition, _ => Aborts condition
    | _, Aborts condition => Aborts condition
    end
  else Value true.

(** [operator!=], lines 277-280. *)
Definition FramebufferAttachment_notEqual (a other : FramebufferAttachment.t)
    : Checked bool :=
  match FramebufferAttachment_equal a other with
  | Value b => Value (negb b)
  | Aborts condition => Aborts condition
  end.

End FramebufferAttachment_queries.

(** The move assignment of lines 83-93 swaps every member: the pair is
    ([*this], [other]) afterwards. *)
Definition FramebufferAttachment_moveAssign (a other : FramebufferAttachment.t)
    : FramebufferAttachment.t * FramebufferAttachment.t :=
  ({| FramebufferAttachment.mType := FramebufferAttachment.mType other;
      FramebufferAttachment.mTarget := FramebufferAttachment.mTarget other;
      FramebufferAttachment.mResource := FramebufferAttachment.mResource other;
      FramebufferAttachment.mNumViews := FramebufferAttachment.mNumViews other;
      FramebufferAttachment.mMultiviewLayout := FramebufferAttachment.mMultiviewLayout other;
      FramebufferAttachment.mBaseViewIndex := FramebufferAttachment.mBaseViewIndex other;
      FramebufferAttachment.mViewportOffsets := FramebufferAttachment.mViewportOffsets other |},
   {| FramebufferAttachment.mType := FramebufferAttachment.mType a;
      FramebufferAttachment.mTarget := FramebufferAttachment.mTarget a;
      FramebufferAttachment.mResource := FramebufferAttachment.mResource a;
      FramebufferAttachment.mNumViews := FramebufferAttachment.mNumViews a;
      FramebufferAttachment.mMultiviewLayout := FramebufferAttachment.mMultiviewLayout a;
      FramebufferAttachment.mBaseViewIndex := FramebufferAttachment.mBaseViewIndex a;
      FramebufferAttachment.mViewportOffsets := FramebufferAttachment.mViewportOffsets a |}).

(** The move constructor of lines 77-81: a default-constructed attachment is
    move-assigned from [other]. *)
Definition FramebufferAttachment_moveConstruct (other : FramebufferAttachment.t)
    : FramebufferAttachment.t * FramebufferAttachment.t :=
  FramebufferAttachment_moveAssign FramebufferAttachment.new other.

(** The constructor of lines 63-75: members initialised (the type is left
    unset until [attach] writes it), then [attach]. *)
Definition FramebufferAttachment_construct (context type binding : Z)
    (textureIndex : FramebufferAttachment.ImageIndex) (resource : option nat)
    (initialType : Z) (fired : list FramebufferAttachment.Notification)
    : FramebufferAttachment.State :=
  FramebufferAttachment.attach context type binding textureIndex resource
    ({| FramebufferAttachment.mType := initialType;
        FramebufferAttachment.mTarget := FramebufferAttachment.Target0;
        FramebufferAttachment.mResource := None;
        FramebufferAttachment.mNumViews := 1;
        FramebufferAttachment.mMultiviewLayout := GL_NONE;
        FramebufferAttachment.mBaseViewIndex := 0;
        FramebufferAttachment.mViewportOffsets := [FramebufferAttachment.Offset0] |},
     fired).

(** A call on an attachment, and a sequence of calls run in order. *)
Inductive AttachmentCall :=
| callAttach (context type binding : Z) (textureIndex : FramebufferAttachment.ImageIndex)
    (resource : option nat)
| callDetach (context : Z).

Definition performCall (st : FramebufferAttachment.State) (c : AttachmentCall)
    : FramebufferAttachment.State :=
  match c with
  | callAttach context type binding textureIndex resource =>
      FramebufferAttachment.attach context type binding textureIndex resource st
  | callDetach context => FramebufferAttachment.detach context st
  end.

Definition performCalls (cs : list AttachmentCall) (st : FramebufferAttachment.State)
    : FramebufferAttachment.State :=
  fold_left performCall cs st.

(** *** Relations a method may keep between the state it starts in and the
    state it leaves *)

Definition keeps (R : World -> World -> Prop) {A : Type} (m : M A) : Prop :=
  forall w, R w (worldOf (m w)).

(** No native call was added to the log. *)
Definition sameCalls (w w' : World) : Prop := calls w' = calls w.

(** The display object is as it was. *)
Definition sameDisplay (w w' : World) : Prop := this w' = this w.

(** Nothing of the display changed but, possibly, the entry of thread [id]
    in [mCurrentNativeContexts]. *)
Definition displayKeptBut (id : nat) (w w' : World) : Prop :=
  (forall other, other <> id ->
     mCurrentNativeContexts (this w') !! other = mCurrentNativeContexts (this w) !! other)
  /\ mEGL (this w') = mEGL (this w)
  /\ mConfig (this w') = mConfig (this w)
  /\ mConfigAttribList (this w') = mConfigAttribList (this w)
  /\ mHasEXTCreateContextRobustness (this w') = mHasEXTCreateContextRobustness (this w)
  /\ mHasNVRobustnessVideoMemoryPurge (this w') = mHasNVRobustnessVideoMemoryPurge (this w)
  /\ mVirtualizedContexts (this w') = mVirtualizedContexts (this w)
  /\ mSupportsSurfaceless (this w') = mSupportsSurfaceless (this w)
  /\ mMockPbuffer (this w') = mMockPbuffer (this w)
  /\ mRenderer (this w') = mRenderer (this w)
  /\ mConfigIds (this w') = mConfigIds (this w).

(** *** Lines 783-804 of [makeCurrent], read without the [ASSERT]s *)

(** The pair lines 783-804 arrive at. *)
Definition resolvedPair (d : DisplayEGL) (currentContext : CurrentNativeContext.t)
    (newSurface : EGLSurface) (newContext : EGLContext) : EGLSurface * EGLContext :=
  if mVirtualizedContexts d && negb (newContext =? EGL_NO_CONTEXT) then
    let kept :=
      if newSurface =? EGL_NO_SURFACE
      then CurrentNativeContext.surface currentContext
      else newSurface in
    (if (kept =? EGL_NO_SURFACE) && negb (mSupportsSurfaceless d)
     then mMockPbuffer d
     else kept,
     mRenderer d)
  else (newSurface, newContext).

(** The conditions the two [ASSERT]s of lines 785 and 802 check on the way. *)
Definition resolveChecks (d : DisplayEGL) (currentContext : CurrentNativeContext.t)
    (newSurface : EGLSurface) (newContext : EGLContext) : bool :=
  if mVirtualizedContexts d && negb (newContext =? EGL_NO_CONTEXT) then
    ((CurrentNativeContext.context currentContext =? EGL_NO_CONTEXT)
     || (newContext =? CurrentNativeContext.context currentContext))
    && (let kept :=
          if newSurface =? EGL_NO_SURFACE
          then CurrentNativeContext.surface currentContext
          else newSurface in
        if (kept =? EGL_NO_SURFACE) && negb (mSupportsSurfaceless d)
        then negb (mMockPbuffer d =? EGL_NO_SURFACE)
        else true)
  else true.

(** A logged call is a make-current call for the given pair, or an error
    query. *)
Definition bindsOrQueries (pair : EGLSurface * EGLContext) (c : NativeCall) : Prop :=
  call c = eglMakeCurrent pair.1 pair.2 \/ call c = eglGetError.

(** *** The catalog and the id table that [generateConfigs] builds *)

(** Lines 669-670 for each retained config in turn: the config enters the
    set under the next internal id, and [mConfigIds] maps that id to the
    config's native id. *)
Definition recordConfigs (accepted : list Config.t) : gmap Z Config.t * gmap Z Z :=
  foldl (fun state config =>
           let added := ConfigSet.add config state.1 in
           (added.2, <[added.1 := Config.configID config]> state.2))
        (∅, ∅) accepted.

(** The configs the loop of [generateConfigs] retains, in the driver's
    order, as they are before numbering. *)
Definition retainedConfigs (d : DisplayEGL) : list Config.t :=
  omap documented_entry
    (map (readConfig (mEGL d)) (chooseConfig (mEGL d) (mConfigAttribList d))).

(** The references an attachment holds on a resource: one if it is the
    bound resource, none otherwise. *)
Definition FramebufferAttachment_holds (a : FramebufferAttachment.t) (resource : nat) : Z :=
  if decide (FramebufferAttachment.mResource a = Some resource) then 1 else 0.

(** Further sample states: thread 0 holding window 5 with context 41,
    thread 0 bound to an adopted external context, and the surroundings of a
    display initialised without attributes. *)
Module Scenario.
Definition bound : World :=
  mkWorld
    (set_mCurrentNativeContexts {[0%nat := CurrentNativeContext.mk 5 41 false]}
       (Sample.display (Sample.egl 4 []) false))
    [].

Definition adopted : World :=
  mkWorld
    (set_mCurrentNativeContexts {[0%nat := CurrentNativeContext.mk EGL_NO_SURFACE 77 true]}
       (Sample.display (Sample.egl 4 []) false))
    [].

Definition surroundings : Surroundings :=
  {| mDisplayAttributes := AttributeMap.empty;
     Error_text := fun _ => "an EGL error" |}.

Definition worker : WorkerContextEGL.t := WorkerContextEGL.mk 42 EGL_NO_SURFACE.
End Scenario.

(** * Properties *)

Ltac run :=
  unfold mbind, M_bind, mret, M_ret, getThis, setThis, native; simpl.

Section Negotiation.

Lemma to_EGLint_range z : - 2 ^ 31 <= to_EGLint z < 2 ^ 31.
Proof. unfold to_EGLint. pose proof (Z.mod_pos_bound (z + 2 ^ 31) (2 ^ 32)). lia. Qed.

Lemma to_EGLint_small z : - 2 ^ 31 <= z < 2 ^ 31 -> to_EGLint z = z.
Proof. intros Hz. unfold to_EGLint. rewrite Z.mod_small by lia. lia. Qed.

(** The vector of a set whose names and values are [EGLint]s lists them as
    they are. *)
Lemma toIntVector_small (attribs : AttributeMap.t) :
  Forall (fun pair => (- 2 ^ 31 <= pair.1 < 2 ^ 31) /\ (- 2 ^ 31 <= pair.2 < 2 ^ 31)) attribs ->
  AttributeMap.toIntVector attribs = documented_vector attribs.
Proof.
  unfold AttributeMap.toIntVector, documented_vector. intros Hsmall. f_equal.
  induction Hsmall as [|[name value] rest [Hname Hvalue] _ IH]; [reflexivity|].
  cbn [flat_map fst snd app]. rewrite IH, !to_EGLint_small by assumption. reflexivity.
Qed.

(** Lines 211-248 for a version set: the vectors are the documented ones. *)
Lemma attribVectors_version d versionMajor versionMinor :
  - 2 ^ 31 <= versionMajor < 2 ^ 31 ->
  - 2 ^ 31 <= versionMinor < 2 ^ 31 ->
  attribVectors d (versionAttribs versionMajor versionMinor)
  = documented_attempts (mHasEXTCreateContextRobustness d)
      (mHasNVRobustnessVideoMemoryPurge d)
      (documented_version versionMajor versionMinor).
Proof.
  intros Hmajor Hminor.
  assert (Hconstant : forall c : Z, 0 <= c < 2 ^ 16 -> - 2 ^ 31 <= c < 2 ^ 31) by lia.
  unfold attribVectors, documented_attempts, attribsWithRobustness.
  change (versionAttribs versionMajor versionMinor)
    with (documented_version versionMajor versionMinor).
  destruct (mHasEXTCreateContextRobustness d), (mHasNVRobustnessVideoMemoryPurge d);
    repeat match goal with
           | |- _ :: _ = _ :: _ => f_equal
           | |- AttributeMap.toIntVector _ = documented_vector ?attribs =>
               transitivity (AttributeMap.toIntVector attribs); [reflexivity|];
               apply toIntVector_small;
               cbn [documented_robust_variant documented_version app];
               repeat apply Forall_cons_2; try apply Forall_nil_2; cbn [fst snd];
               (split; first [assumption|apply Hconstant; split; vm_compute; congruence])
           end.
Qed.

Lemma attribVectors_legacy d :
  attribVectors d (AttributeMap.insert EGL_CONTEXT_CLIENT_VERSION 2 AttributeMap.empty)
  = documented_attempts (mHasEXTCreateContextRobustness d)
      (mHasNVRobustnessVideoMemoryPurge d) legacyAttribs.
Proof.
  unfold attribVectors, documented_attempts, attribsWithRobustness.
  destruct (mHasEXTCreateContextRobustness d), (mHasNVRobustnessVideoMemoryPurge d);
    reflexivity.
Qed.

(** The loop of lines 211-248 is the first-success combinator run over the
    vectors of the candidates in turn. *)
Lemma tryContextAttribLists_first_success shareContext lists : forall w,
  tryContextAttribLists shareContext lists w
  = first_success (mConfig (this w)) shareContext
      (flat_map (attribVectors (this w)) lists) w.
Proof.
  induction lists as [|attribs rest IH]; intros w; [reflexivity|].
  cbn [tryContextAttribLists flat_map]. unfold attribVectors at 1.
  destruct (mHasEXTCreateContextRobustness (this w)) eqn:Hrob;
    cbn [first_success app]; run; rewrite Hrob; run.
  - case_decide; run; [reflexivity|].
    case_decide; run; [reflexivity|].
    rewrite IH. simpl. reflexivity.
  - case_decide; run; [reflexivity|].
    rewrite IH. simpl. reflexivity.
Qed.

(** Lines 151-248 attempt what the documented plan lists. *)
Lemma contextAttribLists_documented d eglAttributes :
  match contextAttribLists (mEGL d) eglAttributes with
  | inl e => inl e
  | inr lists => inr (flat_map (attribVectors d) lists)
  end
  = documented_plan d eglAttributes.
Proof.
  unfold contextAttribLists, documented_plan, requestedVersion. cbv zeta.
  pose proof (to_EGLint_range
                (AttributeMap.get eglAttributes EGL_PLATFORM_ANGLE_MAX_VERSION_MAJOR_ANGLE
                   EGL_DONT_CARE)) as Hma.
  pose proof (to_EGLint_range
                (AttributeMap.get eglAttributes EGL_PLATFORM_ANGLE_MAX_VERSION_MINOR_ANGLE
                   EGL_DONT_CARE)) as Hmi.
  fold (AttributeMap.getAsInt eglAttributes EGL_PLATFORM_ANGLE_MAX_VERSION_MAJOR_ANGLE
          EGL_DONT_CARE) in Hma.
  fold (AttributeMap.getAsInt eglAttributes EGL_PLATFORM_ANGLE_MAX_VERSION_MINOR_ANGLE
          EGL_DONT_CARE) in Hmi.
  set (ma := AttributeMap.getAsInt _ EGL_PLATFORM_ANGLE_MAX_VERSION_MAJOR_ANGLE _) in *.
  set (mi := AttributeMap.getAsInt _ EGL_PLATFORM_ANGLE_MAX_VERSION_MINOR_ANGLE _) in *.
  destruct (Z.eqb_spec ma EGL_DONT_CARE), (Z.eqb_spec mi EGL_DONT_CARE);
    case_decide; try tauto; destruct (hasFlexibleVersionAttributes (mEGL d));
    cbn [negb andb documented_candidates];
    try (cbn [flat_map app]; rewrite attribVectors_legacy; reflexivity);
    try (cbn [flat_map app]; rewrite attribVectors_version by assumption; reflexivity);
    try (unfold esVersionsFrom2_0; cbn [map flat_map major minor];
         rewrite !attribVectors_version by apply to_EGLint_range; reflexivity).
  case_decide as Heq.
  - injection Heq as Hmajor Hminor. rewrite Hmajor, Hminor. cbn [Z.eqb Pos.eqb negb orb].
    cbn [flat_map app]. rewrite attribVectors_legacy. reflexivity.
  - destruct (Z.eqb_spec ma 2), (Z.eqb_spec mi 0); cbn [negb orb]; congruence.
Qed.

(** Line 151 hands the [int] version numbers to [gl::Version] as unsigned
    integers: a negative major number counts as a version above 1.5. *)
Lemma hasFlexibleVersionAttributes_wraps egl :
  - 2 ^ 31 <= majorVersion egl < 0 -> hasFlexibleVersionAttributes egl = true.
Proof.
  intros Hnegative.
  unfold hasFlexibleVersionAttributes, version_ge, Version_of_ints, to_unsigned.
  cbn [major minor]. apply orb_true_iff. left. apply orb_true_iff. left.
  apply Z.ltb_lt.
  pose proof (Z.mod_pos_bound (majorVersion egl) (2 ^ 32) ltac:(lia)) as Hbound.
  assert (Hwrap : majorVersion egl mod 2 ^ 32 = majorVersion egl + 2 ^ 32).
  { symmetry. apply (Z.mod_unique _ _ (-1)); lia. }
  lia.
Qed.

(** [initializeContext] is the documented negotiation. *)
Lemma initializeContext_as_documented shareContext eglAttributes w :
  initializeContext shareContext eglAttributes w
  = documented_negotiation shareContext eglAttributes w.
Proof.
  unfold initializeContext, documented_negotiation. run.
  rewrite <- contextAttribLists_documented.
  destruct (contextAttribLists _ _) as [e|lists]; [reflexivity|].
  rewrite tryContextAttribLists_first_success.
  destruct (first_success _ _ _ w) as [[[context attribVector]|] w'|]; reflexivity.
Qed.

Lemma creations_cons config shareContext v h snapshot l :
  creations (mkCall (eglCreateContext config shareContext v) h snapshot :: l)
  = (v, h) :: creations l.
Proof. reflexivity. Qed.

(** What the first-success combinator leaves in the log. *)
Lemma first_success_log config shareContext attempts : forall w,
  exists r w' issued,
    first_success config shareContext attempts w = Returns r w'
    /\ this w' = this w
    /\ calls w' = calls w ++ issued
    /\ match r with
       | Some (context, attribVector) =>
           exists failed,
             creations issued
               = map (fun v => (v, EGL_NO_CONTEXT)) failed ++ [(attribVector, context)]
             /\ context <> EGL_NO_CONTEXT
             /\ (failed ++ [attribVector]) `prefix_of` attempts
             /\ length issued = S (length failed)
       | None =>
           creations issued = map (fun v => (v, EGL_NO_CONTEXT)) attempts
           /\ length issued = length attempts
       end.
Proof.
  induction attempts as [|v rest IH]; intros w.
  - exists None, w, []. rewrite app_nil_r. repeat split; reflexivity.
  - cbn [first_success]. run. case_decide as Hctx.
    + eexists (Some (_, v)), _, [_]. run. split; [reflexivity|].
      repeat split. exists []. repeat split; try assumption.
      apply prefix_cons, prefix_nil.
    + destruct (IH {| this := this w;
                      calls := calls w ++ [mkCall (eglCreateContext config shareContext v)
                                             (driver (mEGL (this w)) (calls w)
                                                (eglCreateContext config shareContext v))
                                             (mCurrentNativeContexts (this w))] |})
        as (r & w' & issued & Hrun & Hthis & Hcalls & Hr).
      exists r, w', (mkCall (eglCreateContext config shareContext v)
                       (driver (mEGL (this w)) (calls w)
                          (eglCreateContext config shareContext v))
                       (mCurrentNativeContexts (this w)) :: issued).
      split; [exact Hrun|]. split; [exact Hthis|].
      split; [rewrite Hcalls; simpl; rewrite <- app_assoc; reflexivity|].
      destruct r as [[context attribVector]|].
      * destruct Hr as (failed & Hcre & Hne & Hpre & Hlen).
        exists (v :: failed). rewrite creations_cons, Hcre, Hctx. cbn [length].
        rewrite Hlen.
        repeat split; try assumption. simpl. apply prefix_cons. exact Hpre.
      * destruct Hr as [Hcre Hlen].
        rewrite creations_cons, Hcre, Hctx. cbn [length]. rewrite Hlen.
        split; reflexivity.
Qed.

End Negotiation.

(** ** Context negotiation *)

(** C1. For every share context and attribute map, [initializeContext] is the
    documented negotiation: it attempts the documented candidates in order,
    each one first with robustness (and the purge flag) when robustness is
    advertised and then without, one native creation call per attempt; the
    first attempt that yields a context ends the negotiation and is returned
    with its attribute vector; when every attempt has failed, the error
    carries the code the driver reports right after the last attempt.  The
    display object is left as it was. *)
Theorem initializeContext_negotiation shareContext eglAttributes w :
  initializeContext shareContext eglAttributes w
  = documented_negotiation shareContext eglAttributes w
  /\ exists result w' issued,
       initializeContext shareContext eglAttributes w = Returns result w'
       /\ this w' = this w
       /\ calls w' = calls w ++ issued
       /\ match documented_plan (this w) eglAttributes, result with
          | inl e, inl e' => e' = e /\ issued = []
          | inl _, inr _ => False
          | inr attempts, inr (context, attribVector) =>
              exists failed,
                creations issued
                  = map (fun v => (v, EGL_NO_CONTEXT)) failed ++ [(attribVector, context)]
                /\ length issued = S (length failed)
                /\ context <> EGL_NO_CONTEXT
                /\ (failed ++ [attribVector]) `prefix_of` attempts
          | inr attempts, inl e =>
              exists created code,
                issued = created ++ [mkCall eglGetError code (mCurrentNativeContexts (this w))]
                /\ creations created = map (fun v => (v, EGL_NO_CONTEXT)) attempts
                /\ length created = length attempts
                /\ code = driver (mEGL (this w)) (calls w ++ created) eglGetError
                /\ e = mkError code "eglCreateContext failed"
          end.
Proof.
  pose proof (initializeContext_as_documented shareContext eglAttributes w) as Heq.
  split; [exact Heq|]. rewrite Heq. unfold documented_negotiation. run.
  destruct (documented_plan (this w) eglAttributes) as [e|attempts].
  - exists (inl e), w, []. rewrite app_nil_r. repeat split; reflexivity.
  - destruct (first_success_log (mConfig (this w)) shareContext attempts w)
      as (r & w' & issued & Hrun & Hthis & Hcalls & Hr).
    rewrite Hrun. destruct r as [[context attribVector]|].
    + exists (inr (context, attribVector)), w', issued.
      destruct Hr as (failed & Hcre & Hne & Hpre & Hlen).
      repeat split; try assumption. exists failed. repeat split; assumption.
    + destruct Hr as [Hcre Hlen]. run.
      eexists (inl _), _, (issued ++ [_]). split; [reflexivity|].
      split; [exact Hthis|]. split; [rewrite Hcalls, <- app_assoc; reflexivity|].
      exists issued, (driver (mEGL (this w)) (calls w ++ issued) eglGetError).
      rewrite Hthis, Hcalls. repeat split; assumption.
Qed.

(** C6. When the native API lacks flexible version attributes (EGL below 1.5
    and no EGL_KHR_create_context) and an explicit major/minor version other
    than 2.0 is requested, [initializeContext] returns a bad-attribute error
    at once: the state, and with it the log of native calls, is unchanged.
    The EGL version is below 1.5 as line 151 reads it, with the two numbers
    converted to unsigned integers: for the numbers from 0 to 2^32 - 1, and
    so for every version an EGL library reports, these are the numbers
    themselves. *)
Theorem initializeContext_legacy_rejects shareContext eglAttributes w :
  majorVersion (mEGL (this w)) mod 2 ^ 32 < 1
  \/ (majorVersion (mEGL (this w)) mod 2 ^ 32 = 1
      /\ minorVersion (mEGL (this w)) mod 2 ^ 32 < 5) ->
  hasExtension (mEGL (this w)) "EGL_KHR_create_context" = false ->
  AttributeMap.getAsInt eglAttributes EGL_PLATFORM_ANGLE_MAX_VERSION_MAJOR_ANGLE
    EGL_DONT_CARE <> EGL_DONT_CARE ->
  AttributeMap.getAsInt eglAttributes EGL_PLATFORM_ANGLE_MAX_VERSION_MINOR_ANGLE
    EGL_DONT_CARE <> EGL_DONT_CARE ->
  (AttributeMap.getAsInt eglAttributes EGL_PLATFORM_ANGLE_MAX_VERSION_MAJOR_ANGLE
     EGL_DONT_CARE,
   AttributeMap.getAsInt eglAttributes EGL_PLATFORM_ANGLE_MAX_VERSION_MINOR_ANGLE
     EGL_DONT_CARE) <> (2, 0) ->
  initializeContext shareContext eglAttributes w
  = Returns (inl (mkError EGL_BAD_ATTRIBUTE "Unsupported requested context version")) w.
Proof.
  intros Hver Hext Hmaj Hmin Hne.
  unfold initializeContext, contextAttribLists, hasFlexibleVersionAttributes, version_ge,
    Version_of_ints, to_unsigned.
  run. rewrite Hext.
  replace ((1 <? majorVersion (mEGL (this w)) mod 2 ^ 32)
           || (majorVersion (mEGL (this w)) mod 2 ^ 32 =? 1)
              && (5 <=? minorVersion (mEGL (this w)) mod 2 ^ 32))
    with false by (symmetry; apply orb_false_iff; split;
                   [apply Z.ltb_ge; lia
                   |apply andb_false_iff;
                    destruct Hver as [?|[? ?]];
                    [left; apply Z.eqb_neq; lia|right; apply Z.leb_gt; lia]]).
  cbn [orb].
  destruct (Z.eqb_spec (AttributeMap.getAsInt eglAttributes
                          EGL_PLATFORM_ANGLE_MAX_VERSION_MAJOR_ANGLE EGL_DONT_CARE)
              EGL_DONT_CARE); [contradiction|].
  destruct (Z.eqb_spec (AttributeMap.getAsInt eglAttributes
                          EGL_PLATFORM_ANGLE_MAX_VERSION_MINOR_ANGLE EGL_DONT_CARE)
              EGL_DONT_CARE); [contradiction|].
  cbn [negb andb].
  destruct (Z.eqb_spec (AttributeMap.getAsInt eglAttributes
                          EGL_PLATFORM_ANGLE_MAX_VERSION_MAJOR_ANGLE EGL_DONT_CARE) 2) as [E1|];
    destruct (Z.eqb_spec (AttributeMap.getAsInt eglAttributes
                            EGL_PLATFORM_ANGLE_MAX_VERSION_MINOR_ANGLE EGL_DONT_CARE) 0) as [E2|];
    try reflexivity.
  exfalso. apply Hne. rewrite E1, E2. reflexivity.
Qed.

(** ** The per-thread cache *)

Section CurrentContextTracker.

Context {build : Build}.

Lemma ASSERT_pass condition text w :
  (ANGLE_ENABLE_ASSERTS = true -> condition = true) ->
  ASSERT condition text w = Returns tt w.
Proof.
  unfold ASSERT. intros H.
  destruct ANGLE_ENABLE_ASSERTS; [rewrite H by reflexivity|]; reflexivity.
Qed.

Lemma bind_Returns {A B} (m : M A) (f : A -> M B) w a w' :
  m w = Returns a w' -> (m ≫= f) w = f a w'.
Proof. unfold mbind, M_bind. intros ->. reflexivity. Qed.

Lemma bind_assoc {A B C} (m : M A) (f : A -> M B) (g : B -> M C) w :
  ((m ≫= f) ≫= g) w = (m ≫= (fun a => f a ≫= g)) w.
Proof. unfold mbind, M_bind. destruct (m w); reflexivity. Qed.

Lemma entryCreated_lookup id w :
  mCurrentNativeContexts (this (entryCreated id w)) !! id = Some (threadState w id).
Proof.
  unfold entryCreated, threadState.
  destruct (mCurrentNativeContexts (this w) !! id) eqn:E; simpl; [exact E|].
  apply lookup_insert_eq.
Qed.

Lemma entryCreated_tracked id w :
  mCurrentNativeContexts (this (entryCreated id w))
  = <[id := threadState w id]> (mCurrentNativeContexts (this w)).
Proof.
  unfold entryCreated, threadState.
  destruct (mCurrentNativeContexts (this w) !! id) eqn:E; simpl; [|reflexivity].
  symmetry. apply insert_id. exact E.
Qed.

Lemma entryCreated_calls id w : calls (entryCreated id w) = calls w.
Proof. unfold entryCreated. destruct (_ !! id); reflexivity. Qed.

Lemma entryCreated_display id w :
  mEGL (this (entryCreated id w)) = mEGL (this w)
  /\ mVirtualizedContexts (this (entryCreated id w)) = mVirtualizedContexts (this w)
  /\ mSupportsSurfaceless (this (entryCreated id w)) = mSupportsSurfaceless (this w)
  /\ mMockPbuffer (this (entryCreated id w)) = mMockPbuffer (this w)
  /\ mRenderer (this (entryCreated id w)) = mRenderer (this w).
Proof. unfold entryCreated. destruct (_ !! id); repeat split; reflexivity. Qed.

Lemma entryCreated_threadState id w :
  threadState (entryCreated id w) id = threadState w id.
Proof. unfold threadState at 1. rewrite entryCreated_lookup. reflexivity. Qed.

Lemma entryCreated_existing id w c :
  mCurrentNativeContexts (this w) !! id = Some c -> entryCreated id w = w.
Proof. unfold entryCreated. intros ->. reflexivity. Qed.

Lemma resolveBinding_Returns currentContext newSurface newContext w r w' :
  resolveBinding currentContext newSurface newContext w = Returns r w' -> w' = w.
Proof.
  unfold resolveBinding. run.
  destruct (mVirtualizedContexts (this w) && negb (newContext =? EGL_NO_CONTEXT)).
  - unfold ASSERT at 1.
    destruct (ANGLE_ENABLE_ASSERTS && negb _); [discriminate|]. simpl.
    destruct ((_ =? EGL_NO_SURFACE) && negb (mSupportsSurfaceless (this w))).
    + run. unfold ASSERT.
      destruct (ANGLE_ENABLE_ASSERTS && negb _); [discriminate|].
      intros [= <- <-]. reflexivity.
    + intros [= <- <-]. reflexivity.
  - intros [= <- <-]. reflexivity.
Qed.

(** The resolution reads the display's configuration only. *)
Lemma resolveBinding_entryCreated id currentContext newSurface newContext w r w' :
  resolveBinding currentContext newSurface newContext w = Returns r w' ->
  resolveBinding currentContext newSurface newContext (entryCreated id w)
  = Returns r (entryCreated id w).
Proof.
  unfold entryCreated. destruct (_ !! id); [|clear].
  - intros H. rewrite (resolveBinding_Returns _ _ _ _ _ _ H) in H. exact H.
  - unfold resolveBinding. run.
    destruct (mVirtualizedContexts (this w) && negb (newContext =? EGL_NO_CONTEXT));
      [|intros [= <- <-]; reflexivity].
    unfold ASSERT at 1 3.
    destruct (ANGLE_ENABLE_ASSERTS && negb _); [discriminate|]. simpl.
    destruct ((_ =? EGL_NO_SURFACE) && negb (mSupportsSurfaceless (this w)));
      [|intros [= <- <-]; reflexivity].
    run. unfold ASSERT.
    destruct (ANGLE_ENABLE_ASSERTS && negb _); [discriminate|].
    intros [= <- <-]. reflexivity.
Qed.

(** C2. On the non-external path of [makeCurrent], let the resolved pair be
    what lines 783-804 produce.  If it equals the thread's cached pair, no
    native call is issued at all and the cache is unchanged.  Otherwise
    exactly one native make-current call is issued, for the resolved pair:
    when it succeeds the thread's cache becomes the resolved pair; when it
    fails the cache is unchanged and the error returned carries the code
    the driver reports for it. *)
Theorem makeCurrent_binds_only_on_change id drawSurface readSurface context w
    newSurface newContext w1 :
  let currentContext := threadState w id in
  CurrentNativeContext.isExternalContext currentContext = false ->
  from_option Context_isExternal false context = false ->
  resolveBinding currentContext (from_option getSurface EGL_NO_SURFACE drawSurface)
    (from_option getContext EGL_NO_CONTEXT context) w
  = Returns (newSurface, newContext) w1 ->
  let tracking := <[id := currentContext]> (mCurrentNativeContexts (this w)) in
  let made := driver (mEGL (this w)) (calls w) (eglMakeCurrent newSurface newContext) in
  let binding := mkCall (eglMakeCurrent newSurface newContext) made tracking in
  let code := driver (mEGL (this w)) (calls w ++ [binding]) eglGetError in
  exists result w',
    makeCurrent id drawSurface readSurface context w = Returns result w'
    /\ if decide (newSurface = CurrentNativeContext.surface currentContext
                  /\ newContext = CurrentNativeContext.context currentContext)
       then result = DisplayGL_makeCurrent drawSurface readSurface context
            /\ calls w' = calls w
            /\ threadState w' id = currentContext
       else if decide (made = EGL_FALSE)
       then result = mkError code "eglMakeCurrent failed"
            /\ calls w' = calls w ++ [binding; mkCall eglGetError code tracking]
            /\ threadState w' id = currentContext
       else result = DisplayGL_makeCurrent drawSurface readSurface context
            /\ calls w' = calls w ++ [binding]
            /\ threadState w' id = CurrentNativeContext.mk newSurface newContext false.
Proof.
  intros currentContext Hext Hctx Hres tracking made binding code.
  unfold makeCurrent, currentNativeContext.
  erewrite bind_Returns by reflexivity.
  fold currentContext. rewrite Hext, Hctx. cbn [orb].
  change (match drawSurface with Some s => getSurface s | None => EGL_NO_SURFACE end)
    with (from_option getSurface EGL_NO_SURFACE drawSurface).
  change (match context with Some c => getContext c | None => EGL_NO_CONTEXT end)
    with (from_option getContext EGL_NO_CONTEXT context).
  erewrite bind_Returns by (eapply resolveBinding_entryCreated; exact Hres).
  cbn [fst snd]. unfold bindResolved.
  destruct (entryCreated_display id w) as (Hegl & _).
  destruct (Z.eqb_spec newSurface (CurrentNativeContext.surface currentContext)) as [Es|Es],
           (Z.eqb_spec newContext (CurrentNativeContext.context currentContext)) as [Ec|Ec];
    cbn [negb orb]; case_decide as Hd; try (exfalso; tauto).
  { exists (DisplayGL_makeCurrent drawSurface readSurface context), (entryCreated id w).
    split; [reflexivity|]. split; [reflexivity|].
    split; [apply entryCreated_calls|apply entryCreated_threadState]. }
  all: run; rewrite !Hegl, !entryCreated_calls, !entryCreated_tracked;
    fold currentContext tracking made binding;
    destruct (Z.eqb_spec made EGL_FALSE) as [Em|Em]; case_decide; try contradiction;
    run; eexists _, _; (split; [reflexivity|]); cbn [this calls];
    rewrite ?Hegl, ?entryCreated_tracked; fold currentContext tracking made binding code;
    (split; [reflexivity|]); (split; [rewrite <- ?app_assoc; reflexivity|]);
    unfold threadState; cbn [this mCurrentNativeContexts set_mCurrentNativeContexts];
    rewrite ?lookup_alter_eq;
    first [rewrite entryCreated_lookup | unfold tracking; rewrite lookup_insert_eq];
    cbn; fold currentContext; rewrite ?Hext; reflexivity.
Qed.

(** C3. On the non-external path of [makeCurrent], with virtualization
    enabled and a context requested (its native handle is not
    [EGL_NO_CONTEXT]), the pair that is bound has the shared renderer's
    native context as its context; its surface is the requested surface if
    there is one, else the surface cached for the thread if there is one,
    else the mock pbuffer when the driver lacks surfaceless support (and no
    surface when it has it). *)
Theorem makeCurrent_virtualized_resolution id drawSurface readSurface c w :
  let currentContext := threadState w id in
  let requested := from_option getSurface EGL_NO_SURFACE drawSurface in
  let resolvedSurface :=
    if decide (requested <> EGL_NO_SURFACE) then requested
    else if decide (CurrentNativeContext.surface currentContext <> EGL_NO_SURFACE)
    then CurrentNativeContext.surface currentContext
    else if mSupportsSurfaceless (this w) then EGL_NO_SURFACE
    else mMockPbuffer (this w) in
  CurrentNativeContext.isExternalContext currentContext = false ->
  Context_isExternal c = false ->
  mVirtualizedContexts (this w) = true ->
  getContext c <> EGL_NO_CONTEXT ->
  (ANGLE_ENABLE_ASSERTS = true ->
     (CurrentNativeContext.context currentContext = EGL_NO_CONTEXT
      \/ getContext c = CurrentNativeContext.context currentContext)
     /\ (mSupportsSurfaceless (this w) = false -> mMockPbuffer (this w) <> EGL_NO_SURFACE)) ->
  resolveBinding currentContext requested (getContext c) w
  = Returns (resolvedSurface, mRenderer (this w)) w
  /\ makeCurrent id drawSurface readSurface (Some c) w
     = bindResolved id currentContext resolvedSurface (mRenderer (this w))
         drawSurface readSurface (Some c) (entryCreated id w).
Proof.
  intros currentContext requested resolvedSurface Hext Hctx Hvirt Hreq Hasserts.
  assert (Hres : resolveBinding currentContext requested (getContext c) w
                 = Returns (resolvedSurface, mRenderer (this w)) w).
  { unfold resolveBinding. erewrite bind_Returns by reflexivity. rewrite Hvirt.
    destruct (Z.eqb_spec (getContext c) EGL_NO_CONTEXT) as [|_]; [contradiction|].
    cbn [negb andb].
    erewrite bind_Returns; cycle 1.
    { apply ASSERT_pass. intros Hon. destruct (Hasserts Hon) as [[E|E] _].
      - rewrite E. reflexivity.
      - rewrite E, Z.eqb_refl. apply orb_true_r. }
    subst resolvedSurface.
    destruct (Z.eqb_spec requested EGL_NO_SURFACE) as [Er|Er]; case_decide; try contradiction.
    - destruct (Z.eqb_spec (CurrentNativeContext.surface currentContext) EGL_NO_SURFACE)
        as [Ec|Ec]; case_decide; try contradiction.
      + destruct (mSupportsSurfaceless (this w)) eqn:Hsl; cbn [negb andb].
        * rewrite Ec. reflexivity.
        * erewrite bind_Returns; [reflexivity|].
          apply ASSERT_pass. intros Hon. destruct (Hasserts Hon) as [_ Hmock].
          destruct (Z.eqb_spec (mMockPbuffer (this w)) EGL_NO_SURFACE) as [E|_];
            [exfalso; exact (Hmock eq_refl E)|reflexivity].
      + reflexivity.
    - rewrite (proj2 (Z.eqb_neq _ _) Er). reflexivity. }
  split; [exact Hres|].
  unfold makeCurrent, currentNativeContext.
  erewrite bind_Returns by reflexivity.
  fold currentContext. cbn [from_option]. rewrite Hext, Hctx. cbn [orb].
  change (match drawSurface with Some s => getSurface s | None => EGL_NO_SURFACE end)
    with requested.
  erewrite bind_Returns by (eapply resolveBinding_entryCreated; exact Hres).
  destruct (entryCreated_display id w) as (_ & _ & _ & _ & Hren).
  cbn [fst snd]. reflexivity.
Qed.

Ltac steps :=
  repeat first [rewrite bind_assoc
               | erewrite bind_Returns by (first [apply ASSERT_pass; intros _; reflexivity
                                                 | reflexivity])].

(** Lines 744-755: adopting an external context. *)
Lemma makeCurrent_adopts id s readSurface c w :
  threadState w id = CurrentNativeContext.initial ->
  Context_isExternal c = true ->
  isExternal s = true ->
  getSurface s = EGL_NO_SURFACE ->
  exists w1,
    makeCurrent id (Some s) readSurface (Some c) w
    = Returns (DisplayGL_makeCurrent (Some s) readSurface (Some c)) w1
    /\ mCurrentNativeContexts (this w1) !! id
       = Some (CurrentNativeContext.mk EGL_NO_SURFACE (getContext c) true)
    /\ calls w1 = calls w.
Proof.
  intros Hinit Hcext Hsext Hsurf.
  unfold makeCurrent, currentNativeContext.
  erewrite bind_Returns by reflexivity.
  rewrite Hinit. cbn [CurrentNativeContext.isExternalContext CurrentNativeContext.initial
                      from_option orb].
  rewrite Hcext. unfold makeCurrentExternal.
  cbn [CurrentNativeContext.isExternalContext CurrentNativeContext.surface
       CurrentNativeContext.context CurrentNativeContext.initial negb drawSurfaceSatisfies].
  rewrite Hsext, Hsurf. steps.
  eexists. split; [reflexivity|]. cbn. split; [|apply entryCreated_calls].
  rewrite !lookup_alter_eq, entryCreated_lookup, Hinit. reflexivity.
Qed.

(** Lines 766-774: releasing the external context. *)
Lemma makeCurrent_releases id w currentContext :
  mCurrentNativeContexts (this w) !! id = Some currentContext ->
  CurrentNativeContext.isExternalContext currentContext = true ->
  CurrentNativeContext.surface currentContext = EGL_NO_SURFACE ->
  (ANGLE_ENABLE_ASSERTS = true ->
     CurrentNativeContext.context currentContext <> EGL_NO_CONTEXT) ->
  exists w2,
    makeCurrent id None None None w = Returns (DisplayGL_makeCurrent None None None) w2
    /\ mCurrentNativeContexts (this w2) !! id = Some CurrentNativeContext.initial
    /\ calls w2 = calls w.
Proof.
  intros Hcur Hext Hsurf Hhandle.
  unfold makeCurrent, currentNativeContext.
  erewrite bind_Returns by reflexivity.
  rewrite (entryCreated_existing _ _ _ Hcur). unfold threadState. rewrite Hcur.
  cbn [from_option Datatypes.id]. rewrite Hext. cbn [orb]. unfold makeCurrentExternal.
  rewrite Hext, Hsurf. cbn [negb]. steps.
  erewrite bind_Returns; cycle 1.
  { apply ASSERT_pass. intros Hon.
    destruct (Z.eqb_spec (CurrentNativeContext.context currentContext) EGL_NO_CONTEXT) as [E|_];
      [exfalso; exact (Hhandle Hon E)|reflexivity]. }
  steps. eexists. split; [reflexivity|]. cbn. split; [|reflexivity].
  rewrite !lookup_alter_eq, Hcur. cbn. rewrite Hsurf. reflexivity.
Qed.

(** C7. From a thread state with no surface, no context and no external
    context, [makeCurrent] with an external context and an external surface
    without native drawable adopts the context, and a following
    [makeCurrent] with no context and no surface releases it: the thread
    state is again exactly the initial one, and the log of native calls is
    the same after each of the two calls as before them. *)
Theorem makeCurrent_external_round_trip id s readSurface c w :
  threadState w id = CurrentNativeContext.initial ->
  Context_isExternal c = true ->
  isExternal s = true ->
  getSurface s = EGL_NO_SURFACE ->
  (ANGLE_ENABLE_ASSERTS = true -> getContext c <> EGL_NO_CONTEXT) ->
  exists w1 w2,
    makeCurrent id (Some s) readSurface (Some c) w
    = Returns (DisplayGL_makeCurrent (Some s) readSurface (Some c)) w1
    /\ threadState w1 id = CurrentNativeContext.mk EGL_NO_SURFACE (getContext c) true
    /\ calls w1 = calls w
    /\ makeCurrent id None None None w1
       = Returns (DisplayGL_makeCurrent None None None) w2
    /\ mCurrentNativeContexts (this w2) !! id = Some CurrentNativeContext.initial
    /\ calls w2 = calls w.
Proof.
  intros Hinit Hcext Hsext Hsurf Hhandle.
  destruct (makeCurrent_adopts id s readSurface c w Hinit Hcext Hsext Hsurf)
    as (w1 & Hadopt & Hcur & Hcalls).
  destruct (makeCurrent_releases id w1 _ Hcur eq_refl eq_refl Hhandle)
    as (w2 & Hrelease & Hfinal & Hcalls').
  exists w1, w2. split; [exact Hadopt|].
  split; [unfold threadState; rewrite Hcur; reflexivity|].
  split; [exact Hcalls|]. split; [exact Hrelease|]. split; [exact Hfinal|].
  rewrite Hcalls'. exact Hcalls.
Qed.

(** C4. For every context handle, [destroyNativeContext] clears the cached
    surface and the cached context of every thread whose cached context is
    that handle (whichever thread calls), leaves every other entry as it
    is, and only then issues the native destroy call: the tracking map
    recorded with that call is already the cleared one. *)
Theorem destroyNativeContext_forgets_everywhere context w :
  exists w',
    destroyNativeContext context w = Returns tt w'
    /\ (forall id currentContext,
          mCurrentNativeContexts (this w) !! id = Some currentContext ->
          mCurrentNativeContexts (this w') !! id
          = Some (if decide (CurrentNativeContext.context currentContext = context)
                  then CurrentNativeContext.mk EGL_NO_SURFACE EGL_NO_CONTEXT
                         (CurrentNativeContext.isExternalContext currentContext)
                  else currentContext))
    /\ (forall id,
          mCurrentNativeContexts (this w) !! id = None ->
          mCurrentNativeContexts (this w') !! id = None)
    /\ calls w'
       = calls w
         ++ [mkCall (eglDestroyContext context)
               (driver (mEGL (this w)) (calls w) (eglDestroyContext context))
               (mCurrentNativeContexts (this w'))].
Proof.
  unfold destroyNativeContext. run. eexists. split; [reflexivity|]. cbn.
  split; [|split; [|reflexivity]].
  - intros id currentContext Hcur. rewrite lookup_fmap, Hcur. cbn. f_equal.
    unfold forget.
    destruct (Z.eqb_spec (CurrentNativeContext.context currentContext) context);
      case_decide; try contradiction; reflexivity.
  - intros id Hnone. rewrite lookup_fmap, Hnone. reflexivity.
Qed.

(** C9. For every input and in every state, [createPixmapSurface] returns
    the null pointer, its "not implemented" result: no surface object is
    created, and the state is left as it was. *)
Theorem createPixmapSurface_unimplemented state nativePixmap attribs w :
  createPixmapSurface state nativePixmap attribs w = Returns None w.
Proof.
  unfold createPixmapSurface, UNIMPLEMENTED.
  erewrite bind_Returns; [reflexivity|]. apply ASSERT_pass. reflexivity.
Qed.

End CurrentContextTracker.

(** ** Config classification *)

Section ConfigCatalog.

Context {build : Build}.

Lemma eqb4_decide (r g b a r' g' b' a' : Z) :
  (r =? r') && (g =? g') && (b =? b') && (a =? a')
  = bool_decide ((r, g, b, a) = (r', g', b', a')).
Proof.
  destruct (Z.eqb_spec r r'), (Z.eqb_spec g g'), (Z.eqb_spec b b'), (Z.eqb_spec a a');
    cbn [andb]; symmetry;
    first [apply bool_decide_eq_true_2; congruence
          | apply bool_decide_eq_false_2; congruence].
Qed.

Lemma eqb2_decide (d s d' s' : Z) :
  (d =? d') && (s =? s') = bool_decide ((d, s) = (d', s')).
Proof.
  destruct (Z.eqb_spec d d'), (Z.eqb_spec s s'); cbn [andb]; symmetry;
    first [apply bool_decide_eq_true_2; congruence
          | apply bool_decide_eq_false_2; congruence].
Qed.

(** The colour chain of lines 599-634 is the lookup in the documented
    table. *)
Lemma renderTargetFormatOf_table config :
  renderTargetFormatOf config
  = table_lookup renderTargetTable
      (Config.redSize config, Config.greenSize config, Config.blueSize config,
       Config.alphaSize config).
Proof.
  unfold renderTargetFormatOf. rewrite !eqb4_decide.
  unfold renderTargetTable. cbn [table_lookup].
  repeat (case_bool_decide; case_decide; try contradiction; [reflexivity|]).
  reflexivity.
Qed.

Lemma depthStencilFormatOf_table config :
  depthStencilFormatOf config
  = table_lookup depthStencilTable (Config.depthSize config, Config.stencilSize config).
Proof.
  unfold depthStencilFormatOf. rewrite !eqb2_decide.
  unfold depthStencilTable. cbn [table_lookup].
  repeat (case_bool_decide; case_decide; try contradiction; [reflexivity|]).
  reflexivity.
Qed.

Lemma classifyConfig_documented config w :
  (ANGLE_ENABLE_ASSERTS = true ->
   Config.colorBufferType config = EGL_RGB_BUFFER ->
   Config.colorComponentType config = EGL_COLOR_COMPONENT_TYPE_FIXED_EXT) ->
  classifyConfig config w = Returns (documented_entry config) w.
Proof.
  intros Hfixed. unfold classifyConfig, documented_entry, documented_classification.
  destruct (Z.eqb_spec (Config.colorBufferType config) EGL_RGB_BUFFER) as [Hrgb|Hrgb];
    case_decide; try contradiction; [|reflexivity].
  erewrite bind_Returns; cycle 1.
  { apply ASSERT_pass. intros Hon. rewrite (Hfixed Hon Hrgb). reflexivity. }
  rewrite renderTargetFormatOf_table.
  destruct (table_lookup renderTargetTable _) as [renderTargetFormat|]; [|reflexivity].
  rewrite depthStencilFormatOf_table.
  cbn [Config.depthSize Config.stencilSize Config.set_renderTargetFormat].
  destruct (table_lookup depthStencilTable _) as [depthStencilFormat|]; reflexivity.
Qed.

(** Numbering with [ConfigSet::add], starting from the empty set: the
    i-th config added gets id i+1. *)
Lemma added_lookup (l : list Config.t) :
  size (foldl (fun s c => (ConfigSet.add c s).2) ∅ l) = length l
  /\ forall id config,
       foldl (fun s c => (ConfigSet.add c s).2) ∅ l !! id = Some config
       <-> exists i entry,
             l !! i = Some entry /\ id = Z.of_nat i + 1
             /\ config = Config.set_configID id entry.
Proof.
  induction l as [|c l [IHsize IH]] using rev_ind.
  - split; [apply map_size_empty|]. intros id config. cbn. rewrite lookup_empty.
    split; [discriminate|]. intros (i & entry & Hi & _). rewrite lookup_nil in Hi.
    discriminate.
  - rewrite foldl_snoc. unfold ConfigSet.add at 1 3. cbn [snd]. rewrite IHsize.
    assert (Hfresh : foldl (fun s c => (ConfigSet.add c s).2) ∅ l
                       !! (Z.of_nat (length l) + 1) = None).
    { destruct (_ !! (Z.of_nat (length l) + 1)) as [config|] eqn:E; [|reflexivity].
      apply IH in E as (i & entry & Hi & Hid & _).
      apply lookup_lt_Some in Hi. lia. }
    split.
    + rewrite map_size_insert_None by exact Hfresh.
      rewrite IHsize, length_app. cbn. lia.
    + intros id config. rewrite lookup_insert. case_decide as Hid.
      * subst id. split.
        -- intros [= <-]. exists (length l), c. rewrite list_lookup_middle by reflexivity.
           repeat split.
        -- intros (i & entry & Hi & Hid & ->).
           assert (i = length l) as -> by lia.
           rewrite list_lookup_middle in Hi by reflexivity.
           injection Hi as <-. reflexivity.
      * rewrite IH. split.
        -- intros (i & entry & Hi & Hid' & ->). exists i, entry.
           rewrite lookup_app_l by (eapply lookup_lt_Some; exact Hi).
           repeat split; assumption.
        -- intros (i & entry & Hi & Hid' & ->). exists i, entry.
           apply lookup_snoc_Some in Hi as [[Hlt Hi]|[-> _]]; [|lia].
           repeat split; assumption.
Qed.




End ConfigCatalog.

(** ** Framebuffer attachments *)

Section Attachments.

Import FramebufferAttachment.

Lemma balance_snoc fired n resource :
  balance (fired ++ [n]) resource
  = match n with
    | onAttach r _ => if decide (r = resource) then balance fired resource + 1
                      else balance fired resource
    | onDetach r _ => if decide (r = resource) then balance fired resource - 1
                      else balance fired resource
    end.
Proof. unfold balance. rewrite fold_left_app. reflexivity. Qed.

(** C8. For every attachment state, every notification history and every
    (type, binding, textureIndex), [attach] with a null resource yields the
    same attachment and fires the same notifications as [detach]. *)
Theorem attach_null_is_detach context type binding textureIndex st :
  attach context type binding textureIndex None st = detach context st.
Proof. reflexivity. Qed.

(** C10. [attach] with a non-null resource first notifies the new resource
    of the attachment and only then notifies the previously bound resource,
    if any, of the detachment.  Re-attaching the resource that is bound
    fires exactly one attach and then one detach notification on it, so
    that between the two it holds one reference more than before the call,
    and as many as before once both are delivered. *)
Theorem attach_notifies_attach_before_detach context type binding textureIndex resource :
  (forall a fired,
     attach context type binding textureIndex (Some resource) (a, fired)
     = ({| mType := type; mTarget := mkTarget binding textureIndex;
           mResource := Some resource; mNumViews := mNumViews a;
           mMultiviewLayout := mMultiviewLayout a; mBaseViewIndex := mBaseViewIndex a;
           mViewportOffsets := mViewportOffsets a |},
        fired ++ onAttach resource context
                 :: match mResource a with
                    | Some previous => [onDetach previous context]
                    | None => []
                    end))
  /\ (forall oldType oldTarget numViews layout baseViewIndex offsets fired,
       let bound := {| mType := oldType; mTarget := oldTarget;
                       mResource := Some resource; mNumViews := numViews;
                       mMultiviewLayout := layout; mBaseViewIndex := baseViewIndex;
                       mViewportOffsets := offsets |} in
       (attach context type binding textureIndex (Some resource) (bound, fired)).2
       = fired ++ [onAttach resource context; onDetach resource context]
       /\ mResource (attach context type binding textureIndex (Some resource)
                      (bound, fired)).1 = Some resource
       /\ balance (fired ++ [onAttach resource context]) resource
          = balance fired resource + 1
       /\ balance (fired ++ [onAttach resource context; onDetach resource context])
            resource
          = balance fired resource).
Proof.
  split.
  - intros a fired. unfold attach. destruct (mResource a) as [previous|].
    + rewrite <- app_assoc. reflexivity.
    + reflexivity.
  - intros oldType oldTarget numViews layout baseViewIndex offsets fired bound.
    split; [cbn; rewrite <- app_assoc; reflexivity|]. split; [reflexivity|].
    assert (Hone : balance (fired ++ [onAttach resource context]) resource
                   = balance fired resource + 1).
    { rewrite balance_snoc. case_decide; [reflexivity|contradiction]. }
    split; [exact Hone|].
    change (fired ++ [onAttach resource context; onDetach resource context])
      with (fired ++ [onAttach resource context] ++ [onDetach resource context]).
    rewrite app_assoc, balance_snoc, Hone.
    case_decide; [lia|contradiction].
Qed.

End Attachments.

(** ** The theorems at sample inputs *)

(** The scenario of the specification: no explicit version, robustness
    advertised, only non-robust ES 3.0 (and 2.0) contexts can be created.
    Negotiation attempts 3.2, 3.1 and 3.0, each first with robustness, and
    stops at the non-robust 3.0 attempt. *)
Example negotiation_falls_through_3_0 :
  match initializeContext EGL_NO_CONTEXT [] Sample.modern with
  | Returns result w' => (result, map snd (creations (calls w')))
  | Fatal _ _ => (inl NoError, [])
  end
  = (inr (41, [EGL_CONTEXT_MAJOR_VERSION; 3; EGL_CONTEXT_MINOR_VERSION; 0; EGL_NONE]),
     [0; 0; 0; 0; 0; 41]).
Proof. vm_compute. reflexivity. Qed.

(** Of the three sample configs the first two are retained, numbered 1
    and 2; the RGB332 config is dropped. *)
Example generateConfigs_sample :
  match generateConfigs (build := Sample.debug_build) Sample.legacy with
  | Returns configSet w' =>
      (map (fun id =>
              (fun c => (Config.renderTargetFormat c, Config.depthStencilFormat c))
                <$> configSet !! id) [1; 2; 3],
       map (fun id => mConfigIds (this w') !! id) [1; 2; 3])
  | Fatal _ _ => ([], [])
  end
  = ([Some (GL_RGBA8, GL_DEPTH24_STENCIL8); Some (GL_RGB565, GL_DEPTH_COMPONENT16); None],
     [Some 101; Some 102; None]).
Proof. vm_compute. reflexivity. Qed.

(** Binding the same pair twice issues one native call, not two. *)
Example makeCurrent_twice_binds_once :
  match (makeCurrent (build := Sample.debug_build) 0%nat (Some Sample.window)
           (Some Sample.window) (Some Sample.plain_context);;
         makeCurrent (build := Sample.debug_build) 0%nat (Some Sample.window)
           (Some Sample.window) (Some Sample.plain_context)) Sample.legacy with
  | Returns result w' => (result, map call (calls w'), threadState w' 0%nat)
  | Fatal _ _ => (NoError, [], CurrentNativeContext.initial)
  end
  = (NoError, [eglMakeCurrent 5 41], CurrentNativeContext.mk 5 41 false).
Proof. vm_compute. reflexivity. Qed.

(** Two threads have context 41 cached, a third has context 42; destroying
    41 clears the first two entries and then calls the driver. *)
Example destroyNativeContext_sample :
  match (makeCurrent (build := Sample.debug_build) 0%nat (Some Sample.window) None
           (Some Sample.plain_context);;
         makeCurrent (build := Sample.debug_build) 1%nat None None
           (Some Sample.plain_context);;
         makeCurrent (build := Sample.debug_build) 2%nat None None
           (Some (mkContext 42 false));;
         destroyNativeContext 41) Sample.legacy with
  | Returns _ w' =>
      (map (fun id => mCurrentNativeContexts (this w') !! id) [0; 1; 2]%nat,
       map call (calls w'))
  | Fatal _ _ => ([], [])
  end
  = ([Some CurrentNativeContext.initial; Some CurrentNativeContext.initial;
      Some (CurrentNativeContext.mk EGL_NO_SURFACE 42 false)],
     [eglMakeCurrent 5 41; eglMakeCurrent EGL_NO_SURFACE 41;
      eglMakeCurrent EGL_NO_SURFACE 42; eglDestroyContext 41]).
Proof. vm_compute. reflexivity. Qed.

Lemma initializeContext_legacy_rejects_witness :
  initializeContext EGL_NO_CONTEXT
    [(EGL_PLATFORM_ANGLE_MAX_VERSION_MAJOR_ANGLE, 3);
     (EGL_PLATFORM_ANGLE_MAX_VERSION_MINOR_ANGLE, 0)] Sample.legacy
  = Returns (inl (mkError EGL_BAD_ATTRIBUTE "Unsupported requested context version"))
      Sample.legacy.
Proof.
  apply initializeContext_legacy_rejects.
  - right. split; [reflexivity|reflexivity].
  - reflexivity.
  - vm_compute. discriminate.
  - vm_compute. discriminate.
  - vm_compute. discriminate.
Defined.

Lemma makeCurrent_binds_only_on_change_witness :
  exists w',
    makeCurrent (build := Sample.debug_build) 0%nat (Some Sample.window) (Some Sample.window)
      (Some Sample.plain_context) Sample.legacy
    = Returns NoError w'
    /\ calls w'
       = [mkCall (eglMakeCurrent 5 41) EGL_TRUE {[0%nat := CurrentNativeContext.initial]}]
    /\ threadState w' 0%nat = CurrentNativeContext.mk 5 41 false.
Proof.
  destruct (makeCurrent_binds_only_on_change (build := Sample.debug_build) 0%nat
              (Some Sample.window) (Some Sample.window) (Some Sample.plain_context)
              Sample.legacy 5 41 Sample.legacy)
    as (result & w' & Hrun & Hrest).
  - reflexivity.
  - reflexivity.
  - reflexivity.
  - vm_compute in Hrest. destruct Hrest as (-> & Hcalls & Hstate).
    exists w'. split; [exact Hrun|]. split; [exact Hcalls|exact Hstate].
Defined.

Lemma makeCurrent_virtualized_resolution_witness :
  resolveBinding (build := Sample.debug_build) CurrentNativeContext.initial
    EGL_NO_SURFACE 41 Sample.modern
  = Returns (9, 41) Sample.modern
  /\ makeCurrent (build := Sample.debug_build) 0%nat None None
       (Some Sample.plain_context) Sample.modern
     = bindResolved (build := Sample.debug_build) 0%nat CurrentNativeContext.initial 9 41
         None None (Some Sample.plain_context) (entryCreated 0%nat Sample.modern).
Proof.
  apply (makeCurrent_virtualized_resolution (build := Sample.debug_build) 0%nat None None
           Sample.plain_context Sample.modern).
  - reflexivity.
  - reflexivity.
  - reflexivity.
  - vm_compute. discriminate.
  - intros _. split; [left; reflexivity|]. intros _. vm_compute. discriminate.
Defined.

Lemma makeCurrent_external_round_trip_witness :
  exists w1 w2,
    makeCurrent (build := Sample.debug_build) 0%nat (Some Sample.external_surface) None
      (Some Sample.external_context) Sample.modern
    = Returns NoError w1
    /\ threadState w1 0%nat = CurrentNativeContext.mk EGL_NO_SURFACE 77 true
    /\ calls w1 = []
    /\ makeCurrent (build := Sample.debug_build) 0%nat None None None w1 = Returns NoError w2
    /\ mCurrentNativeContexts (this w2) !! 0%nat = Some CurrentNativeContext.initial
    /\ calls w2 = [].
Proof.
  apply (makeCurrent_external_round_trip (build := Sample.debug_build) 0%nat
           Sample.external_surface None Sample.external_context Sample.modern).
  - reflexivity.
  - reflexivity.
  - reflexivity.
  - reflexivity.
  - intros _. vm_compute. discriminate.
Defined.



(** * Further properties *)

(** ** Relations kept by the building blocks *)

Section Keeping.

Context {build : Build}.

Lemma keeps_ret (R : World -> World -> Prop) `{!Reflexive R} {A} (a : A) :
  keeps R (mret a : M A).
Proof. intros w. cbn. reflexivity. Qed.

Lemma keeps_bind (R : World -> World -> Prop) `{!Transitive R} {A B}
    (m : M A) (f : A -> M B) :
  keeps R m -> (forall a, keeps R (f a)) -> keeps R (m ≫= f).
Proof.
  intros Hm Hf w. specialize (Hm w). unfold mbind, M_bind.
  destruct (m w) as [a w1|c w1]; cbn in *; [|exact Hm].
  etransitivity; [exact Hm|apply Hf].
Qed.

Lemma keeps_ASSERT (R : World -> World -> Prop) `{!Reflexive R} condition text :
  keeps R (ASSERT condition text).
Proof. intros w. unfold ASSERT. destruct (_ && _); cbn; reflexivity. Qed.

Lemma keeps_getThis (R : World -> World -> Prop) `{!Reflexive R} : keeps R getThis.
Proof. intros w. cbn. reflexivity. Qed.

#[export] Instance sameCalls_refl : Reflexive sameCalls.
Proof. intros w. reflexivity. Qed.

#[export] Instance sameCalls_trans : Transitive sameCalls.
Proof. intros w1 w2 w3 H12 H23. unfold sameCalls in *. congruence. Qed.

#[export] Instance sameDisplay_refl : Reflexive sameDisplay.
Proof. intros w. reflexivity. Qed.

#[export] Instance sameDisplay_trans : Transitive sameDisplay.
Proof. intros w1 w2 w3 H12 H23. unfold sameDisplay in *. congruence. Qed.

#[export] Instance displayKeptBut_refl id : Reflexive (displayKeptBut id).
Proof. intros w. repeat split; reflexivity. Qed.

#[export] Instance displayKeptBut_trans id : Transitive (displayKeptBut id).
Proof.
  intros w1 w2 w3 (H1 & ?) (H2 & ?). split.
  - intros other Hne. rewrite H2, H1 by assumption. reflexivity.
  - intuition congruence.
Qed.

Lemma keeps_native_display c : keeps sameDisplay (native c).
Proof. intros w. reflexivity. Qed.

Lemma keeps_native_but id c : keeps (displayKeptBut id) (native c).
Proof. intros w. unfold displayKeptBut. cbn. repeat split. Qed.

Lemma keeps_entry_calls id : keeps sameCalls (currentNativeContext id).
Proof. intros w. cbn. apply entryCreated_calls. Qed.

Lemma keeps_entry_but id : keeps (displayKeptBut id) (currentNativeContext id).
Proof.
  intros w. cbn. unfold entryCreated.
  destruct (mCurrentNativeContexts (this w) !! id); [reflexivity|].
  split; [|repeat split]. intros other Hne. cbn. apply lookup_insert_ne. congruence.
Qed.

Lemma keeps_assign_surface_calls id v : keeps sameCalls (assign_surface id v).
Proof. intros w. reflexivity. Qed.

Lemma keeps_assign_context_calls id v : keeps sameCalls (assign_context id v).
Proof. intros w. reflexivity. Qed.

Lemma keeps_assign_isExternalContext_calls id v :
  keeps sameCalls (assign_isExternalContext id v).
Proof. intros w. reflexivity. Qed.

Lemma keeps_assign_surface_but id v : keeps (displayKeptBut id) (assign_surface id v).
Proof.
  intros w. split; [|repeat split]. intros other Hne. cbn.
  apply lookup_alter_ne. congruence.
Qed.

Lemma keeps_assign_context_but id v : keeps (displayKeptBut id) (assign_context id v).
Proof.
  intros w. split; [|repeat split]. intros other Hne. cbn.
  apply lookup_alter_ne. congruence.
Qed.

Lemma keeps_assign_isExternalContext_but id v :
  keeps (displayKeptBut id) (assign_isExternalContext id v).
Proof.
  intros w. split; [|repeat split]. intros other Hne. cbn.
  apply lookup_alter_ne. congruence.
Qed.

End Keeping.

Create HintDb keeps.

#[export] Hint Resolve keeps_ASSERT keeps_getThis keeps_native_display keeps_native_but
  keeps_entry_calls keeps_entry_but keeps_assign_surface_calls keeps_assign_context_calls
  keeps_assign_isExternalContext_calls keeps_assign_surface_but keeps_assign_context_but
  keeps_assign_isExternalContext_but : keeps.

(** Takes a method apart along its binds and branches. *)
Ltac keeping :=
  repeat first
    [ apply keeps_ret; try exact _
    | apply keeps_bind; [try exact _| |intros ?]
    | solve [eauto with keeps typeclass_instances]
    | match goal with
      | |- keeps _ (if ?b then _ else _) => destruct b
      | |- keeps _ (match ?o with Some _ => _ | None => _ end) => destruct o
      | |- keeps _ (match ?o with inl _ => _ | inr _ => _ end) => destruct o
      | |- keeps _ (let '(_, _) := ?p in _) => destruct p
      | |- keeps _ (let _ := _ in _) => cbv zeta
      end ].

(** Settles the integer tests whose outcome is among the hypotheses. *)
Ltac eqb_simp :=
  repeat first
    [ rewrite Z.eqb_refl
    | match goal with
      | H : ?x = ?y |- context [?x =? ?y] => rewrite (proj2 (Z.eqb_eq x y) H)
      | H : ?x <> ?y |- context [?x =? ?y] => rewrite (proj2 (Z.eqb_neq x y) H)
      end
    | progress cbn [andb orb negb fst snd] ].

(** ** More on the per-thread cache *)

Section CurrentContextTracker_more.

Context {build : Build}.

Lemma resolveBinding_keeps R `{!Reflexive R} `{!Transitive R} currentContext newSurface
    newContext :
  keeps R (resolveBinding currentContext newSurface newContext).
Proof. unfold resolveBinding. keeping. Qed.

(** X1. Whatever its arguments and however it ends, [makeCurrent] changes
    nothing of the display object except, possibly, the calling thread's own
    entry of the cache: the entries of all other threads and every other
    member are as before. *)
Theorem makeCurrent_touches_own_entry_only id drawSurface readSurface context w :
  displayKeptBut id w (worldOf (makeCurrent id drawSurface readSurface context w)).
Proof.
  revert w. change (keeps (displayKeptBut id)
                      (makeCurrent id drawSurface readSurface context)).
  unfold makeCurrent, makeCurrentExternal, bindResolved. keeping.
  all: apply resolveBinding_keeps; exact _.
Qed.

(** X2. When the calling thread is bound to an external context, or the
    context passed is external, [makeCurrent] issues no native call at all,
    whether it returns or stops at an [ASSERT]. *)
Theorem makeCurrent_external_is_silent id drawSurface readSurface context w :
  CurrentNativeContext.isExternalContext (threadState w id)
  || from_option Context_isExternal false context = true ->
  calls (worldOf (makeCurrent id drawSurface readSurface context w)) = calls w.
Proof.
  intros Hext. unfold makeCurrent, currentNativeContext.
  erewrite bind_Returns by reflexivity. rewrite Hext.
  rewrite <- (entryCreated_calls id w).
  generalize (entryCreated id w). intros w0.
  match goal with
  | |- calls (worldOf (?m w0)) = calls w0 => change (sameCalls w0 (worldOf (m w0)))
  end.
  revert w0.
  match goal with
  | |- forall w0, sameCalls w0 (worldOf (?m w0)) => change (keeps sameCalls m)
  end.
  unfold makeCurrentExternal. keeping.
Qed.

(** Lines 783-804 return the pair exactly when their checks hold or are
    compiled out, and never change the state. *)
Lemma resolveBinding_outcome currentContext newSurface newContext w :
  (exists text,
     ANGLE_ENABLE_ASSERTS = true
     /\ resolveChecks (this w) currentContext newSurface newContext = false
     /\ resolveBinding currentContext newSurface newContext w = Fatal text w)
  \/ ((ANGLE_ENABLE_ASSERTS = true ->
       resolveChecks (this w) currentContext newSurface newContext = true)
      /\ resolveBinding currentContext newSurface newContext w
         = Returns (resolvedPair (this w) currentContext newSurface newContext) w).
Proof.
  unfold resolveBinding, resolveChecks, resolvedPair, ASSERT. run.
  destruct (mVirtualizedContexts (this w) && negb (newContext =? EGL_NO_CONTEXT));
    [|right; split; [reflexivity|reflexivity]].
  destruct ANGLE_ENABLE_ASSERTS eqn:Hon; cycle 1.
  { right. split; [discriminate|]. cbn.
    destruct ((_ =? EGL_NO_SURFACE) && negb (mSupportsSurfaceless (this w))); reflexivity. }
  destruct ((CurrentNativeContext.context currentContext =? EGL_NO_CONTEXT)
            || (newContext =? CurrentNativeContext.context currentContext)); cbn;
    [|left; eexists; repeat split].
  destruct ((_ =? EGL_NO_SURFACE) && negb (mSupportsSurfaceless (this w)));
    [|right; split; reflexivity].
  destruct (mMockPbuffer (this w) =? EGL_NO_SURFACE); cbn;
    [left; eexists; repeat split|right; split; reflexivity].
Qed.

Lemma resolved_entryCreated id currentContext newSurface newContext w :
  resolvedPair (this (entryCreated id w)) currentContext newSurface newContext
  = resolvedPair (this w) currentContext newSurface newContext
  /\ resolveChecks (this (entryCreated id w)) currentContext newSurface newContext
     = resolveChecks (this w) currentContext newSurface newContext.
Proof.
  destruct (entryCreated_display id w) as (_ & Hv & Hs & Hm & Hr).
  unfold resolvedPair, resolveChecks. rewrite Hv, Hs, Hm, Hr. split; reflexivity.
Qed.

(** On the non-external path [makeCurrent] either stops at one of the two
    [ASSERT]s of lines 785 and 802, having done nothing but create the thread's
    entry, or goes on to lines 806-816 with the resolved pair. *)
Lemma makeCurrent_normal id drawSurface readSurface context w :
  let currentContext := threadState w id in
  let newSurface := from_option getSurface EGL_NO_SURFACE drawSurface in
  let newContext := from_option getContext EGL_NO_CONTEXT context in
  let pair := resolvedPair (this w) currentContext newSurface newContext in
  CurrentNativeContext.isExternalContext currentContext = false ->
  from_option Context_isExternal false context = false ->
  (exists text,
     ANGLE_ENABLE_ASSERTS = true
     /\ resolveChecks (this w) currentContext newSurface newContext = false
     /\ makeCurrent id drawSurface readSurface context w = Fatal text (entryCreated id w))
  \/ ((ANGLE_ENABLE_ASSERTS = true ->
       resolveChecks (this w) currentContext newSurface newContext = true)
      /\ makeCurrent id drawSurface readSurface context w
         = bindResolved id currentContext pair.1 pair.2 drawSurface readSurface context
             (entryCreated id w)).
Proof.
  intros currentContext newSurface newContext pair Hext Hctx.
  unfold makeCurrent, currentNativeContext.
  erewrite bind_Returns by reflexivity.
  fold currentContext. rewrite Hext, Hctx. cbn [orb].
  change (match drawSurface with Some s => getSurface s | None => EGL_NO_SURFACE end)
    with newSurface.
  change (match context with Some c => getContext c | None => EGL_NO_CONTEXT end)
    with newContext.
  destruct (resolved_entryCreated id currentContext newSurface newContext w) as [Hp Hc].
  destruct (resolveBinding_outcome currentContext newSurface newContext (entryCreated id w))
    as [(text & Hon & Hfail & Hrun)|[Hok Hrun]]; rewrite ?Hp, ?Hc in *.
  - left. exists text. repeat split; try assumption.
    unfold mbind, M_bind. rewrite Hrun. reflexivity.
  - right. split; [exact Hok|]. erewrite bind_Returns by exact Hrun. reflexivity.
Qed.

Lemma alter_present {A} (f : A -> A) (m : gmap nat A) i x :
  m !! i = Some x -> alter f i m = <[i := f x]> m.
Proof.
  intros Hx. apply map_eq. intros j. destruct (decide (i = j)) as [->|Hne].
  - rewrite lookup_alter_eq, lookup_insert_eq, Hx. reflexivity.
  - rewrite lookup_alter_ne, lookup_insert_ne by assumption. reflexivity.
Qed.

(** Lines 806-816, case by case. *)
Lemma bindResolved_outcome id currentContext newSurface newContext
    drawSurface readSurface context w :
  mCurrentNativeContexts (this w) !! id = Some currentContext ->
  let made := driver (mEGL (this w)) (calls w) (eglMakeCurrent newSurface newContext) in
  let binding :=
    mkCall (eglMakeCurrent newSurface newContext) made (mCurrentNativeContexts (this w)) in
  bindResolved id currentContext newSurface newContext drawSurface readSurface context w
  = if (newSurface =? CurrentNativeContext.surface currentContext)
       && (newContext =? CurrentNativeContext.context currentContext)
    then Returns (DisplayGL_makeCurrent drawSurface readSurface context) w
    else if made =? EGL_FALSE
    then Returns
           (mkError (driver (mEGL (this w)) (calls w ++ [binding]) eglGetError)
              "eglMakeCurrent failed")
           {| this := this w;
              calls := calls w
                       ++ [binding;
                           mkCall eglGetError
                             (driver (mEGL (this w)) (calls w ++ [binding]) eglGetError)
                             (mCurrentNativeContexts (this w))] |}
    else Returns (DisplayGL_makeCurrent drawSurface readSurface context)
           {| this := set_mCurrentNativeContexts
                        (<[id := CurrentNativeContext.mk newSurface newContext
                                   (CurrentNativeContext.isExternalContext currentContext)]>
                           (mCurrentNativeContexts (this w)))
                        (this w);
              calls := calls w ++ [binding] |}.
Proof.
  intros Hcur made binding. unfold bindResolved.
  rewrite <- negb_andb.
  destruct ((newSurface =? CurrentNativeContext.surface currentContext)
            && (newContext =? CurrentNativeContext.context currentContext));
    cbn [negb]; [reflexivity|].
  run. fold made binding. destruct (made =? EGL_FALSE); run.
  - rewrite <- app_assoc. reflexivity.
  - erewrite (alter_present _ (mCurrentNativeContexts (this w)) _ _ Hcur).
    erewrite alter_present by apply lookup_insert_eq.
    rewrite insert_insert_eq. reflexivity.
Qed.

Lemma resolved_same_fields d d' currentContext newSurface newContext :
  mVirtualizedContexts d' = mVirtualizedContexts d ->
  mSupportsSurfaceless d' = mSupportsSurfaceless d ->
  mMockPbuffer d' = mMockPbuffer d ->
  mRenderer d' = mRenderer d ->
  resolvedPair d' currentContext newSurface newContext
  = resolvedPair d currentContext newSurface newContext
  /\ resolveChecks d' currentContext newSurface newContext
     = resolveChecks d currentContext newSurface newContext.
Proof.
  intros Hv Hs Hm Hr. unfold resolvedPair, resolveChecks.
  rewrite Hv, Hs, Hm, Hr. split; reflexivity.
Qed.

(** Resolving again from the pair just resolved gives the same pair. *)
Lemma resolved_again d currentContext newSurface newContext external :
  let pair := resolvedPair d currentContext newSurface newContext in
  resolvedPair d (CurrentNativeContext.mk pair.1 pair.2 external) newSurface newContext
  = pair.
Proof.
  unfold resolvedPair.
  destruct (mVirtualizedContexts d && negb (newContext =? EGL_NO_CONTEXT)); [|reflexivity].
  cbn [fst snd CurrentNativeContext.surface].
  destruct (Z.eqb_spec newSurface EGL_NO_SURFACE),
           (Z.eqb_spec (CurrentNativeContext.surface currentContext) EGL_NO_SURFACE),
           (mSupportsSurfaceless d),
           (Z.eqb_spec (mMockPbuffer d) EGL_NO_SURFACE);
    cbn [andb negb]; eqb_simp; congruence.
Qed.

Lemma resolveChecks_again d currentContext newSurface newContext external :
  let pair := resolvedPair d currentContext newSurface newContext in
  resolveChecks d currentContext newSurface newContext = true ->
  (mVirtualizedContexts d = true -> newContext <> EGL_NO_CONTEXT ->
   newContext = mRenderer d) ->
  resolveChecks d (CurrentNativeContext.mk pair.1 pair.2 external) newSurface newContext
  = true.
Proof.
  intros pair Hchk Hshared. subst pair. revert Hchk Hshared.
  unfold resolvedPair, resolveChecks.
  destruct (mVirtualizedContexts d); [|reflexivity].
  destruct (Z.eqb_spec newContext EGL_NO_CONTEXT) as [Hz|Hz]; [reflexivity|].
  cbn [negb andb fst snd CurrentNativeContext.surface CurrentNativeContext.context].
  intros Hchk Hshared. rewrite <- (Hshared eq_refl Hz), Z.eqb_refl, orb_true_r. cbn [andb].
  apply andb_prop in Hchk as [_ Hmock]. revert Hmock.
  destruct (Z.eqb_spec newSurface EGL_NO_SURFACE),
           (Z.eqb_spec (CurrentNativeContext.surface currentContext) EGL_NO_SURFACE),
           (mSupportsSurfaceless d),
           (Z.eqb_spec (mMockPbuffer d) EGL_NO_SURFACE);
    cbn [andb negb]; eqb_simp; congruence.
Qed.

(** A request that resolves to the pair the thread already has goes through
    without a native call and without a change. *)
Lemma makeCurrent_cached id drawSurface readSurface context w surface context0 :
  let newSurface := from_option getSurface EGL_NO_SURFACE drawSurface in
  let newContext := from_option getContext EGL_NO_CONTEXT context in
  let currentContext := CurrentNativeContext.mk surface context0 false in
  mCurrentNativeContexts (this w) !! id = Some currentContext ->
  from_option Context_isExternal false context = false ->
  resolvedPair (this w) currentContext newSurface newContext = (surface, context0) ->
  (ANGLE_ENABLE_ASSERTS = true ->
   resolveChecks (this w) currentContext newSurface newContext = true) ->
  makeCurrent id drawSurface readSurface context w
  = Returns (DisplayGL_makeCurrent drawSurface readSurface context) w.
Proof.
  intros newSurface newContext currentContext Hcur Hctx Hpair Hchk.
  assert (Hstate : threadState w id = currentContext)
    by (unfold threadState; rewrite Hcur; reflexivity).
  pose proof (makeCurrent_normal id drawSurface readSurface context w) as Hnormal.
  cbv zeta in Hnormal. rewrite Hstate in Hnormal.
  destruct (Hnormal eq_refl Hctx) as [(text & Hon & Hfail & _)|[_ Hrun]].
  - fold newSurface newContext in Hfail. rewrite (Hchk Hon) in Hfail. discriminate.
  - fold newSurface newContext in Hrun. rewrite Hrun, Hpair.
    rewrite (entryCreated_existing _ _ _ Hcur).
    rewrite (bindResolved_outcome _ _ _ _ _ _ _ _ Hcur).
    cbn. rewrite !Z.eqb_refl. reflexivity.
Qed.

(** X3. On the non-external path, a [makeCurrent] that went through (the
    native call, if one was needed, succeeded) can be repeated with the same
    arguments at no cost: the second call issues no native call and changes
    nothing.  With [ASSERT] compiled in, this needs what line 785 checks on
    the second call: under virtualization the context passed carries the
    shared native context. *)
Theorem makeCurrent_repeat_is_free id drawSurface readSurface context w :
  let currentContext := threadState w id in
  let newSurface := from_option getSurface EGL_NO_SURFACE drawSurface in
  let newContext := from_option getContext EGL_NO_CONTEXT context in
  let pair := resolvedPair (this w) currentContext newSurface newContext in
  CurrentNativeContext.isExternalContext currentContext = false ->
  from_option Context_isExternal false context = false ->
  (ANGLE_ENABLE_ASSERTS = true ->
   resolveChecks (this w) currentContext newSurface newContext = true
   /\ (mVirtualizedContexts (this w) = true -> newContext <> EGL_NO_CONTEXT ->
       newContext = mRenderer (this w))) ->
  pair = (CurrentNativeContext.surface currentContext,
          CurrentNativeContext.context currentContext)
  \/ driver (mEGL (this w)) (calls w) (eglMakeCurrent pair.1 pair.2) <> EGL_FALSE ->
  exists w1,
    makeCurrent id drawSurface readSurface context w
    = Returns (DisplayGL_makeCurrent drawSurface readSurface context) w1
    /\ makeCurrent id drawSurface readSurface context w1
       = Returns (DisplayGL_makeCurrent drawSurface readSurface context) w1.
Proof.
  intros currentContext newSurface newContext pair Hext Hctx Hasserts Hdriver.
  destruct (makeCurrent_normal id drawSurface readSurface context w Hext Hctx)
    as [(text & Hon & Hfail & _)|[_ Hrun]].
  { destruct (Hasserts Hon) as [Hchk _]. fold currentContext newSurface newContext in Hfail.
    rewrite Hchk in Hfail. discriminate. }
  fold currentContext newSurface newContext pair in Hrun.
  pose proof (entryCreated_lookup id w) as Hcur. fold currentContext in Hcur.
  rewrite (bindResolved_outcome _ _ _ _ _ _ _ _ Hcur) in Hrun.
  destruct (entryCreated_display id w) as (Hegl & Hv & Hs & Hm & Hr).
  assert (Hsecond : forall w1,
            mCurrentNativeContexts (this w1) !! id
            = Some (CurrentNativeContext.mk pair.1 pair.2 false) ->
            mVirtualizedContexts (this w1) = mVirtualizedContexts (this w) ->
            mSupportsSurfaceless (this w1) = mSupportsSurfaceless (this w) ->
            mMockPbuffer (this w1) = mMockPbuffer (this w) ->
            mRenderer (this w1) = mRenderer (this w) ->
            makeCurrent id drawSurface readSurface context w1
            = Returns (DisplayGL_makeCurrent drawSurface readSurface context) w1).
  { intros w1 Hcur1 Hv1 Hs1 Hm1 Hr1.
    destruct (resolved_same_fields (this w) (this w1)
                (CurrentNativeContext.mk pair.1 pair.2 false) newSurface newContext
                Hv1 Hs1 Hm1 Hr1) as [Hp1 Hc1].
    apply (makeCurrent_cached id drawSurface readSurface context w1 pair.1 pair.2);
      try assumption.
    - fold newSurface newContext. rewrite Hp1. subst pair.
      rewrite resolved_again. apply surjective_pairing.
    - intros Hon. fold newSurface newContext. rewrite Hc1.
      destruct (Hasserts Hon) as [Hchk Hshared].
      apply resolveChecks_again; assumption. }
  destruct ((pair.1 =? CurrentNativeContext.surface currentContext)
            && (pair.2 =? CurrentNativeContext.context currentContext)) eqn:Hsame.
  - exists (entryCreated id w). split; [exact Hrun|].
    apply andb_prop in Hsame as [Hs1 Hs2].
    apply Z.eqb_eq in Hs1, Hs2.
    apply Hsecond; try assumption.
    rewrite Hcur, Hs1, Hs2. destruct currentContext as [? ? ext]. cbn in *.
    rewrite Hext. reflexivity.
  - destruct Hdriver as [Heq|Hok].
    { rewrite Heq in Hsame. cbn in Hsame. rewrite !Z.eqb_refl in Hsame. discriminate. }
    rewrite Hegl, entryCreated_calls in Hrun.
    destruct (Z.eqb_spec (driver (mEGL (this w)) (calls w) (eglMakeCurrent pair.1 pair.2))
                EGL_FALSE) as [E|_]; [contradiction|].
    eexists. split; [exact Hrun|].
    apply Hsecond; cbn; try assumption.
    rewrite lookup_insert_eq, Hext. reflexivity.
Qed.

(** X4. While a thread is bound to an external context, [makeCurrent] with
    a context is inert: it returns what the base class returns, issues no
    native call and leaves the state exactly as it was.  With [ASSERT]
    compiled in this needs what lines 743 and 759-764 check: the context is
    the adopted one and the draw surface is external without a native
    drawable. *)
Theorem makeCurrent_external_switch_is_inert id drawSurface readSurface c w currentContext :
  mCurrentNativeContexts (this w) !! id = Some currentContext ->
  CurrentNativeContext.isExternalContext currentContext = true ->
  (ANGLE_ENABLE_ASSERTS = true ->
   CurrentNativeContext.surface currentContext = EGL_NO_SURFACE
   /\ CurrentNativeContext.context currentContext = getContext c
   /\ getContext c <> EGL_NO_CONTEXT
   /\ exists s, drawSurface = Some s /\ isExternal s = true
                /\ getSurface s = EGL_NO_SURFACE) ->
  makeCurrent id drawSurface readSurface (Some c) w
  = Returns (DisplayGL_makeCurrent drawSurface readSurface (Some c)) w.
Proof.
  intros Hcur Hext Hasserts.
  unfold makeCurrent, currentNativeContext.
  erewrite bind_Returns by reflexivity.
  rewrite (entryCreated_existing _ _ _ Hcur). unfold threadState. rewrite Hcur.
  cbn [from_option Datatypes.id]. rewrite Hext. cbn [orb]. unfold makeCurrentExternal.
  rewrite Hext. cbn [negb].
  assert (Hall : forall condition text,
            (ANGLE_ENABLE_ASSERTS = true -> condition = true) ->
            ASSERT condition text w = Returns tt w) by (intros; apply ASSERT_pass; assumption).
  repeat first
    [ rewrite bind_assoc
    | erewrite bind_Returns;
      [| apply Hall; intros Hon;
         destruct (Hasserts Hon) as (Hs & Hc & Hne & s & -> & Hse & Hsn);
         cbn [drawSurfaceSatisfies]; rewrite ?Hs, ?Hc, ?Hse, ?Hsn; eqb_simp; reflexivity ] ].
  reflexivity.
Qed.

(** What the non-external path adds to the log: nothing, or one make-current
    call for the resolved pair, followed by an error query if it failed. *)
Lemma makeCurrent_normal_issued id drawSurface readSurface context w :
  let currentContext := threadState w id in
  let pair :=
    resolvedPair (this w) currentContext (from_option getSurface EGL_NO_SURFACE drawSurface)
      (from_option getContext EGL_NO_CONTEXT context) in
  CurrentNativeContext.isExternalContext currentContext = false ->
  from_option Context_isExternal false context = false ->
  exists extra,
    calls (worldOf (makeCurrent id drawSurface readSurface context w)) = calls w ++ extra
    /\ Forall (bindsOrQueries pair) extra
    /\ (length extra <= 2)%nat.
Proof.
  intros currentContext pair Hext Hctx.
  destruct (makeCurrent_normal id drawSurface readSurface context w Hext Hctx)
    as [(text & _ & _ & Hrun)|[_ Hrun]]; rewrite Hrun.
  - exists []. cbn. rewrite entryCreated_calls, app_nil_r. repeat constructor.
  - fold currentContext pair.
    pose proof (entryCreated_lookup id w) as Hcur. fold currentContext in Hcur.
    rewrite (bindResolved_outcome _ _ _ _ _ _ _ _ Hcur).
    destruct (_ && _).
    + exists []. cbn. rewrite entryCreated_calls, app_nil_r. repeat constructor.
    + destruct (_ =? EGL_FALSE); cbn; rewrite entryCreated_calls; eexists;
        (split; [reflexivity|]); split; try (cbn; lia);
        repeat constructor; first [left; reflexivity | right; reflexivity].
Qed.

(** X5. On the non-external path, when context virtualization is off or no
    context is passed, nothing is substituted: whether [makeCurrent] returns
    or not, the only native calls it can issue are one make-current call
    for exactly the requested surface and context handles (no surface and no
    context when they are null) and an error query after it. *)
Theorem makeCurrent_binds_what_was_asked id drawSurface readSurface context w :
  CurrentNativeContext.isExternalContext (threadState w id) = false ->
  from_option Context_isExternal false context = false ->
  mVirtualizedContexts (this w) = false \/ context = None ->
  exists extra,
    calls (worldOf (makeCurrent id drawSurface readSurface context w)) = calls w ++ extra
    /\ Forall (fun c =>
                 call c = eglMakeCurrent (from_option getSurface EGL_NO_SURFACE drawSurface)
                            (from_option getContext EGL_NO_CONTEXT context)
                 \/ call c = eglGetError) extra
    /\ (length extra <= 2)%nat.
Proof.
  intros Hext Hctx Hoff.
  destruct (makeCurrent_normal_issued id drawSurface readSurface context w Hext Hctx)
    as (extra & Hcalls & Hall & Hlen).
  exists extra. split; [exact Hcalls|]. split; [|exact Hlen].
  revert Hall. unfold resolvedPair.
  replace (mVirtualizedContexts (this w)
           && negb (from_option getContext EGL_NO_CONTEXT context =? EGL_NO_CONTEXT))
    with false; [exact (fun H => H)|].
  destruct Hoff as [->| ->]; [reflexivity|]. cbn. symmetry. apply andb_false_r.
Qed.

(** X6. Surfaceless binding is emulated: with virtualization on a driver
    without surfaceless support (so that the mock pbuffer exists), a
    [makeCurrent] with a context on the non-external path never binds the
    native context without a surface.  Every make-current call it issues is
    for the shared renderer's context with a surface that is not
    [EGL_NO_SURFACE], whatever surface was passed or cached. *)
Theorem makeCurrent_never_binds_surfaceless id drawSurface readSurface c w :
  CurrentNativeContext.isExternalContext (threadState w id) = false ->
  Context_isExternal c = false ->
  mVirtualizedContexts (this w) = true ->
  mSupportsSurfaceless (this w) = false ->
  mMockPbuffer (this w) <> EGL_NO_SURFACE ->
  getContext c <> EGL_NO_CONTEXT ->
  exists extra,
    calls (worldOf (makeCurrent id drawSurface readSurface (Some c) w)) = calls w ++ extra
    /\ Forall (fun n =>
                 (exists surface,
                    call n = eglMakeCurrent surface (mRenderer (this w))
                    /\ surface <> EGL_NO_SURFACE)
                 \/ call n = eglGetError) extra.
Proof.
  intros Hext Hctx Hvirt Hsl Hmock Hreq.
  destruct (makeCurrent_normal_issued id drawSurface readSurface (Some c) w Hext Hctx)
    as (extra & Hcalls & Hall & _).
  exists extra. split; [exact Hcalls|].
  eapply Forall_impl; [exact Hall|]. intros n [Hn|Hn]; [left|right; exact Hn].
  revert Hn. unfold resolvedPair. rewrite Hvirt, Hsl. cbn [from_option].
  eqb_simp. intros ->. eexists. split; [reflexivity|].
  destruct (Z.eqb_spec (from_option getSurface EGL_NO_SURFACE drawSurface) EGL_NO_SURFACE);
    destruct (Z.eqb_spec (CurrentNativeContext.surface (threadState w id)) EGL_NO_SURFACE);
    eqb_simp; assumption.
Qed.

(** X7. After [destroyNativeContext] for a handle other than
    [EGL_NO_CONTEXT], no thread's cache mentions that handle any more, and
    no entry was added to or removed from the cache. *)
Theorem destroyNativeContext_leaves_no_reference context w :
  context <> EGL_NO_CONTEXT ->
  (forall id currentContext,
     mCurrentNativeContexts (this (worldOf (destroyNativeContext context w))) !! id
     = Some currentContext ->
     CurrentNativeContext.context currentContext <> context)
  /\ (forall id,
        is_Some (mCurrentNativeContexts (this (worldOf (destroyNativeContext context w)))
                 !! id)
        <-> is_Some (mCurrentNativeContexts (this w) !! id)).
Proof.
  intros Hne. unfold destroyNativeContext. run. split.
  - intros id currentContext. rewrite lookup_fmap.
    destruct (mCurrentNativeContexts (this w) !! id) as [old|]; [|discriminate].
    cbn. intros [= <-]. unfold forget.
    destruct (Z.eqb_spec (CurrentNativeContext.context old) context); cbn; congruence.
  - intros id. rewrite lookup_fmap. apply fmap_is_Some.
Qed.

(** X8. Destroying the context a thread has cached makes the thread's next
    unbinding free: after [destroyNativeContext], a [makeCurrent] without
    context and surface on that thread issues no native call and changes
    nothing, because the cache already says that nothing is bound. *)
Theorem destroyNativeContext_then_unbind_is_free id context w currentContext :
  mCurrentNativeContexts (this w) !! id = Some currentContext ->
  CurrentNativeContext.isExternalContext currentContext = false ->
  CurrentNativeContext.context currentContext = context ->
  let w' := worldOf (destroyNativeContext context w) in
  makeCurrent id None None None w' = Returns (DisplayGL_makeCurrent None None None) w'.
Proof.
  intros Hcur Hext Hctx w'.
  apply (makeCurrent_cached id None None None w' EGL_NO_SURFACE EGL_NO_CONTEXT).
  - subst w'. unfold destroyNativeContext. run. rewrite lookup_fmap, Hcur. cbn.
    unfold forget. rewrite Hctx, Z.eqb_refl, Hext. reflexivity.
  - reflexivity.
  - unfold resolvedPair. cbn. rewrite andb_false_r. reflexivity.
  - intros _. unfold resolveChecks. cbn. rewrite andb_false_r. reflexivity.
Qed.

(** X9. The cache never serves a destroyed handle: without virtualization,
    once [destroyNativeContext] has run for a handle, a [makeCurrent] for a
    context with that handle on the non-external path always starts with a
    native make-current call for it, whatever the thread had cached. *)
Theorem destroyNativeContext_then_bind_is_native id drawSurface readSurface c w :
  let w' := worldOf (destroyNativeContext (getContext c) w) in
  getContext c <> EGL_NO_CONTEXT ->
  mVirtualizedContexts (this w) = false ->
  CurrentNativeContext.isExternalContext (threadState w id) = false ->
  Context_isExternal c = false ->
  exists n extra,
    calls (worldOf (makeCurrent id drawSurface readSurface (Some c) w'))
    = calls w' ++ n :: extra
    /\ call n = eglMakeCurrent (from_option getSurface EGL_NO_SURFACE drawSurface)
                 (getContext c).
Proof.
  intros w' Hne Hvirt Hext Hctx.
  assert (Hstate : CurrentNativeContext.context (threadState w' id) <> getContext c
                   /\ CurrentNativeContext.isExternalContext (threadState w' id) = false).
  { subst w'. unfold threadState in *. unfold destroyNativeContext. run.
    rewrite lookup_fmap.
    destruct (mCurrentNativeContexts (this w) !! id) as [old|]; cbn in *.
    - unfold forget.
      destruct (Z.eqb_spec (CurrentNativeContext.context old) (getContext c));
        cbn; split; congruence.
    - split; [congruence|reflexivity]. }
  destruct Hstate as [Hother Hext'].
  assert (Hvirt' : mVirtualizedContexts (this w') = false) by exact Hvirt.
  destruct (makeCurrent_normal id drawSurface readSurface (Some c) w' Hext' Hctx)
    as [(text & _ & Hfail & _)|[_ Hrun]].
  { unfold resolveChecks in Hfail. rewrite Hvirt' in Hfail. discriminate. }
  rewrite Hrun. unfold resolvedPair. rewrite Hvirt'. cbn [andb fst snd from_option].
  rewrite (bindResolved_outcome _ _ _ _ _ _ _ _ (entryCreated_lookup id w')).
  rewrite (proj2 (Z.eqb_neq (getContext c)
                    (CurrentNativeContext.context (threadState w' id)))
             (not_eq_sym Hother)).
  rewrite andb_false_r.
  destruct (_ =? EGL_FALSE); cbn; rewrite entryCreated_calls;
    eexists _, _; (split; [reflexivity|reflexivity]).
Qed.

End CurrentContextTracker_more.

(** ** More on the config catalog *)

Section ConfigCatalog_more.

Context {build : Build}.

Lemma World_eta w : {| this := this w; calls := calls w |} = w.
Proof. destruct w; reflexivity. Qed.

Lemma set_mConfigIds_same d : set_mConfigIds (mConfigIds d) d = d.
Proof. destruct d; reflexivity. Qed.

(** The loop of lines 553-671, with the id table it leaves. *)
Lemma generateConfigs_loop_exact configs : forall configSet w,
  (ANGLE_ENABLE_ASSERTS = true ->
   Forall (fun config =>
             Config.colorBufferType config = EGL_RGB_BUFFER ->
             Config.colorComponentType config = EGL_COLOR_COMPONENT_TYPE_FIXED_EXT)
          (map (readConfig (mEGL (this w))) configs)) ->
  let state :=
    foldl (fun state config =>
             let added := ConfigSet.add config state.1 in
             (added.2, <[added.1 := Config.configID config]> state.2))
          (configSet, mConfigIds (this w))
          (omap documented_entry (map (readConfig (mEGL (this w))) configs)) in
  generateConfigs_loop configs configSet w
  = Returns state.1 {| this := set_mConfigIds state.2 (this w); calls := calls w |}.
Proof.
  induction configs as [|c rest IH]; intros configSet w Hfixed.
  - cbn. rewrite set_mConfigIds_same, World_eta. reflexivity.
  - cbn [generateConfigs_loop map].
    erewrite bind_Returns by reflexivity.
    erewrite bind_Returns; cycle 1.
    { apply classifyConfig_documented. intros Hon.
      specialize (Hfixed Hon). cbn [map] in Hfixed.
      apply Forall_cons_1 in Hfixed as [Hc _]. exact Hc. }
    assert (Hrest : ANGLE_ENABLE_ASSERTS = true ->
              Forall (fun config =>
                        Config.colorBufferType config = EGL_RGB_BUFFER ->
                        Config.colorComponentType config
                        = EGL_COLOR_COMPONENT_TYPE_FIXED_EXT)
                     (map (readConfig (mEGL (this w))) rest)).
    { intros Hon. specialize (Hfixed Hon). cbn [map] in Hfixed.
      apply Forall_cons_1 in Hfixed as [_ Hr]. exact Hr. }
    assert (Hcons : forall x l,
              omap documented_entry (x :: l)
              = match documented_entry x with
                | Some y => y :: omap documented_entry l
                | None => omap documented_entry l
                end) by reflexivity.
    rewrite Hcons.
    destruct (documented_entry (readConfig (mEGL (this w)) c)) as [config|].
    + erewrite bind_Returns by reflexivity. cbn [foldl fst snd].
      match goal with
      | |- generateConfigs_loop rest ?s ?w1 = _ => rewrite (IH s w1 Hrest)
      end.
      reflexivity.
    + apply IH. exact Hrest.
Qed.

Lemma generateConfigs_exact w :
  (ANGLE_ENABLE_ASSERTS = true ->
   generateConfigs_asserts
     (map (readConfig (mEGL (this w)))
        (chooseConfig (mEGL (this w)) (mConfigAttribList (this w))))) ->
  generateConfigs w
  = Returns (recordConfigs (retainedConfigs (this w))).1
      {| this := set_mConfigIds (recordConfigs (retainedConfigs (this w))).2 (this w);
         calls := calls w |}.
Proof.
  intros Hasserts. unfold generateConfigs.
  erewrite bind_Returns by reflexivity.
  erewrite bind_Returns by reflexivity.
  erewrite bind_Returns; cycle 1.
  { apply ASSERT_pass. intros Hon. destruct (Hasserts Hon) as [Hne _].
    apply bool_decide_eq_true_2. intros E. apply Hne. rewrite E. reflexivity. }
  rewrite generateConfigs_loop_exact.
  - reflexivity.
  - intros Hon. destruct (Hasserts Hon) as [_ Hfixed]. exact Hfixed.
Qed.

(** What [recordConfigs] leaves: the set numbered by [ConfigSet::add], and
    the table from each internal id to the native id. *)
Lemma recordConfigs_lookup (l : list Config.t) :
  (recordConfigs l).1 = foldl (fun s c => (ConfigSet.add c s).2) ∅ l
  /\ forall id native,
       (recordConfigs l).2 !! id = Some native
       <-> exists i entry,
             l !! i = Some entry /\ id = Z.of_nat i + 1 /\ native = Config.configID entry.
Proof.
  unfold recordConfigs.
  induction l as [|c l [IHset IH]] using rev_ind.
  - split; [reflexivity|]. intros id native. cbn. rewrite lookup_empty.
    split; [discriminate|]. intros (i & entry & Hi & _). rewrite lookup_nil in Hi.
    discriminate.
  - rewrite !foldl_snoc. cbn [fst snd]. rewrite IHset. split; [reflexivity|].
    unfold ConfigSet.add at 1. cbn [fst].
    destruct (added_lookup l) as [Hsize _]. rewrite Hsize.
    intros id native. rewrite lookup_insert. case_decide as Hid.
    + subst id. split.
      * intros [= <-]. exists (length l), c. rewrite list_lookup_middle by reflexivity.
        repeat split.
      * intros (i & entry & Hi & Hid & ->).
        assert (i = length l) as -> by lia.
        rewrite list_lookup_middle in Hi by reflexivity.
        injection Hi as <-. reflexivity.
    + rewrite IH. split.
      * intros (i & entry & Hi & Hid' & ->). exists i, entry.
        rewrite lookup_app_l by (eapply lookup_lt_Some; exact Hi).
        repeat split; assumption.
      * intros (i & entry & Hi & Hid' & ->). exists i, entry.
        apply lookup_snoc_Some in Hi as [[Hlt Hi]|[-> _]]; [|lia].
        repeat split; assumption.
Qed.

Lemma documented_entry_keeps config entry :
  documented_entry config = Some entry ->
  Config.configID entry = Config.configID config
  /\ Config.surfaceType entry = Config.surfaceType config
  /\ Config.matchNativePixmap entry = EGL_NONE
  /\ Config.optimalOrientation entry = 0.
Proof.
  unfold documented_entry.
  destruct (documented_classification config) as [[renderTargetFormat depthStencilFormat]|];
    [|discriminate].
  intros [= <-]. repeat split.
Qed.

Lemma set_configID_back id entry :
  Config.set_configID (Config.configID entry) (Config.set_configID id entry) = entry.
Proof. destruct entry; reflexivity. Qed.

(** X10. [generateConfigs] is idempotent: run again on the state it left (the
    driver still listing the same configs), it returns the same set of
    configs under the same ids and leaves exactly the same state. *)
Theorem generateConfigs_idempotent w :
  (ANGLE_ENABLE_ASSERTS = true ->
   generateConfigs_asserts
     (map (readConfig (mEGL (this w)))
        (chooseConfig (mEGL (this w)) (mConfigAttribList (this w))))) ->
  exists configSet w1,
    generateConfigs w = Returns configSet w1
    /\ generateConfigs w1 = Returns configSet w1.
Proof.
  intros Hasserts. eexists _, _. split; [apply generateConfigs_exact; exact Hasserts|].
  rewrite generateConfigs_exact by exact Hasserts. reflexivity.
Qed.

(** X11. After [generateConfigs], [mConfigIds] maps the internal id of every
    returned config to the native id (EGL_CONFIG_ID) of the native config it
    was read from, and has no other entry, whatever it held before. *)
Theorem generateConfigs_records_native_ids w :
  let egl := mEGL (this w) in
  (ANGLE_ENABLE_ASSERTS = true ->
   generateConfigs_asserts
     (map (readConfig egl) (chooseConfig egl (mConfigAttribList (this w))))) ->
  exists configSet w1,
    generateConfigs w = Returns configSet w1
    /\ (forall id config,
          configSet !! id = Some config ->
          exists c,
            c ∈ chooseConfig egl (mConfigAttribList (this w))
            /\ documented_entry (readConfig egl c)
               = Some (Config.set_configID (configAttrib egl c EGL_CONFIG_ID) config)
            /\ mConfigIds (this w1) !! id = Some (configAttrib egl c EGL_CONFIG_ID))
    /\ (forall id, configSet !! id = None -> mConfigIds (this w1) !! id = None).
Proof.
  intros egl Hasserts. subst egl. eexists _, _.
  split; [apply generateConfigs_exact; exact Hasserts|].
  destruct (recordConfigs_lookup (retainedConfigs (this w))) as [Hset Hids].
  destruct (added_lookup (retainedConfigs (this w))) as [_ Hlookup].
  rewrite Hset. cbn [this mConfigIds set_mConfigIds]. split.
  - intros id config Hconfig.
    apply Hlookup in Hconfig as (i & entry & Hi & Hid & ->).
    pose proof (list_elem_of_lookup_2 _ _ _ Hi) as Hin.
    apply list_elem_of_omap in Hin as (native & Hnative & Hentry).
    apply list_elem_of_fmap in Hnative as (c & -> & Hc).
    destruct (documented_entry_keeps _ _ Hentry) as (Hcid & _).
    exists c. split; [exact Hc|].
    change (configAttrib (mEGL (this w)) c EGL_CONFIG_ID)
      with (Config.configID (readConfig (mEGL (this w)) c)).
    rewrite <- Hcid. rewrite set_configID_back. split; [exact Hentry|].
    apply Hids. exists i, entry. repeat split; assumption.
  - intros id Hnone.
    destruct ((recordConfigs (retainedConfigs (this w))).2 !! id) as [native|] eqn:E;
      [|reflexivity].
    apply Hids in E as (i & entry & Hi & Hid & _).
    assert (Hsome : foldl (fun s c => (ConfigSet.add c s).2) ∅ (retainedConfigs (this w))
                      !! id = Some (Config.set_configID id entry))
      by (apply Hlookup; exists i, entry; repeat split; assumption).
    rewrite Hsome in Hnone. discriminate.
Qed.

(** X12. The configs [generateConfigs] returns are numbered 1 to n without
    gaps, each carrying its number as its config id; none of them exposes
    the pixmap bit in its surface type, and none matches a native pixmap. *)
Theorem generateConfigs_hides_pixmaps w :
  (ANGLE_ENABLE_ASSERTS = true ->
   generateConfigs_asserts
     (map (readConfig (mEGL (this w)))
        (chooseConfig (mEGL (this w)) (mConfigAttribList (this w))))) ->
  exists configSet w1,
    generateConfigs w = Returns configSet w1
    /\ (forall id, is_Some (configSet !! id) <-> 1 <= id <= Z.of_nat (size configSet))
    /\ (forall id config,
          configSet !! id = Some config ->
          Config.configID config = id
          /\ Z.land (Config.surfaceType config) EGL_PIXMAP_BIT = 0
          /\ Config.matchNativePixmap config = EGL_NONE
          /\ Config.optimalOrientation config = 0).
Proof.
  intros Hasserts. eexists _, _.
  split; [apply generateConfigs_exact; exact Hasserts|].
  destruct (recordConfigs_lookup (retainedConfigs (this w))) as [Hset _].
  destruct (added_lookup (retainedConfigs (this w))) as [Hsize Hlookup].
  rewrite Hset, Hsize. split.
  - intros id. split.
    + intros [config Hconfig]. apply Hlookup in Hconfig as (i & entry & Hi & -> & _).
      apply lookup_lt_Some in Hi. lia.
    + intros Hrange.
      destruct (lookup_lt_is_Some_2 (retainedConfigs (this w)) (Z.to_nat (id - 1)))
        as [entry Hentry]; [lia|].
      exists (Config.set_configID id entry). apply Hlookup.
      exists (Z.to_nat (id - 1)), entry. repeat split; [exact Hentry|lia].
  - intros id config Hconfig.
    apply Hlookup in Hconfig as (i & entry & Hi & Hid & ->).
    split; [reflexivity|].
    pose proof (list_elem_of_lookup_2 _ _ _ Hi) as Hin.
    apply list_elem_of_omap in Hin as (native & Hnative & Hentry).
    apply list_elem_of_fmap in Hnative as (c & -> & _).
    destruct (documented_entry_keeps _ _ Hentry) as (_ & Hst & Hmatch & Horient).
    cbn [Config.surfaceType Config.matchNativePixmap Config.optimalOrientation
         Config.set_configID].
    rewrite Hst. repeat split; try assumption.
    cbn [Config.surfaceType readConfig].
    rewrite <- Z.land_assoc, (Z.land_comm (Z.lnot EGL_PIXMAP_BIT)), Z.land_lnot_diag.
    apply Z.land_0_r.
Qed.

End ConfigCatalog_more.

(** ** More on context negotiation *)

Section Negotiation_more.

Lemma documented_plan_length d eglAttributes attempts :
  documented_plan d eglAttributes = inr attempts ->
  (length attempts <= if mHasEXTCreateContextRobustness d then 8 else 4)%nat.
Proof.
  unfold documented_plan, documented_candidates, documented_attempts.
  destruct (hasFlexibleVersionAttributes (mEGL d)),
           (requestedVersion eglAttributes) as [[requestedMajor requestedMinor]|];
    try case_decide; try discriminate; intros [= <-];
    destruct (mHasEXTCreateContextRobustness d); cbn; lia.
Qed.

Lemma creations_snoc_query log code snapshot :
  creations (log ++ [mkCall eglGetError code snapshot]) = creations log.
Proof. unfold creations. rewrite omap_app. cbn. apply app_nil_r. Qed.

(** X13. Negotiation is bounded and always returns: [initializeContext]
    issues at most eight context-creation calls (at most four when
    robustness is not advertised), and besides them at most one error query;
    it leaves the display object as it was. *)
Theorem initializeContext_is_bounded shareContext eglAttributes w :
  exists result w' extra,
    initializeContext shareContext eglAttributes w = Returns result w'
    /\ this w' = this w
    /\ calls w' = calls w ++ extra
    /\ (length (creations extra)
        <= if mHasEXTCreateContextRobustness (this w) then 8 else 4)%nat
    /\ (length extra <= S (length (creations extra)))%nat.
Proof.
  rewrite initializeContext_as_documented. unfold documented_negotiation. run.
  destruct (documented_plan (this w) eglAttributes) as [e|attempts] eqn:Hplan.
  - exists (inl e), w, []. rewrite app_nil_r.
    repeat split; cbn; try destruct (mHasEXTCreateContextRobustness (this w)); lia.
  - pose proof (documented_plan_length _ _ _ Hplan) as Hbound.
    destruct (first_success_log (mConfig (this w)) shareContext attempts w)
      as (r & w' & extra & Hrun & Hthis & Hcalls & Hr).
    rewrite Hrun. destruct r as [[context attribVector]|].
    + destruct Hr as (failed & Hcre & Hne & Hpre & Hlen).
      exists (inr (context, attribVector)), w', extra.
      repeat split; try assumption.
      * rewrite Hcre, length_app, length_map. cbn.
        apply prefix_length in Hpre. rewrite length_app in Hpre. cbn in Hpre. lia.
      * rewrite Hcre, length_app, length_map. cbn. lia.
    + destruct Hr as [Hcre Hlen]. run.
      eexists (inl _), _, (extra ++ [_]). split; [reflexivity|].
      split; [exact Hthis|]. split; [rewrite Hcalls, <- app_assoc; reflexivity|].
      rewrite creations_snoc_query, Hcre, length_map, length_app. cbn. split; lia.
Qed.

(** X14. The renderable types offered to config selection agree with what
    negotiation may ask for.  The list is empty exactly for a platform type
    that is neither OpenGL nor OpenGL ES.  For the OpenGL ES platform the ES2
    bit comes last, and the ES3 bit is offered exactly when
    [initializeContext] has a candidate list for every version request; when
    the ES3 bit is not offered, the only candidate it ever has is the legacy
    ES 2.0 attribute set. *)
Theorem RenderableTypes_agree_with_negotiation egl platformAttrib :
  let types := RenderableTypesFromPlatformAttrib egl platformAttrib in
  (types = []
   <-> platformAttrib <> EGL_PLATFORM_ANGLE_TYPE_OPENGL_ANGLE
       /\ platformAttrib <> EGL_PLATFORM_ANGLE_TYPE_OPENGLES_ANGLE)
  /\ (platformAttrib = EGL_PLATFORM_ANGLE_TYPE_OPENGLES_ANGLE ->
      last types = Some EGL_OPENGL_ES2_BIT
      /\ (EGL_OPENGL_ES3_BIT ∈ types
          <-> forall eglAttributes,
                exists lists, contextAttribLists egl eglAttributes = inr lists)
      /\ (EGL_OPENGL_ES3_BIT ∉ types ->
          forall eglAttributes lists,
            contextAttribLists egl eglAttributes = inr lists ->
            lists = [[(EGL_CONTEXT_CLIENT_VERSION, 2)]])).
Proof.
  cbv zeta. split.
  - unfold RenderableTypesFromPlatformAttrib.
    destruct (Z.eqb_spec platformAttrib EGL_PLATFORM_ANGLE_TYPE_OPENGL_ANGLE) as [->|Hgl].
    { split; [discriminate|]. intros [H _]. contradiction. }
    destruct (Z.eqb_spec platformAttrib EGL_PLATFORM_ANGLE_TYPE_OPENGLES_ANGLE) as [->|Hes].
    { split; [|intros [_ H]; contradiction].
      destruct (_ || _); discriminate. }
    split; [intros _; split; assumption|reflexivity].
  - intros ->. unfold RenderableTypesFromPlatformAttrib.
    cbn [Z.eqb Pos.eqb EGL_PLATFORM_ANGLE_TYPE_OPENGLES_ANGLE
         EGL_PLATFORM_ANGLE_TYPE_OPENGL_ANGLE].
    fold (hasFlexibleVersionAttributes egl).
    destruct (hasFlexibleVersionAttributes egl) eqn:Hflexible; cbn [app].
    + split; [reflexivity|]. split.
      * split; [|intros _; apply list_elem_of_here].
        intros _ eglAttributes. unfold contextAttribLists. cbv zeta.
        rewrite Hflexible. destruct (_ && _); eexists; reflexivity.
      * intros Hnot. exfalso. apply Hnot, list_elem_of_here.
    + split; [reflexivity|]. split.
      * split; [intros Hin; apply list_elem_of_singleton in Hin; discriminate Hin|].
        intros Hall.
        destruct (Hall [(EGL_PLATFORM_ANGLE_MAX_VERSION_MAJOR_ANGLE, 3);
                        (EGL_PLATFORM_ANGLE_MAX_VERSION_MINOR_ANGLE, 0)]) as [lists Hlists].
        unfold contextAttribLists in Hlists. cbv zeta in Hlists.
        rewrite Hflexible in Hlists. vm_compute in Hlists. discriminate Hlists.
      * intros _ eglAttributes lists. unfold contextAttribLists. cbv zeta.
        rewrite Hflexible. destruct (_ && _); [discriminate|].
        intros [= <-]. reflexivity.
Qed.

End Negotiation_more.

(** ** More on framebuffer attachments *)

Section Attachments_more.

Import FramebufferAttachment.

Context {build : Build}.

Lemma offsets_reset (offsets : list Offset) :
  <[0%nat := Offset0]> (resize 1 Offset0 offsets) = [Offset0].
Proof. destruct offsets as [|o [|o' offsets]]; reflexivity. Qed.

(** X15. [detach] puts an attachment, whatever it was, into the state of a
    default-constructed one, and a second [detach] does nothing: no further
    notification, same state. *)
Theorem detach_resets_and_is_idempotent context context' st :
  (detach context st).1 = new
  /\ detach context' (detach context st) = detach context st.
Proof.
  destruct st as [a fired]. unfold detach, new. cbn [fst].
  rewrite !offsets_reset. split; reflexivity.
Qed.

Lemma balance_app fired more resource :
  balance (fired ++ more) resource
  = balance fired resource + balance more resource.
Proof.
  induction more as [|n more IH] using rev_ind.
  - rewrite app_nil_r. cbn. lia.
  - rewrite app_assoc, !balance_snoc, IH.
    destruct n; case_decide; lia.
Qed.

Lemma perform_balance c a fired resource :
  let st' := performCall (a, fired) c in
  balance st'.2 resource - FramebufferAttachment_holds st'.1 resource
  = balance fired resource - FramebufferAttachment_holds a resource.
Proof.
  unfold FramebufferAttachment_holds.
  destruct c as [context type binding textureIndex [r|]|context];
    cbn [performCall attach detach fst snd mResource];
    destruct (mResource a) as [previous|];
    rewrite ?app_nil_r, ?balance_app; unfold balance; cbn;
    repeat case_decide; try congruence; lia.
Qed.

(** X16. Attach and detach notifications stay balanced along any sequence of
    [attach] and [detach] calls: starting from a default-constructed
    attachment, each resource has at every point received exactly one more
    attach than detach notification if it is the bound resource, and equally
    many otherwise. *)
Theorem attachment_notifications_balanced (cs : list AttachmentCall) resource :
  let st := performCalls cs (new, []) in
  balance st.2 resource = FramebufferAttachment_holds st.1 resource.
Proof.
  cbv zeta. unfold performCalls.
  assert (Hgen : forall st,
            balance (fold_left performCall cs st).2 resource
            - FramebufferAttachment_holds (fold_left performCall cs st).1 resource
            = balance st.2 resource - FramebufferAttachment_holds st.1 resource).
  { induction cs as [|c cs IH]; intros st; [reflexivity|].
    cbn [fold_left]. rewrite IH. destruct st as [a fired]. apply perform_balance. }
  specialize (Hgen (new, [])). cbn [fst snd] in Hgen.
  change (balance [] resource) with 0 in Hgen.
  change (FramebufferAttachment_holds new resource) with 0 in Hgen. lia.
Qed.

(** The attaching constructor never reads the type member it leaves
    uninitialised: whatever value that member starts with, the constructed
    attachment and the notifications are the same as for [attach] on a
    default-constructed attachment. *)
Lemma construct_ignores_uninitialised_type context type binding textureIndex resource
    initialType fired :
  FramebufferAttachment_construct context type binding textureIndex resource initialType
    fired
  = attach context type binding textureIndex resource (new, fired).
Proof. destruct resource; reflexivity. Qed.

(** What [operator==] compares. *)
Lemma FramebufferAttachment_equal_spec a other :
  exists b,
    FramebufferAttachment_equal a other = Value b
    /\ (b = true <->
        mResource a = mResource other /\ mType a = mType other
        /\ mNumViews a = mNumViews other
        /\ mMultiviewLayout a = mMultiviewLayout other
        /\ mBaseViewIndex a = mBaseViewIndex other
        /\ mViewportOffsets a = mViewportOffsets other
        /\ (mType a = GL_TEXTURE ->
            mTextureIndex (mTarget a) = mTextureIndex (mTarget other))).
Proof.
  unfold FramebufferAttachment_equal, FramebufferAttachment_getTextureImageIndex.
  repeat case_bool_decide;
    destruct (Z.eqb_spec (mType a) (mType other)) as [Ht|Ht];
    destruct (Z.eqb_spec (mNumViews a) (mNumViews other)),
             (Z.eqb_spec (mMultiviewLayout a) (mMultiviewLayout other)),
             (Z.eqb_spec (mBaseViewIndex a) (mBaseViewIndex other));
    cbn [orb negb];
    try (eexists; split; [reflexivity|]; split; [discriminate|]; tauto).
  repeat match goal with H : ~ _ <> _ |- _ => apply dec_stable in H end.
  rewrite <- Ht. destruct (Z.eqb_spec (mType a) GL_TEXTURE) as [Htex|Htex].
  - rewrite andb_false_r. case_bool_decide as Hindex;
      (eexists; split; [reflexivity|]); split; try discriminate; tauto.
  - eexists; split; [reflexivity|]. tauto.
Qed.

(** X17. Comparing two attachments never runs into the assertion of
    [getTextureImageIndex], whatever the two attachments are, and the
    comparison is an equivalence that does not look at the binding point. *)
Theorem attachment_equality_is_an_equivalence :
  (forall a other, exists b, FramebufferAttachment_equal a other = Value b)
  /\ (forall a, FramebufferAttachment_equal a a = Value true)
  /\ (forall a other,
        FramebufferAttachment_equal a other = FramebufferAttachment_equal other a)
  /\ (forall a b c,
        FramebufferAttachment_equal a b = Value true ->
        FramebufferAttachment_equal b c = Value true ->
        FramebufferAttachment_equal a c = Value true)
  /\ (forall type binding binding' textureIndex resource views layout base offsets,
        FramebufferAttachment_equal
          (mk type (mkTarget binding textureIndex) resource views layout base offsets)
          (mk type (mkTarget binding' textureIndex) resource views layout base offsets)
        = Value true).
Proof.
  assert (Hyes : forall a other,
            FramebufferAttachment_equal a other = Value true <->
            mResource a = mResource other /\ mType a = mType other
            /\ mNumViews a = mNumViews other
            /\ mMultiviewLayout a = mMultiviewLayout other
            /\ mBaseViewIndex a = mBaseViewIndex other
            /\ mViewportOffsets a = mViewportOffsets other
            /\ (mType a = GL_TEXTURE ->
                mTextureIndex (mTarget a) = mTextureIndex (mTarget other))).
  { intros a other. destruct (FramebufferAttachment_equal_spec a other) as (b & -> & Hb).
    rewrite <- Hb. split; [intros [= ->]|intros ->]; reflexivity. }
  split; [|split; [|split; [|split]]].
  - intros a other. destruct (FramebufferAttachment_equal_spec a other) as (b & Hb & _).
    exists b. exact Hb.
  - intros a. apply Hyes. tauto.
  - intros a other.
    destruct (FramebufferAttachment_equal_spec a other) as (b & Hb & Hiff),
             (FramebufferAttachment_equal_spec other a) as (b' & Hb' & Hiff').
    rewrite Hb, Hb'. f_equal.
    destruct b, b'; try reflexivity; exfalso.
    + assert (false = true); [|discriminate]. apply Hiff'.
      destruct Hiff as [Hiff _]. specialize (Hiff eq_refl).
      repeat split; try (symmetry; tauto).
      intros Htex. symmetry. apply Hiff. destruct Hiff as (_ & -> & _). exact Htex.
    + assert (false = true); [|discriminate]. apply Hiff.
      destruct Hiff' as [Hiff' _]. specialize (Hiff' eq_refl).
      repeat split; try (symmetry; tauto).
      intros Htex. symmetry. apply Hiff'. destruct Hiff' as (_ & -> & _). exact Htex.
  - intros a b c Hab%Hyes Hbc%Hyes. apply Hyes.
    destruct Hab as (-> & Ht & -> & -> & -> & -> & Hi),
             Hbc as (-> & Ht' & -> & -> & -> & -> & Hi').
    repeat split; try reflexivity; [congruence|].
    intros Htex. rewrite Hi by exact Htex. apply Hi'. congruence.
  - intros. apply Hyes. cbn. tauto.
Qed.

(** X18. Move construction hands an attachment over whole and notifies
    nobody: the new object has every member of the source, the two compare
    equal, the source is left default-constructed, so that a [detach] on it
    fires no notification; moving back restores both objects. *)
Theorem moveConstruct_transfers other context fired :
  let moved := FramebufferAttachment_moveConstruct other in
  moved.1 = other
  /\ moved.2 = new
  /\ FramebufferAttachment_equal moved.1 other = Value true
  /\ detach context (moved.2, fired) = (new, fired)
  /\ FramebufferAttachment_moveAssign moved.2 moved.1 = (other, new).
Proof.
  cbv zeta. destruct other as [type target resource views layout base offsets].
  cbn [FramebufferAttachment_moveConstruct FramebufferAttachment_moveAssign fst snd
       mType mTarget mResource mNumViews mMultiviewLayout mBaseViewIndex mViewportOffsets
       new].
  repeat split.
  destruct (FramebufferAttachment_equal_spec
              (mk type target resource views layout base offsets)
              (mk type target resource views layout base offsets)) as (b & -> & Hb).
  f_equal. apply Hb. tauto.
Qed.

(** X19. What [attach] stored for a texture is what the queries give back:
    after attaching a resource as [GL_TEXTURE], [getTextureImageIndex]
    returns the index passed, [mipLevel] its mip index and [layer] its layer
    for array and 3D textures and zero otherwise, with or without [ASSERT]
    compiled in.  On a detached attachment the three queries stop at their
    assertion when it is compiled in. *)
Theorem attach_texture_then_query context binding textureIndex resource context' st :
  let attached := (attach context GL_TEXTURE binding textureIndex (Some resource) st).1 in
  let detached := (detach context' st).1 in
  FramebufferAttachment_getTextureImageIndex attached = Value textureIndex
  /\ FramebufferAttachment_mipLevel attached = Value (mipIndex textureIndex)
  /\ FramebufferAttachment_layer attached
     = Value (if (type textureIndex =? GL_TEXTURE_2D_ARRAY)
                 || (type textureIndex =? GL_TEXTURE_3D)
              then layerIndex textureIndex else 0)
  /\ (ANGLE_ENABLE_ASSERTS = true ->
      (exists text, FramebufferAttachment_getTextureImageIndex detached = Aborts text)
      /\ (exists text, FramebufferAttachment_mipLevel detached = Aborts text)
      /\ (exists text, FramebufferAttachment_layer detached = Aborts text)).
Proof.
  destruct st as [a fired]. cbv zeta.
  unfold FramebufferAttachment_getTextureImageIndex, FramebufferAttachment_mipLevel,
    FramebufferAttachment_layer.
  cbn [attach detach fst mType mTarget mTextureIndex].
  rewrite Z.eqb_refl, andb_false_r.
  repeat split; try (destruct (_ || _); reflexivity).
  all: rewrite H; eexists; reflexivity.
Qed.

End Attachments_more.

(** ** Worker contexts *)

Section Workers.

Context {build : Build}.

(** X20. The life of a worker context: a worker handed out by
    [createWorkerContext] carries a native context other than
    [EGL_NO_CONTEXT] and no surface, the info log is untouched, and creating,
    binding, unbinding and destroying it issues exactly four native calls,
    the binding one without a surface, and leaves the display object and so
    the per-thread cache as they were. *)
Theorem worker_lifecycle infoLog sharedContext workerAttribs w worker log w1 :
  createWorkerContext infoLog sharedContext workerAttribs w = Returns (Some worker, log) w1 ->
  log = infoLog
  /\ WorkerContextEGL.mContext worker <> EGL_NO_CONTEXT
  /\ exists bound w2,
       (bound ← WorkerContextEGL.makeCurrent worker;
        WorkerContextEGL.unmakeCurrent worker;;
        WorkerContextEGL.destroy worker;;
        mret bound) w1 = Returns bound w2
       /\ this w2 = this w
       /\ map call (issued w w2)
          = [eglCreateContext (mConfig (this w)) sharedContext workerAttribs;
             eglMakeCurrent EGL_NO_SURFACE (WorkerContextEGL.mContext worker);
             eglMakeCurrent EGL_NO_SURFACE EGL_NO_CONTEXT;
             eglDestroyContext (WorkerContextEGL.mContext worker)].
Proof.
  unfold createWorkerContext, WorkerContextEGL.makeCurrent,
    WorkerContextEGL.unmakeCurrent, WorkerContextEGL.destroy, issued. run.
  destruct (Z.eqb_spec (driver (mEGL (this w)) (calls w)
                          (eglCreateContext (mConfig (this w)) sharedContext workerAttribs))
              EGL_NO_CONTEXT) as [Hnone|Hsome]; [discriminate|].
  intros [= <- <- <-]. cbn [WorkerContextEGL.mContext WorkerContextEGL.mPbuffer].
  split; [reflexivity|]. split; [exact Hsome|].
  destruct (_ =? EGL_FALSE); (eexists _, _; split; [reflexivity|]); cbn [this calls];
    (split; [reflexivity|]);
    rewrite <- !app_assoc, drop_app_length; reflexivity.
Qed.

(** X21. [createWorkerContext] reports a failure instead of handing out a
    worker without a context: it returns no worker exactly when the native
    library answered [EGL_NO_CONTEXT], and then, and only then, the message
    is appended to the info log.  Either way it issues one native call and
    leaves the display object as it was. *)
Theorem createWorkerContext_reports_failure infoLog sharedContext workerAttribs w :
  exists worker log w1 answer snapshot,
    createWorkerContext infoLog sharedContext workerAttribs w = Returns (worker, log) w1
    /\ this w1 = this w
    /\ issued w w1
       = [mkCall (eglCreateContext (mConfig (this w)) sharedContext workerAttribs)
            answer snapshot]
    /\ (worker = None <-> answer = EGL_NO_CONTEXT)
    /\ log = (if decide (worker = None)
              then String.append infoLog "Unable to create the EGL context."
              else infoLog).
Proof.
  unfold createWorkerContext, issued. run.
  destruct (Z.eqb_spec (driver (mEGL (this w)) (calls w)
                          (eglCreateContext (mConfig (this w)) sharedContext workerAttribs))
              EGL_NO_CONTEXT) as [Hnone|Hsome];
    eexists _, _, _, _, _; (split; [reflexivity|]); cbn [this calls];
    (split; [reflexivity|]); rewrite drop_app_length;
    (split; [reflexivity|]); split; try reflexivity.
  - split; [intros _; exact Hnone|reflexivity].
  - split; [discriminate|intros ?; contradiction].
Qed.

(** X22. Worker bindings go past the per-thread cache: a worker's
    [makeCurrent] issues its native make-current call and changes nothing of
    the display object, so a display [makeCurrent] for the pair the thread
    has cached still issues no native call after it. *)
Theorem worker_binding_is_not_tracked id drawSurface readSurface context worker w
    surface context0 :
  let newSurface := from_option getSurface EGL_NO_SURFACE drawSurface in
  let newContext := from_option getContext EGL_NO_CONTEXT context in
  let currentContext := CurrentNativeContext.mk surface context0 false in
  mCurrentNativeContexts (this w) !! id = Some currentContext ->
  from_option Context_isExternal false context = false ->
  resolvedPair (this w) currentContext newSurface newContext = (surface, context0) ->
  (ANGLE_ENABLE_ASSERTS = true ->
   resolveChecks (this w) currentContext newSurface newContext = true) ->
  exists bound w1,
    WorkerContextEGL.makeCurrent worker w = Returns bound w1
    /\ this w1 = this w
    /\ map call (issued w w1)
       = [eglMakeCurrent (WorkerContextEGL.mPbuffer worker)
            (WorkerContextEGL.mContext worker)]
    /\ makeCurrent id drawSurface readSurface context w1
       = Returns (DisplayGL_makeCurrent drawSurface readSurface context) w1.
Proof.
  intros newSurface newContext currentContext Hcur Hctx Hpair Hchk.
  assert (Hrun : exists bound,
            WorkerContextEGL.makeCurrent worker w
            = Returns bound
                {| this := this w;
                   calls := calls w
                            ++ [mkCall (eglMakeCurrent (WorkerContextEGL.mPbuffer worker)
                                          (WorkerContextEGL.mContext worker))
                                  (driver (mEGL (this w)) (calls w)
                                     (eglMakeCurrent (WorkerContextEGL.mPbuffer worker)
                                        (WorkerContextEGL.mContext worker)))
                                  (mCurrentNativeContexts (this w))] |}).
  { unfold WorkerContextEGL.makeCurrent. run.
    destruct (_ =? EGL_FALSE); eexists; reflexivity. }
  destruct Hrun as [bound Hrun]. eexists bound, _. split; [exact Hrun|].
  split; [reflexivity|]. split.
  - unfold issued. cbn [calls]. rewrite drop_app_length. reflexivity.
  - apply (makeCurrent_cached id drawSurface readSurface context _ surface context0);
      assumption.
Qed.

End Workers.

(** ** Renderers and contexts *)

Section Renderers.

Context {build : Build} {surroundings : Surroundings}.

Lemma initializeContext_frame shareContext eglAttributes w :
  exists result w' extra,
    initializeContext shareContext eglAttributes w = Returns result w'
    /\ this w' = this w
    /\ calls w' = calls w ++ extra.
Proof.
  rewrite initializeContext_as_documented. unfold documented_negotiation. run.
  destruct (documented_plan (this w) eglAttributes) as [e|attempts].
  - exists (inl e), w, []. rewrite app_nil_r. repeat split.
  - destruct (first_success_log (mConfig (this w)) shareContext attempts w)
      as (r & w' & extra & Hrun & Hthis & Hcalls & _).
    rewrite Hrun. destruct r as [[context attribVector]|].
    + exists (inr (context, attribVector)), w', extra. repeat split; assumption.
    + run. eexists (inl _), _, (extra ++ [_]). split; [reflexivity|].
      split; [exact Hthis|]. rewrite Hcalls, <- app_assoc. reflexivity.
Qed.

Lemma keeps_initializeContext id shareContext eglAttributes :
  keeps (displayKeptBut id) (initializeContext shareContext eglAttributes).
Proof.
  intros w.
  destruct (initializeContext_frame shareContext eglAttributes w)
    as (result & w' & extra & -> & Hthis & _).
  cbn. unfold displayKeptBut. rewrite Hthis. repeat split.
Qed.

Lemma finishRenderer_keeps id context attribs makeNewContextCurrent isExternalContext :
  keeps (displayKeptBut id)
    (finishRenderer id context attribs makeNewContextCurrent isExternalContext).
Proof. unfold finishRenderer. keeping. Qed.

Lemma createRenderer_keeps id shareContext makeNewContextCurrent isExternalContext :
  keeps (displayKeptBut id)
    (createRenderer id shareContext makeNewContextCurrent isExternalContext).
Proof.
  unfold createRenderer.
  apply keeps_bind; [exact _|apply keeps_getThis; exact _|intros d].
  destruct isExternalContext.
  - repeat first [apply finishRenderer_keeps
                 |apply keeps_bind;
                  [exact _
                  |first [apply keeps_ASSERT; exact _|apply keeps_native_but]
                  |intros ?]].
  - apply keeps_bind; [exact _|apply keeps_initializeContext|intros initialized].
    cbv zeta. destruct (Error_isError _); [apply keeps_ret; exact _|].
    apply keeps_bind; [exact _|apply keeps_native_but|intros made].
    destruct (made =? EGL_FALSE).
    + apply keeps_bind; [exact _|apply keeps_native_but|intros code].
      apply keeps_ret; exact _.
    + apply finishRenderer_keeps.
Qed.

(** What the last part of [createRenderer] leaves behind. *)
Lemma finishRenderer_outcome id context attribs makeNewContextCurrent isExternalContext w :
  exists e w',
    finishRenderer id context attribs makeNewContextCurrent isExternalContext w
    = Returns (e, Some (mkRenderer context attribs isExternalContext)) w'
    /\ (isExternalContext = true -> e = NoError /\ calls w' = calls w)
    /\ (isExternalContext = true ->
        threadState w' id
        = if makeNewContextCurrent
          then CurrentNativeContext.mk (mMockPbuffer (this w)) context
                 (CurrentNativeContext.isExternalContext (threadState w id))
          else threadState w id)
    /\ (Error_isError e = false -> isExternalContext = false ->
        e = NoError
        /\ if makeNewContextCurrent
           then calls w' = calls w
                /\ threadState w' id
                   = CurrentNativeContext.mk (mMockPbuffer (this w)) context
                       (CurrentNativeContext.isExternalContext (threadState w id))
           else threadState w' id = threadState w id
                /\ exists answer snapshot,
                     calls w'
                     = calls w
                       ++ [mkCall (eglMakeCurrent
                                     (CurrentNativeContext.surface (threadState w id))
                                     (CurrentNativeContext.context (threadState w id)))
                             answer snapshot]
                     /\ answer <> EGL_FALSE).
Proof.
  unfold finishRenderer.
  unfold mbind at 1, M_bind at 1, getThis. cbv beta iota.
  unfold mbind at 1, M_bind at 1, currentNativeContext. cbv beta iota zeta.
  destruct makeNewContextCurrent.
  - unfold mbind, M_bind, assign_surface, assign_context, mret, M_ret.
    cbv beta iota. eexists _, _. split; [reflexivity|].
    assert (Hstate : forall m : gmap nat CurrentNativeContext.t,
              default CurrentNativeContext.initial
                (alter (fun c => CurrentNativeContext.mk (CurrentNativeContext.surface c)
                                   context (CurrentNativeContext.isExternalContext c)) id
                   (alter (fun c => CurrentNativeContext.mk (mMockPbuffer (this w))
                                      (CurrentNativeContext.context c)
                                      (CurrentNativeContext.isExternalContext c)) id m)
                 !! id)
              = match m !! id with
                | Some c => CurrentNativeContext.mk (mMockPbuffer (this w)) context
                              (CurrentNativeContext.isExternalContext c)
                | None => CurrentNativeContext.initial
                end).
    { intros m. rewrite !lookup_alter_eq. destruct (m !! id); reflexivity. }
    split; [|split].
    + intros _. split; [reflexivity|]. cbn. apply entryCreated_calls.
    + intros _. unfold threadState at 1.
      cbn [this mCurrentNativeContexts set_mCurrentNativeContexts].
      rewrite Hstate, entryCreated_lookup. reflexivity.
    + intros _ _. split; [reflexivity|]. split; [cbn; apply entryCreated_calls|].
      unfold threadState at 1. cbn [this mCurrentNativeContexts set_mCurrentNativeContexts].
      rewrite Hstate, entryCreated_lookup. reflexivity.
  - destruct isExternalContext; cbn [negb].
    + unfold mret, M_ret. eexists _, _. split; [reflexivity|].
      split; [|split].
      * intros _. split; [reflexivity|apply entryCreated_calls].
      * intros _. apply entryCreated_threadState.
      * intros _ [=].
    + unfold mbind at 1, M_bind at 1, native. cbv beta iota zeta.
      destruct (Z.eqb_spec
                  (driver (mEGL (this (entryCreated id w))) (calls (entryCreated id w))
                     (eglMakeCurrent (CurrentNativeContext.surface (threadState w id))
                        (CurrentNativeContext.context (threadState w id)))) EGL_FALSE)
        as [Hfalse|Hmade].
      * run. eexists _, _. split; [reflexivity|].
        split; [intros [=]|]. split; [intros [=]|]. intros [=].
      * run. eexists _, _. split; [reflexivity|].
        split; [intros [=]|]. split; [intros [=]|]. intros _ _.
        split; [reflexivity|]. split.
        -- unfold threadState at 1. cbn [this]. apply entryCreated_threadState.
        -- rewrite entryCreated_calls in Hmade |- *.
           eexists _, _. split; [reflexivity|exact Hmade].
Qed.

(** X23. Adopting an external context creates and binds nothing.  The only
    native call [createRenderer] can issue for an external context is the
    query [eglGetCurrentContext], and nothing of the display object changes
    but, possibly, the calling thread's cache entry.  When it returns, it has
    issued exactly that query, the renderer wraps the context the native
    library answered, as an ES 2.0 context marked external, and the thread's
    cached binding is as before unless the cache was asked to follow, in
    which case it is the mock pbuffer with the adopted context.  With
    [ASSERT] compiled in it returns only if the adopted context exists, no
    share context was passed and the cache was not asked to follow. *)
Theorem createRenderer_external_adopts id shareContext makeNewContextCurrent w :
  let adopted := driver (mEGL (this w)) (calls w) eglGetCurrentContext in
  let query := mkCall eglGetCurrentContext adopted (mCurrentNativeContexts (this w)) in
  let outcome := createRenderer id shareContext makeNewContextCurrent true w in
  (calls (worldOf outcome) = calls w \/ calls (worldOf outcome) = calls w ++ [query])
  /\ displayKeptBut id w (worldOf outcome)
  /\ forall result w',
       outcome = Returns result w' ->
       result = (NoError,
                 Some (mkRenderer adopted
                         [EGL_CONTEXT_MAJOR_VERSION; 2; EGL_CONTEXT_MINOR_VERSION; 0; EGL_NONE]
                         true))
       /\ calls w' = calls w ++ [query]
       /\ threadState w' id
          = (if makeNewContextCurrent
             then CurrentNativeContext.mk (mMockPbuffer (this w)) adopted
                    (CurrentNativeContext.isExternalContext (threadState w id))
             else threadState w id)
       /\ (ANGLE_ENABLE_ASSERTS = true ->
           adopted <> EGL_NO_CONTEXT /\ shareContext = EGL_NO_CONTEXT
           /\ makeNewContextCurrent = false).
Proof.
  cbv zeta.
  set (adopted := driver (mEGL (this w)) (calls w) eglGetCurrentContext).
  set (w1 := {| this := this w;
                calls := calls w
                         ++ [mkCall eglGetCurrentContext adopted
                               (mCurrentNativeContexts (this w))] |}).
  destruct (finishRenderer_outcome id adopted
              [EGL_CONTEXT_MAJOR_VERSION; 2; EGL_CONTEXT_MINOR_VERSION; 0; EGL_NONE]
              makeNewContextCurrent true w1) as (e & w2 & Hfinish & Hext & Hstate & _).
  destruct (Hext eq_refl) as [-> Hcalls]. specialize (Hstate eq_refl).
  assert (Hrun : createRenderer id shareContext makeNewContextCurrent true w
                 = if ANGLE_ENABLE_ASSERTS && negb (shareContext =? EGL_NO_CONTEXT)
                   then Fatal "shareContext == EGL_NO_CONTEXT" w
                   else if ANGLE_ENABLE_ASSERTS && negb (negb makeNewContextCurrent)
                   then Fatal "!makeNewContextCurrent" w
                   else if ANGLE_ENABLE_ASSERTS && negb (negb (adopted =? EGL_NO_CONTEXT))
                   then Fatal "context != EGL_NO_CONTEXT" w1
                   else Returns
                          (NoError,
                           Some (mkRenderer adopted
                                   [EGL_CONTEXT_MAJOR_VERSION; 2; EGL_CONTEXT_MINOR_VERSION; 0;
                                    EGL_NONE] true)) w2).
  { rewrite <- Hfinish. unfold createRenderer, ASSERT. run.
    repeat (destruct (ANGLE_ENABLE_ASSERTS && _); [reflexivity|]). reflexivity. }
  split; [|split; [apply createRenderer_keeps|]].
  - rewrite Hrun.
    repeat (destruct (ANGLE_ENABLE_ASSERTS && _);
            [first [left; reflexivity|right; reflexivity]|]).
    right. exact Hcalls.
  - intros result w'. rewrite Hrun.
    destruct (ANGLE_ENABLE_ASSERTS && negb (shareContext =? EGL_NO_CONTEXT)) eqn:Hshare;
      [discriminate|].
    destruct (ANGLE_ENABLE_ASSERTS && negb (negb makeNewContextCurrent)) eqn:Hnew;
      [discriminate|].
    destruct (ANGLE_ENABLE_ASSERTS && negb (negb (adopted =? EGL_NO_CONTEXT)))
      eqn:Hcurrent; [discriminate|].
    intros [= <- <-]. split; [reflexivity|]. split; [exact Hcalls|].
    split; [exact Hstate|].
    intros Hon. rewrite Hon in Hshare, Hnew, Hcurrent. cbn in Hshare, Hnew, Hcurrent.
    destruct makeNewContextCurrent; [discriminate|].
    apply negb_false_iff, Z.eqb_eq in Hshare.
    apply negb_false_iff, negb_true_iff, Z.eqb_neq in Hcurrent.
    repeat split; assumption.
Qed.

(** The two native steps of a created renderer: binding the new context on
    the mock pbuffer, then [finishRenderer]. *)
Lemma createRenderer_created id shareContext makeNewContextCurrent w result w' :
  createRenderer id shareContext makeNewContextCurrent false w = Returns result w' ->
  Error_isError result.1 = false ->
  exists initialized w0 extra context attribs bound snapshot e,
    initializeContext shareContext mDisplayAttributes w = Returns initialized w0
    /\ this w0 = this w
    /\ calls w0 = calls w ++ extra
    /\ bound <> EGL_FALSE
    /\ finishRenderer id context attribs makeNewContextCurrent false
         {| this := this w0;
            calls := calls w0
                     ++ [mkCall (eglMakeCurrent (mMockPbuffer (this w)) context) bound
                           snapshot] |}
       = Returns (e, Some (mkRenderer context attribs false)) w'
    /\ result = (e, Some (mkRenderer context attribs false)).
Proof.
  unfold createRenderer.
  unfold mbind at 1, M_bind at 1, getThis. cbv beta iota.
  destruct (initializeContext_frame shareContext mDisplayAttributes w)
    as (initialized & w0 & extra & Hinit & Hthis & Hcalls).
  unfold mbind at 1, M_bind at 1. rewrite Hinit. cbv beta iota zeta.
  destruct (Error_isError match initialized with inl e => e | inr _ => NoError end)
    eqn:Herror.
  { unfold mret, M_ret. intros [= <- <-]. cbn [fst]. congruence. }
  unfold mbind at 1, M_bind at 1, native. cbv beta iota zeta.
  match goal with
  | |- context [if ?answer =? EGL_FALSE then _ else _] =>
      destruct (Z.eqb_spec answer EGL_FALSE) as [Hfalse|Hbound]
  end.
  { run. intros [= <- <-]. cbn. discriminate. }
  intros Hrun Hok.
  match type of Hrun with
  | finishRenderer _ ?context ?attribs _ _ _ = _ =>
      destruct (finishRenderer_outcome id context attribs makeNewContextCurrent false
                  {| this := this w0;
                     calls := calls w0
                              ++ [mkCall (eglMakeCurrent (mMockPbuffer (this w)) context)
                                    (driver (mEGL (this w0)) (calls w0)
                                       (eglMakeCurrent (mMockPbuffer (this w)) context))
                                    (mCurrentNativeContexts (this w0))] |})
        as (e & w1 & Hfinish & _);
      exists initialized, w0, extra, context, attribs
  end.
  rewrite Hfinish in Hrun. injection Hrun as <- <-.
  eexists _, _, e. repeat split; try eassumption.
Qed.

(** X24. A created renderer leaves the thread's cache in step with the
    native binding.  When [createRenderer] succeeds for a context of its
    own, the last native call is a successful [eglMakeCurrent] for exactly
    the pair the calling thread's cache holds afterwards: the mock pbuffer
    with the new context if the caller asked for the new context to be
    current, and otherwise the pair cached before, bound again after the
    detour over the new context. *)
Theorem createRenderer_cache_follows_binding id shareContext makeNewContextCurrent w
    result w' :
  createRenderer id shareContext makeNewContextCurrent false w = Returns result w' ->
  Error_isError result.1 = false ->
  exists renderer before answer snapshot,
    result = (NoError, Some renderer)
    /\ renderer_isExternal renderer = false
    /\ calls w'
       = before
         ++ [mkCall (eglMakeCurrent (CurrentNativeContext.surface (threadState w' id))
                       (CurrentNativeContext.context (threadState w' id)))
               answer snapshot]
    /\ answer <> EGL_FALSE
    /\ displayKeptBut id w w'
    /\ (if makeNewContextCurrent
        then threadState w' id
             = CurrentNativeContext.mk (mMockPbuffer (this w)) (renderer_getContext renderer)
                 (CurrentNativeContext.isExternalContext (threadState w id))
        else threadState w' id = threadState w id).
Proof.
  intros Hrun Hok.
  pose proof (createRenderer_keeps id shareContext makeNewContextCurrent false w) as Hkept.
  rewrite Hrun in Hkept. cbn [worldOf] in Hkept.
  destruct (createRenderer_created _ _ _ _ _ _ Hrun Hok)
    as (initialized & w0 & extra & context & attribs & bound & snapshot & e
        & _ & Hthis & Hcalls & Hbound & Hfinish & ->).
  cbn [fst] in Hok.
  destruct (finishRenderer_outcome id context attribs makeNewContextCurrent false
              {| this := this w0;
                 calls := calls w0
                          ++ [mkCall (eglMakeCurrent (mMockPbuffer (this w)) context) bound
                                snapshot] |})
    as (e' & w1 & Hfinish' & _ & _ & Hout).
  rewrite Hfinish in Hfinish'. injection Hfinish' as <- <-.
  destruct (Hout Hok eq_refl) as [-> Hshape].
  assert (Hstate : threadState {| this := this w0;
                                  calls := calls w0
                                           ++ [mkCall (eglMakeCurrent (mMockPbuffer (this w))
                                                         context) bound snapshot] |} id
                   = threadState w id).
  { unfold threadState. cbn [this]. rewrite Hthis. reflexivity. }
  rewrite Hstate in Hshape. cbn [this calls] in Hshape. rewrite Hthis in Hshape.
  exists (mkRenderer context attribs false).
  destruct makeNewContextCurrent.
  - destruct Hshape as [Hlog Hcache].
    exists (calls w0), bound, snapshot. rewrite Hcache, Hlog.
    repeat (split; [first [reflexivity|assumption]|]). reflexivity.
  - destruct Hshape as (Hcache & answer & snapshot' & Hlog & Hanswer).
    eexists _, answer, snapshot'. rewrite Hcache.
    repeat (split; [first [reflexivity|eassumption]|]). reflexivity.
Qed.





End Renderers.

(** ** The further properties at sample inputs *)

Lemma makeCurrent_external_is_silent_witness :
  calls (worldOf (makeCurrent (build := Sample.debug_build) 0%nat
                    (Some Sample.external_surface) None (Some Sample.external_context)
                    Sample.legacy))
  = [].
Proof.
  apply (makeCurrent_external_is_silent (build := Sample.debug_build) 0%nat
           (Some Sample.external_surface) None (Some Sample.external_context)
           Sample.legacy).
  reflexivity.
Defined.

Lemma makeCurrent_repeat_is_free_witness :
  exists w1,
    makeCurrent (build := Sample.debug_build) 0%nat (Some Sample.window)
      (Some Sample.window) (Some Sample.plain_context) Sample.legacy
    = Returns NoError w1
    /\ makeCurrent (build := Sample.debug_build) 0%nat (Some Sample.window)
         (Some Sample.window) (Some Sample.plain_context) w1
       = Returns NoError w1.
Proof.
  apply (makeCurrent_repeat_is_free (build := Sample.debug_build) 0%nat
           (Some Sample.window) (Some Sample.window) (Some Sample.plain_context)
           Sample.legacy).
  - reflexivity.
  - reflexivity.
  - intros _. split; [reflexivity|]. intros H. discriminate H.
  - right. vm_compute. discriminate.
Defined.

Lemma makeCurrent_external_switch_is_inert_witness :
  makeCurrent (build := Sample.debug_build) 0%nat (Some Sample.external_surface) None
    (Some Sample.external_context) Scenario.adopted
  = Returns NoError Scenario.adopted.
Proof.
  apply (makeCurrent_external_switch_is_inert (build := Sample.debug_build) 0%nat
           (Some Sample.external_surface) None Sample.external_context Scenario.adopted
           (CurrentNativeContext.mk EGL_NO_SURFACE 77 true)).
  - reflexivity.
  - reflexivity.
  - intros _. split; [reflexivity|]. split; [reflexivity|].
    split; [vm_compute; discriminate|].
    exists Sample.external_surface. repeat split.
Defined.

Lemma makeCurrent_binds_what_was_asked_witness :
  exists extra,
    calls (worldOf (makeCurrent (build := Sample.debug_build) 0%nat (Some Sample.window)
                      (Some Sample.window) (Some Sample.plain_context) Sample.legacy))
    = [] ++ extra
    /\ Forall (fun c => call c = eglMakeCurrent 5 41 \/ call c = eglGetError) extra
    /\ (length extra <= 2)%nat.
Proof.
  apply (makeCurrent_binds_what_was_asked (build := Sample.debug_build) 0%nat
           (Some Sample.window) (Some Sample.window) (Some Sample.plain_context)
           Sample.legacy).
  - reflexivity.
  - reflexivity.
  - left. reflexivity.
Defined.

Lemma makeCurrent_never_binds_surfaceless_witness :
  exists extra,
    calls (worldOf (makeCurrent (build := Sample.debug_build) 0%nat None None
                      (Some Sample.plain_context) Sample.modern))
    = [] ++ extra
    /\ Forall (fun n =>
                 (exists surface,
                    call n = eglMakeCurrent surface 41 /\ surface <> EGL_NO_SURFACE)
                 \/ call n = eglGetError) extra.
Proof.
  apply (makeCurrent_never_binds_surfaceless (build := Sample.debug_build) 0%nat None None
           Sample.plain_context Sample.modern).
  - reflexivity.
  - reflexivity.
  - reflexivity.
  - reflexivity.
  - vm_compute. discriminate.
  - vm_compute. discriminate.
Defined.

Lemma destroyNativeContext_leaves_no_reference_witness :
  (forall id currentContext,
     mCurrentNativeContexts
       (this (worldOf (destroyNativeContext 41
                         Scenario.bound))) !! id
     = Some currentContext ->
     CurrentNativeContext.context currentContext <> 41)
  /\ (forall id,
        is_Some (mCurrentNativeContexts
                   (this (worldOf (destroyNativeContext 41
                                     Scenario.bound))) !! id)
        <-> is_Some (mCurrentNativeContexts (this Scenario.bound) !! id)).
Proof.
  apply (destroyNativeContext_leaves_no_reference 41 Scenario.bound).
  vm_compute. discriminate.
Defined.

Lemma destroyNativeContext_then_unbind_is_free_witness :
  let w' := worldOf (destroyNativeContext 41 Scenario.bound) in
  makeCurrent (build := Sample.debug_build) 0%nat None None None w' = Returns NoError w'.
Proof.
  apply (destroyNativeContext_then_unbind_is_free (build := Sample.debug_build) 0%nat 41
           Scenario.bound (CurrentNativeContext.mk 5 41 false)).
  - reflexivity.
  - reflexivity.
  - reflexivity.
Defined.

Lemma destroyNativeContext_then_bind_is_native_witness :
  let w' := worldOf (destroyNativeContext 41 Scenario.bound) in
  exists n extra,
    calls (worldOf (makeCurrent (build := Sample.debug_build) 0%nat (Some Sample.window)
                      None (Some Sample.plain_context) w'))
    = calls w' ++ n :: extra
    /\ call n = eglMakeCurrent 5 41.
Proof.
  apply (destroyNativeContext_then_bind_is_native (build := Sample.debug_build) 0%nat
           (Some Sample.window) None Sample.plain_context Scenario.bound).
  - vm_compute. discriminate.
  - reflexivity.
  - reflexivity.
  - reflexivity.
Defined.

Lemma generateConfigs_idempotent_witness :
  exists configSet w1,
    generateConfigs (build := Sample.debug_build) Sample.legacy = Returns configSet w1
    /\ generateConfigs (build := Sample.debug_build) w1 = Returns configSet w1.
Proof.
  apply (generateConfigs_idempotent (build := Sample.debug_build) Sample.legacy).
  intros _. split; [vm_compute; discriminate|].
  repeat constructor; intros _; reflexivity.
Defined.

Lemma generateConfigs_records_native_ids_witness :
  exists configSet w1,
    generateConfigs (build := Sample.debug_build) Sample.legacy = Returns configSet w1
    /\ (forall id config,
          configSet !! id = Some config ->
          exists c,
            c ∈ [1; 2; 3]
            /\ documented_entry (readConfig (Sample.egl 4 []) c)
               = Some (Config.set_configID
                         (configAttrib (Sample.egl 4 []) c EGL_CONFIG_ID) config)
            /\ mConfigIds (this w1) !! id
               = Some (configAttrib (Sample.egl 4 []) c EGL_CONFIG_ID))
    /\ (forall id, configSet !! id = None -> mConfigIds (this w1) !! id = None).
Proof.
  apply (generateConfigs_records_native_ids (build := Sample.debug_build) Sample.legacy).
  intros _. split; [vm_compute; discriminate|].
  repeat constructor; intros _; reflexivity.
Defined.

Lemma generateConfigs_hides_pixmaps_witness :
  exists configSet w1,
    generateConfigs (build := Sample.debug_build) Sample.legacy = Returns configSet w1
    /\ (forall id, is_Some (configSet !! id) <-> 1 <= id <= Z.of_nat (size configSet))
    /\ (forall id config,
          configSet !! id = Some config ->
          Config.configID config = id
          /\ Z.land (Config.surfaceType config) EGL_PIXMAP_BIT = 0
          /\ Config.matchNativePixmap config = EGL_NONE
          /\ Config.optimalOrientation config = 0).
Proof.
  apply (generateConfigs_hides_pixmaps (build := Sample.debug_build) Sample.legacy).
  intros _. split; [vm_compute; discriminate|].
  repeat constructor; intros _; reflexivity.
Defined.

Lemma worker_lifecycle_witness :
  exists bound w2,
    (bound ← WorkerContextEGL.makeCurrent Scenario.worker;
     WorkerContextEGL.unmakeCurrent Scenario.worker;;
     WorkerContextEGL.destroy Scenario.worker;;
     mret bound)
      (mkWorld (this Sample.legacy)
         [mkCall (eglCreateContext EGL_NO_CONFIG_KHR EGL_NO_CONTEXT
                    [EGL_CONTEXT_MAJOR_VERSION; 2; EGL_NONE]) 42 ∅])
    = Returns bound w2
    /\ this w2 = this Sample.legacy
    /\ map call (issued Sample.legacy w2)
       = [eglCreateContext EGL_NO_CONFIG_KHR EGL_NO_CONTEXT
            [EGL_CONTEXT_MAJOR_VERSION; 2; EGL_NONE];
          eglMakeCurrent EGL_NO_SURFACE 42;
          eglMakeCurrent EGL_NO_SURFACE EGL_NO_CONTEXT;
          eglDestroyContext 42].
Proof.
  apply (worker_lifecycle "" EGL_NO_CONTEXT [EGL_CONTEXT_MAJOR_VERSION; 2; EGL_NONE]
           Sample.legacy Scenario.worker ""
           (mkWorld (this Sample.legacy)
              [mkCall (eglCreateContext EGL_NO_CONFIG_KHR EGL_NO_CONTEXT
                         [EGL_CONTEXT_MAJOR_VERSION; 2; EGL_NONE]) 42 ∅])).
  reflexivity.
Defined.

Lemma worker_binding_is_not_tracked_witness :
  exists bound w1,
    WorkerContextEGL.makeCurrent Scenario.worker Scenario.bound = Returns bound w1
    /\ this w1 = this Scenario.bound
    /\ map call (issued Scenario.bound w1) = [eglMakeCurrent EGL_NO_SURFACE 42]
    /\ makeCurrent (build := Sample.debug_build) 0%nat (Some Sample.window)
         (Some Sample.window) (Some Sample.plain_context) w1
       = Returns NoError w1.
Proof.
  apply (worker_binding_is_not_tracked (build := Sample.debug_build) 0%nat
           (Some Sample.window) (Some Sample.window) (Some Sample.plain_context)
           Scenario.worker Scenario.bound 5 41).
  - reflexivity.
  - reflexivity.
  - reflexivity.
  - intros _. reflexivity.
Defined.

Lemma createRenderer_cache_follows_binding_witness :
  exists w' renderer before answer snapshot,
    createRenderer (build := Sample.debug_build) (surroundings := Scenario.surroundings)
      0%nat EGL_NO_CONTEXT false false Scenario.bound
    = Returns (NoError, Some renderer) w'
    /\ renderer_getContext renderer = 42
    /\ calls w' = before ++ [mkCall (eglMakeCurrent 5 41) answer snapshot]
    /\ answer <> EGL_FALSE
    /\ threadState w' 0%nat = CurrentNativeContext.mk 5 41 false.
Proof.
  eassert (Hrun : createRenderer (build := Sample.debug_build)
                    (surroundings := Scenario.surroundings) 0%nat EGL_NO_CONTEXT false false
                    Scenario.bound
                  = Returns (NoError, Some (mkRenderer 42 _ false)) _)
    by (vm_compute; reflexivity).
  destruct (createRenderer_cache_follows_binding (build := Sample.debug_build)
              (surroundings := Scenario.surroundings) 0%nat EGL_NO_CONTEXT false
              Scenario.bound _ _ Hrun eq_refl)
    as (renderer & before & answer & snapshot & Hresult & _ & Hcalls & Hanswer & _ & Hstate).
  injection Hresult as <-.
  eexists _, _, before, answer, snapshot. split; [exact Hrun|]. split; [reflexivity|].
  rewrite Hstate in Hcalls. split; [exact Hcalls|]. split; [exact Hanswer|exact Hstate].
Defined.

